(** * Watchtower controller command: startup, listener-purpose checks,
      the signal loop and reload

    Shallow embedding of [Command.Run], [Command.ParseFlagsAndConfig],
    [Command.Start], [Command.WaitForInterrupt] and [Command.Reload]
    (package [controller] of the command layer) together with the
    [Controller] object they drive ([New], [Start], [Shutdown],
    [SetLogLevel]), and, in a part of its own, of the request translators
    of the REST gateway of the host service.

    Conventions.
    - The command object is a record threaded through every operation; a
      field assignment in Go is a record update here.
    - What the command prints, logs or calls on a collaborator is appended
      to a trace of [Effect]s, in program order.
    - Collaborators that live in other packages (flag parsing, the
      configuration loader, the base server's setup stages, the listener
      subsystem, [mlock]) are fields of an environment record [Env]: every
      theorem quantifies over them.
    - [select] picks one ready channel; the loop is run against a schedule,
      the list of channel events in the order [select] takes them.
    - The code reaches through [c.Config], [c.controller] and [c.Logger]
      without a check: where one of them is nil the operation ends in the
      outcome [Panicked]. *)

From Stdlib Require Import String Ascii ZArith List Bool Lia.
From stdpp Require Import base option list gmap strings fin_maps.
Import ListNotations.
Local Open Scope string_scope.
Local Open Scope Z_scope.

(** ** Configuration data *)

(** One entry of [Config.Listeners].  The slice holds pointers
    ([[]*Listener]): assigning to a field through the loop variable of a
    [range] changes the listener held by the configuration, which is what
    lets the address override in [ParseFlagsAndConfig] take effect.  The
    model therefore writes every such assignment back into the list. *)
Record Listener := mkListener {
  Address : string;
  Purpose : list string;
  TLSDisable : bool
}.

Record ConfigT := mkConfig {
  Listeners : list Listener;
  LogLevel : string;
  LogFormat : string;
  DisableMlock : bool;
  PidFile : string;
  DefaultMaxRequestDuration : Z
}.

Definition set_Purpose (ps : list string) (ln : Listener) : Listener :=
  {| Address := Address ln; Purpose := ps; TLSDisable := TLSDisable ln |}.

Definition set_Address (a : string) (ln : Listener) : Listener :=
  {| Address := a; Purpose := Purpose ln; TLSDisable := TLSDisable ln |}.

Definition set_Listeners (ls : list Listener) (cfg : ConfigT) : ConfigT :=
  {| Listeners := ls; LogLevel := LogLevel cfg; LogFormat := LogFormat cfg;
     DisableMlock := DisableMlock cfg; PidFile := PidFile cfg;
     DefaultMaxRequestDuration := DefaultMaxRequestDuration cfg |}.

(** ** Errors and user-interface messages *)

(** An [error] value: one produced by a collaborator, or one built with
    [fmt.Errorf(prefix, err)].  The aggregate of [go-multierror] is the
    list of its [Errors]. *)
Inductive Err :=
| ErrExt (s : string)
| ErrWrap (prefix : string) (e : Err).

(** The argument of [UI.Error], [UI.Warn] and [UI.Output].  Messages built
    with [fmt.Sprintf] keep their arguments instead of the rendered text. *)
Inductive Msg :=
| Text (s : string)
| ErrorText (e : Err)
| ErrorParsingConfig (e : Err)
| UnknownListenerPurpose (p : string)
| InvalidListenerPurposeSet (ps : list string)
| TLSCannotBeDisabled (p1 p2 : string)
| ReloadErrors (es : list Err).

(** The double-quote character inside a message. *)
Definition dquote : string := String (ascii_of_nat 34) EmptyString.

(** ** Listener purpose checks (the loop of [Run], lines 190-222) *)

(** [strutil.StrListContains]. *)
Definition StrListContains (haystack : list string) (needle : string) : bool :=
  existsb (String.eqb needle) haystack.

(** What one iteration of the loop does to its listener and to the two
    flags: either it goes on with the flags as given, or it reports [m]
    and [Run] returns 1. *)
Inductive Checked :=
| Marked (ln : Listener) (foundCluster foundAPI : bool)
| Rejected (ln : Listener) (m : Msg).

(** Body of [case 2], also reached from [case 0] by [fallthrough]. *)
Definition checkBoth (ln : Listener) : Checked :=
  if negb (StrListContains (Purpose ln) "api")
     || negb (StrListContains (Purpose ln) "cluster")
  then Rejected ln (InvalidListenerPurposeSet (Purpose ln))
  else if TLSDisable ln
  then Rejected ln (TLSCannotBeDisabled "api" "cluster")
  else Marked ln true true.

(** [switch len(lnConfig.Purpose)]; no [default] case. *)
Definition checkListener (ln : Listener) (foundCluster foundAPI : bool) : Checked :=
  match length (Purpose ln) with
  | 1%nat =>
      let p := nth 0 (Purpose ln) EmptyString in
      if String.eqb p "cluster" then Marked ln true foundAPI
      else if String.eqb p "api" then Marked ln foundCluster true
      else Rejected ln (UnknownListenerPurpose p)
  | 0%nat => checkBoth (set_Purpose ["api"; "cluster"] ln)
  | 2%nat => checkBoth ln
  | _ => Marked ln foundCluster foundAPI
  end.

(** [for _, lnConfig := range c.Config.Listeners].  Returns the listeners
    as the loop leaves them and either the message of the first rejection
    or the final [(foundCluster, foundAPI)]. *)
Fixpoint checkListeners (lns : list Listener) (foundCluster foundAPI : bool)
  : list Listener * (Msg + bool * bool) :=
  match lns with
  | [] => ([], inr (foundCluster, foundAPI))
  | ln :: rest =>
      match checkListener ln foundCluster foundAPI with
      | Rejected ln' m => (ln' :: rest, inl m)
      | Marked ln' fc fa =>
          let '(rest', r) := checkListeners rest fc fa in (ln' :: rest', r)
      end
  end.

Definition NoClusterListener : Msg :=
  Text "No listener marked for cluster purpose found, but listener explicitly marked for api was found".

(** The loop followed by [if foundAPI && !foundCluster]: the listeners as
    left behind, and [Some m] when [Run] prints [m] and returns 1. *)
Definition validateListeners (lns : list Listener) : list Listener * option Msg :=
  match checkListeners lns false false with
  | (lns', inl m) => (lns', Some m)
  | (lns', inr (foundCluster, foundAPI)) =>
      if foundAPI && negb foundCluster then (lns', Some NoClusterListener)
      else (lns', None)
  end.

(** ** Loggers, the base server and the command object *)

(** [hclog.Level], as far as the reload handler names it. *)
Inductive Level := Trace | Debug | Info | Warn | Error.

(** The result pair of [config.LoadFile] and [config.DevController]. *)
Record LoadResult := mkLoad {
  ld_conf : option ConfigT;
  ld_err : option Err
}.

(** The flag targets of [Command]. *)
Record Flags := mkFlags {
  flagConfig : string;
  flagLogLevel : string;
  flagLogFormat : string;
  flagDev : bool;
  flagDevAdminPassword : string;
  flagDevControllerAPIListenAddr : string;
  flagDevControllerClusterListenAddr : string;
  flagCombineLogs : bool
}.

Definition set_flagDevAdminPassword (p : string) (f : Flags) : Flags :=
  {| flagConfig := flagConfig f; flagLogLevel := flagLogLevel f;
     flagLogFormat := flagLogFormat f; flagDev := flagDev f;
     flagDevAdminPassword := p;
     flagDevControllerAPIListenAddr := flagDevControllerAPIListenAddr f;
     flagDevControllerClusterListenAddr := flagDevControllerClusterListenAddr f;
     flagCombineLogs := flagCombineLogs f |}.

(** [*controller.Controller]: the logger it was built with ([None] when
    [New] had to create one).  Its [conf] points back at the command's
    server and configuration, which stay in the command record. *)
Record Controller := mkController {
  logger : option string
}.

(** What the command does that can be seen from outside, in order. *)
Inductive Effect :=
| UIError (m : Msg)
| UIWarn (m : Msg)
| UIOutput (m : Msg)
| LoggerError (msg : string)
| LoggerInfo (msg : string)
| Call (fn : string)                  (* a collaborator is called *)
| Invoked (key : string) (i : nat)    (* [ReloadFuncs[key][i]()] *)
| ShutdownAction (i : nat)            (* [ShutdownFuncs[i]()] *)
| ReloadedCh_send (delivered : bool). (* the non-blocking send *)

Inductive Outcome :=
| Returned (code : Z)   (* the function returns [code] *)
| Panicked              (* nil dereference *)
| Blocked.              (* [select] waits for an event that never comes *)

(** One turn of the [select] in [WaitForInterrupt]: the channel that
    fired, with what the outside world answers during that turn.
    - [ShutdownCh_recv closed]: a value arrived on [ShutdownCh]
      ([closed = false]) or the channel was closed ([closed = true]);
    - [SighupCh_recv load order ackReady]: [load] is what
      [config.LoadFile(c.flagConfig)] returns if the handler calls it,
      [order] the order in which [range] visits the keys of [ReloadFuncs]
      (Go leaves the iteration order of a map unspecified), [ackReady]
      whether the send on [ReloadedCh] finds a receiver;
    - [SigUSR2Ch_recv]. *)
Inductive Event :=
| ShutdownCh_recv (closed : bool)
| SighupCh_recv (load : LoadResult) (order : list string) (ackReady : bool)
| SigUSR2Ch_recv.

Section Supervisor.

(** State of whatever the registered callbacks act on. *)
Context {W : Type}.

(** [reload.ReloadFunc] and the elements of [ShutdownFuncs]:
    [func() error]. *)
Definition ReloadFunc : Type := W -> W * option Err.
Definition ShutdownFunc : Type := W -> W * option Err.

(** The fields of [*base.Server] this file reads or writes.  A [nil]
    function value in a slice of [ReloadFuncs] is [None]. *)
Record ServerT := mkServer {
  CombineLogs : bool;
  Logger : option string;
  AllLoggers : list Level;
  SecureRandomReader : option string;
  ShutdownFuncs : list ShutdownFunc;
  ReloadFuncs : gmap string (list (option ReloadFunc))
}.

Definition set_CombineLogs (b : bool) (s : ServerT) : ServerT :=
  {| CombineLogs := b; Logger := Logger s; AllLoggers := AllLoggers s;
     SecureRandomReader := SecureRandomReader s;
     ShutdownFuncs := ShutdownFuncs s; ReloadFuncs := ReloadFuncs s |}.

Definition set_AllLoggers (ls : list Level) (s : ServerT) : ServerT :=
  {| CombineLogs := CombineLogs s; Logger := Logger s; AllLoggers := ls;
     SecureRandomReader := SecureRandomReader s;
     ShutdownFuncs := ShutdownFuncs s; ReloadFuncs := ReloadFuncs s |}.

Definition set_SecureRandomReader (r : option string) (s : ServerT) : ServerT :=
  {| CombineLogs := CombineLogs s; Logger := Logger s; AllLoggers := AllLoggers s;
     SecureRandomReader := r;
     ShutdownFuncs := ShutdownFuncs s; ReloadFuncs := ReloadFuncs s |}.

Definition set_ShutdownFuncs (fs : list ShutdownFunc) (s : ServerT) : ServerT :=
  {| CombineLogs := CombineLogs s; Logger := Logger s; AllLoggers := AllLoggers s;
     SecureRandomReader := SecureRandomReader s;
     ShutdownFuncs := fs; ReloadFuncs := ReloadFuncs s |}.

(** [Command].  [cleanupGuard] is the [done] flag of the [sync.Once]: a
    call of its [Do] would set it, and no statement of the file calls
    [Do], so no operation below writes the field.
    [globals_DefaultMaxRequestDuration] is the package variable [Run]
    assigns; [world] is what the callbacks act on; [trace] collects the
    effects.  The channels are the schedule given to the loop. *)
Record Command := mkCommand {
  flags : Flags;
  Server : ServerT;
  Config : option ConfigT;
  controller : option Controller;
  cleanupGuard : bool;
  globals_DefaultMaxRequestDuration : Z;
  world : W;
  trace : list Effect
}.

Definition set_flags (f : Flags) (c : Command) : Command :=
  {| flags := f; Server := Server c; Config := Config c;
     controller := controller c; cleanupGuard := cleanupGuard c;
     globals_DefaultMaxRequestDuration := globals_DefaultMaxRequestDuration c;
     world := world c; trace := trace c |}.

Definition set_Server (s : ServerT) (c : Command) : Command :=
  {| flags := flags c; Server := s; Config := Config c;
     controller := controller c; cleanupGuard := cleanupGuard c;
     globals_DefaultMaxRequestDuration := globals_DefaultMaxRequestDuration c;
     world := world c; trace := trace c |}.

Definition set_Config (cfg : option ConfigT) (c : Command) : Command :=
  {| flags := flags c; Server := Server c; Config := cfg;
     controller := controller c; cleanupGuard := cleanupGuard c;
     globals_DefaultMaxRequestDuration := globals_DefaultMaxRequestDuration c;
     world := world c; trace := trace c |}.

Definition set_controller (k : option Controller) (c : Command) : Command :=
  {| flags := flags c; Server := Server c; Config := Config c;
     controller := k; cleanupGuard := cleanupGuard c;
     globals_DefaultMaxRequestDuration := globals_DefaultMaxRequestDuration c;
     world := world c; trace := trace c |}.

Definition set_globals_DefaultMaxRequestDuration (d : Z) (c : Command) : Command :=
  {| flags := flags c; Server := Server c; Config := Config c;
     controller := controller c; cleanupGuard := cleanupGuard c;
     globals_DefaultMaxRequestDuration := d;
     world := world c; trace := trace c |}.

Definition set_world (w : W) (c : Command) : Command :=
  {| flags := flags c; Server := Server c; Config := Config c;
     controller := controller c; cleanupGuard := cleanupGuard c;
     globals_DefaultMaxRequestDuration := globals_DefaultMaxRequestDuration c;
     world := w; trace := trace c |}.

Definition set_trace (t : list Effect) (c : Command) : Command :=
  {| flags := flags c; Server := Server c; Config := Config c;
     controller := controller c; cleanupGuard := cleanupGuard c;
     globals_DefaultMaxRequestDuration := globals_DefaultMaxRequestDuration c;
     world := world c; trace := t |}.

(** ** Collaborators *)

(** Everything the command calls outside this file.  A setup stage of the
    base server may change the server's fields and may fail;
    [flags_Parse] fills the flag targets. *)
Record Env := mkEnv {
  flags_Parse : list string -> Flags -> Flags * option Err;
  config_LoadFile : string -> LoadResult;
  config_DevController : LoadResult;
  base_NewServer : ServerT;
  SetupLogging : string -> string -> string -> string -> ServerT -> ServerT * option Err;
  SetupMetrics : ServerT -> ServerT * option Err;
  SetupKMSes : ServerT -> ServerT * option Err;
  mlock_Supported : bool;
  SetupListeners : ConfigT -> ServerT -> ServerT * option Err;
  StorePidFile : string -> ServerT -> ServerT * option Err;
  CreateDevDatabase : ServerT -> ServerT * option Err;
  DestroyDevDatabase : ShutdownFunc;
  mlock_LockMemory : option Err;
  startListeners : option Err;
  stopListeners : option Err;
  strings_TrimSpace : string -> string;
  strings_ToLower : string -> string
}.

(** ** Control flow *)

(** A statement sequence either goes on with a value or leaves the
    function ([return], a panic, or a [select] that never fires). *)
Inductive Res (A : Type) :=
| Cont (a : A) (c : Command)
| Stop (o : Outcome) (c : Command).
Arguments Cont {A} a c.
Arguments Stop {A} o c.

Definition M (A : Type) : Type := Command -> Res A.

#[export] Instance M_ret : MRet M := fun A a c => Cont a c.
#[export] Instance M_bind : MBind M := fun A B f m c =>
  match m c with
  | Cont a c' => f a c'
  | Stop o c' => Stop o c'
  end.

Definition get : M Command := fun c => Cont c c.
Definition modify (f : Command -> Command) : M unit := fun c => Cont tt (f c).
Definition emit (e : Effect) : M unit := modify (fun c => set_trace (trace c ++ [e]) c).
Definition exit {A} (code : Z) : M A := fun c => Stop (Returned code) c.
Definition panic {A} : M A := fun c => Stop Panicked c.

(** [c.Config.<field>]: a nil [c.Config] panics. *)
Definition theConfig : M ConfigT :=
  c ← get; match Config c with Some cfg => mret cfg | None => panic end.

(** [c.Logger.<method>(...)]: [c.Logger] is an interface value, and a
    method call on it panics when it is nil. *)
Definition theLogger : M string :=
  c ← get; match Logger (Server c) with Some l => mret l | None => panic end.

(** A method of the base server given by the environment. *)
Definition stage (fn : string) (f : ServerT -> ServerT * option Err) : M (option Err) :=
  emit (Call fn);;
  c ← get;
  let '(s, err) := f (Server c) in
  modify (set_Server s);;
  mret err.

(** ** [Command.ParseFlagsAndConfig] *)

(** Body of the loop over the dev listeners (lines 295-310). *)
Definition devListenerAddress (f : Flags) (l : Listener) : Listener :=
  if negb (Nat.eqb (length (Purpose l)) 1) then l
  else
    let p := nth 0 (Purpose l) EmptyString in
    if String.eqb p "api" then
      if negb (String.eqb (flagDevControllerAPIListenAddr f) EmptyString)
      then set_Address (flagDevControllerAPIListenAddr f) l else l
    else if String.eqb p "cluster" then
      if negb (String.eqb (flagDevControllerClusterListenAddr f) EmptyString)
      then set_Address (flagDevControllerClusterListenAddr f) l else l
    else l.

Definition MustSpecifyConfig : Msg := Text "Must specify a config file using -config".
Definition AdminPasswordIgnored : Msg :=
  Text ("You cannot specify a custom admin password outside of " ++ dquote
        ++ "dev" ++ dquote ++ " mode. Your request has been ignored.").

Definition ParseFlagsAndConfig (env : Env) (args : list string) : M Z :=
  c ← get;
  let '(f, err) := flags_Parse env args (flags c) in
  modify (set_flags f);;
  match err with
  | Some e => emit (UIError (ErrorText e));; mret 1
  | None =>
      if negb (flagDev f) then
        if Nat.eqb (String.length (flagConfig f)) 0 then
          emit (UIError MustSpecifyConfig);; mret 1
        else
          (if negb (String.eqb (flagDevAdminPassword f) EmptyString) then
             emit (UIWarn AdminPasswordIgnored);;
             modify (fun c => set_flags (set_flagDevAdminPassword EmptyString (flags c)) c)
           else mret tt);;
          let r := config_LoadFile env (flagConfig f) in
          modify (set_Config (ld_conf r));;
          match ld_err r with
          | Some e => emit (UIError (ErrorParsingConfig e));; mret 1
          | None => mret 0
          end
      else
        let r := config_DevController env in
        modify (set_Config (ld_conf r));;
        match ld_err r with
        | Some e => emit (UIError (ErrorText (ErrWrap "Error creating dev config" e)));; mret 1
        | None =>
            cfg ← theConfig;
            modify (set_Config
                      (Some (set_Listeners (map (devListenerAddress f) (Listeners cfg)) cfg)));;
            mret 0
        end
  end.

(** ** The controller object *)

(** [c.controller.<method>]: the methods reach through the receiver, so a
    nil [c.controller] panics. *)
Definition theController : M Controller :=
  c ← get; match controller c with Some k => mret k | None => panic end.

(** [controller.New(conf)], with [conf.Server = c.Server] and
    [conf.RawConfig = c.Config]. *)
Definition controller_New (env : Env) : M (option Controller * option Err) :=
  c ← get;
  let lg := Logger (Server c) in
  (match lg with
   | None => modify (fun c => set_Server (set_AllLoggers (AllLoggers (Server c) ++ [Trace]) (Server c)) c)
   | Some _ => mret tt
   end);;
  c ← get;
  (match SecureRandomReader (Server c) with
   | None => modify (fun c => set_Server (set_SecureRandomReader (Some "rand.Reader") (Server c)) c)
   | Some _ => mret tt
   end);;
  cfg ← theConfig;
  if negb (DisableMlock cfg) then
    emit (Call "mlock.LockMemory");;
    match mlock_LockMemory env with
    | Some e => mret (None, Some (ErrWrap "Failed to lock memory" e))
    | None => mret (Some {| logger := lg |}, None)
    end
  else mret (Some {| logger := lg |}, None).

(** [Controller.Start]. *)
Definition controller_Start (env : Env) : M (option Err) :=
  _ ← theController;
  emit (Call "startListeners");;
  match startListeners env with
  | Some e => mret (Some (ErrWrap "error starting controller listeners" e))
  | None => mret None
  end.

(** [Controller.Shutdown]: every call stops the listeners. *)
Definition controller_Shutdown (env : Env) : M (option Err) :=
  _ ← theController;
  emit (Call "stopListeners");;
  match stopListeners env with
  | Some e => mret (Some (ErrWrap "error stopping controller listeners" e))
  | None => mret None
  end.

(** [Controller.SetLogLevel]: [logger.SetLevel(level)] on every logger
    of [conf.AllLoggers]. *)
Definition controller_SetLogLevel (level : Level) : M unit :=
  _ ← theController;
  modify (fun c => set_Server (set_AllLoggers (map (fun _ => level) (AllLoggers (Server c))) (Server c)) c).

(** ** [Command.Start] *)

Definition Start (env : Env) : M (option Err) :=
  '(k, err) ← controller_New env;
  modify (set_controller k);;
  match err with
  | Some e => mret (Some (ErrWrap "Error initializing controller" e))
  | None =>
      serr ← controller_Start env;
      match serr with
      | Some e =>
          let retErr := ErrWrap "Error starting controller" e in
          sherr ← controller_Shutdown env;
          match sherr with
          | Some e2 =>
              emit (UIError (ErrorText retErr));;
              mret (Some (ErrWrap "Error with controller shutdown" e2))
          | None => mret (Some retErr)
          end
      | None => mret None
      end
  end.

(** ** [Command.Reload] *)

(** [multierror.Append(reloadErrors, err)] with a plain [err], and
    [ErrorOrNil] of the aggregate. *)
Definition multierror_Append (me : option (list Err)) (e : Err) : option (list Err) :=
  match me with
  | None => Some [e]
  | Some es => Some (es ++ [e])%list
  end.

Definition ErrorOrNil (me : option (list Err)) : option (list Err) :=
  match me with
  | Some (e :: es) => Some (e :: es)
  | _ => None
  end.

(** [strings.HasPrefix(s, prefix)]. *)
Definition HasPrefix (s pre : string) : bool := String.prefix pre s.

(** [for _, relFunc := range relFuncs], from index [i] on. *)
Fixpoint reloadSlice (k : string) (i : nat) (relFuncs : list (option ReloadFunc))
    (reloadErrors : option (list Err)) : M (option (list Err)) :=
  match relFuncs with
  | [] => mret reloadErrors
  | relFunc :: rest =>
      match relFunc with
      | Some f =>
          emit (Invoked k i);;
          c ← get;
          let '(w, err) := f (world c) in
          modify (set_world w);;
          reloadSlice k (S i) rest
            (match err with
             | Some e => multierror_Append reloadErrors
                           (ErrWrap "error encountered reloading listener" e)
             | None => reloadErrors
             end)
      | None => reloadSlice k (S i) rest reloadErrors
      end
  end.

(** [for k, relFuncs := range c.ReloadFuncs], visiting the keys in
    [order]. *)
Fixpoint reloadKeys (m : gmap string (list (option ReloadFunc))) (order : list string)
    (reloadErrors : option (list Err)) : M (option (list Err)) :=
  match order with
  | [] => mret reloadErrors
  | k :: rest =>
      match m !! k with
      | Some relFuncs =>
          if HasPrefix k "listener|" then
            r ← reloadSlice k 0 relFuncs reloadErrors;
            reloadKeys m rest r
          else reloadKeys m rest reloadErrors
      | None => reloadKeys m rest reloadErrors
      end
  end.

(** The read lock held around the loop does nothing in a run with one
    thread and is left out. *)
Definition Reload (order : list string) (ackReady : bool) : M (option (list Err)) :=
  c ← get;
  r ← reloadKeys (ReloadFuncs (Server c)) order None;
  emit (ReloadedCh_send ackReady);;
  mret (ErrorOrNil r).

(** ** [Command.WaitForInterrupt] *)

(** The [switch configLogLevel] of the reload handler; [None] is its
    [default] case. *)
Definition levelOf (configLogLevel : string) : option Level :=
  if String.eqb configLogLevel "trace" then Some Trace
  else if String.eqb configLogLevel "debug" then Some Debug
  else if String.eqb configLogLevel "notice" || String.eqb configLogLevel "info"
          || String.eqb configLogLevel EmptyString then Some Info
  else if String.eqb configLogLevel "warn" || String.eqb configLogLevel "warning" then Some Warn
  else if String.eqb configLogLevel "err" || String.eqb configLogLevel "error" then Some Error
  else None.

(** The handler of [SighupCh] down to the label [RUNRELOADFUNCS]: every
    [goto RUNRELOADFUNCS] is the end of this block.  The three messages
    are calls of [c.Logger.Error] (lines 371, 377 and 398). *)
Definition reloadConfig (env : Env) (load : LoadResult) : M unit :=
  c ← get;
  if String.eqb (flagConfig (flags c)) EmptyString then mret tt
  else
    match ld_err load with
    | Some _ => _ ← theLogger; emit (LoggerError "could not reload config")
    | None =>
        match ld_conf load with
        | None => _ ← theLogger; emit (LoggerError "no config found at reload time")
        | Some newConf =>
            if negb (String.eqb (LogLevel newConf) EmptyString) then
              match levelOf (strings_ToLower env (strings_TrimSpace env (LogLevel newConf))) with
              | Some level => controller_SetLogLevel level
              | None => _ ← theLogger; emit (LoggerError "unknown log level found on reload")
              end
            else mret tt
        end
    end.

(** From [RUNRELOADFUNCS] to the end of the case. *)
Definition runReloadFuncs (order : list string) (ackReady : bool) : M unit :=
  err ← Reload order ackReady;
  match err with
  | Some es => emit (UIError (ReloadErrors es))
  | None => mret tt
  end.

Definition handleSighup (env : Env) (load : LoadResult) (order : list string)
    (ackReady : bool) : M unit :=
  emit (UIOutput (Text "==> Watchtower controller reload triggered"));;
  reloadConfig env load;;
  runReloadFuncs order ackReady.

Definition handleShutdown (env : Env) : M unit :=
  emit (UIOutput (Text "==> Watchtower controller shutdown triggered"));;
  err ← controller_Shutdown env;
  match err with
  | Some e => emit (UIError (ErrorText (ErrWrap "Error with controller shutdown" e)))
  | None => mret tt
  end.

(** The case of [SigUSR2Ch] (lines 409-412): the stacks are taken, then
    logged with [c.Logger.Info]. *)
Definition handleSigUSR2 : M unit :=
  emit (Call "runtime.Stack");;
  _ ← theLogger;
  emit (LoggerInfo "goroutine trace").

(** [for !shutdownTriggered { select { ... } }] against the schedule
    [evs]: the shutdown case sets [shutdownTriggered], so the loop is left
    and 0 returned; the other cases go round again; with no event left
    the [select] waits for ever. *)
Fixpoint WaitForInterrupt (env : Env) (evs : list Event) : M Z :=
  match evs with
  | [] => fun c => Stop Blocked c
  | ShutdownCh_recv _ :: _ => handleShutdown env;; mret 0
  | SighupCh_recv load order ackReady :: rest =>
      handleSighup env load order ackReady;; WaitForInterrupt env rest
  | SigUSR2Ch_recv :: rest =>
      handleSigUSR2;; WaitForInterrupt env rest
  end.

(** ** [Command.Run] *)

(** Modelled from the spec: [RunShutdownFuncs] of the base server is not
    in this file.  The registered shutdown actions run, each once, in the
    order of [ShutdownFuncs]; a failing action is reported and the others
    still run. *)
Fixpoint runShutdownFuncsFrom (i : nat) (fs : list ShutdownFunc) (c : Command) : Command :=
  match fs with
  | [] => c
  | f :: rest =>
      let '(w, err) := f (world c) in
      let c1 := set_world w (set_trace (trace c ++ [ShutdownAction i]) c) in
      let c2 := match err with
                | Some e => set_trace (trace c1 ++ [UIError (ErrorText (ErrWrap "Error running a shutdown task" e))]) c1
                | None => c1
                end in
      runShutdownFuncsFrom (S i) rest c2
  end.

Definition RunShutdownFuncs (c : Command) : Command :=
  let c1 := set_trace (trace c ++ [Call "RunShutdownFuncs"]) c in
  runShutdownFuncsFrom 0 (ShutdownFuncs (Server c1)) c1.

(** [defer d(); body]: [d] runs when the function returns or panics, not
    while it is still waiting. *)
Definition deferring {A} (d : Command -> Command) (body : M A) : M A := fun c =>
  match body c with
  | Cont a c' => Cont a (d c')
  | Stop Blocked c' => Stop Blocked c'
  | Stop o c' => Stop o (d c')
  end.

(** [if err != nil { c.UI.Error(...); return 1 }]. *)
Definition orFail (wrap : Err -> Err) (err : option Err) : M unit :=
  match err with
  | Some e => emit (UIError (ErrorText (wrap e)));; exit 1
  | None => mret tt
  end.

Definition MlockWarning : Msg :=
  Text "WARNING! mlock is not supported on this system! An mlockall(2)-like syscall to prevent memory from being swapped to disk is not supported on this system. For better security, only run Watchtower on systems where this call is supported. If you are running Watchtowerin a Docker container, provide the IPC_LOCK cap to the container.".

(** Lines 150-155. *)
Definition loadFlagsAndConfig (env : Env) (args : list string) : M unit :=
  modify (set_Server (base_NewServer env));;
  modify (fun c => set_Server (set_CombineLogs (flagCombineLogs (flags c)) (Server c)) c);;
  result ← ParseFlagsAndConfig env args;
  if 0 <? result then exit result else mret tt.

(** Lines 157-188. *)
Definition setupStages (env : Env) : M unit :=
  cfg ← theConfig;
  c ← get;
  err ← stage "SetupLogging"
          (SetupLogging env (flagLogLevel (flags c)) (flagLogFormat (flags c))
             (LogLevel cfg) (LogFormat cfg));
  orFail id err;;
  emit (Call "StartMemProfiler");;
  err ← stage "SetupMetrics" (SetupMetrics env);
  orFail id err;;
  err ← stage "SetupKMSes" (SetupKMSes env);
  orFail id err;;
  (if negb (DefaultMaxRequestDuration cfg =? 0)
   then modify (set_globals_DefaultMaxRequestDuration (DefaultMaxRequestDuration cfg))
   else mret tt);;
  (if negb (flagDev (flags c)) && negb (DisableMlock cfg) && negb (mlock_Supported env)
   then emit (UIWarn MlockWarning)
   else mret tt).

(** Lines 150-188: everything before the listener checks. *)
Definition startupBeforeChecks (env : Env) (args : list string) : M unit :=
  loadFlagsAndConfig env args;;
  setupStages env.

(** Lines 190-226: the loop over the listeners and the check of the two
    flags.  Whatever the loop assigned to a listener stays in the
    configuration, also when [Run] returns 1. *)
Definition checkListenerPurposes : M unit :=
  cfg ← theConfig;
  let '(lns, r) := validateListeners (Listeners cfg) in
  modify (set_Config (Some (set_Listeners lns cfg)));;
  match r with
  | Some m => emit (UIError m);; exit 1
  | None => mret tt
  end.

(** Lines 227-244. *)
Definition startupAfterChecks (env : Env) : M unit :=
  cfg ← theConfig;
  err ← stage "SetupListeners" (SetupListeners env cfg);
  orFail id err;;
  err ← stage "StorePidFile" (StorePidFile env (PidFile cfg));
  orFail (ErrWrap "Error storing PID") err;;
  c ← get;
  if flagDev (flags c) then
    err ← stage "CreateDevDatabase" (CreateDevDatabase env);
    orFail (ErrWrap "Error creating dev database container") err;;
    modify (fun c => set_Server
                       (set_ShutdownFuncs (ShutdownFuncs (Server c) ++ [DestroyDevDatabase env])
                          (Server c)) c)
  else mret tt.

(** Lines 248-256, the part of [Run] the [defer] of line 246 covers. *)
Definition serve (env : Env) (evs : list Event) : M Z :=
  emit (Call "PrintInfo");;
  emit (Call "ReleaseLogGate");;
  err ← Start env;
  orFail id err;;
  code ← WaitForInterrupt env evs;
  exit code.

(** [Run(args)], with [evs] the events the loop will see.  The result is
    always a [Stop]: the exit code, a panic, or a loop still waiting. *)
Definition Run (env : Env) (evs : list Event) (args : list string) : M Z :=
  startupBeforeChecks env args;;
  checkListenerPurposes;;
  startupAfterChecks env;;
  deferring RunShutdownFuncs (serve env evs).

End Supervisor.

Arguments ReloadFunc : clear implicits.
Arguments ShutdownFunc : clear implicits.
Arguments ServerT : clear implicits.
Arguments Command : clear implicits.
Arguments Env : clear implicits.
Arguments Res : clear implicits.
Arguments M : clear implicits.
Arguments Cont {W A} a c.
Arguments Stop {W A} o c.

(** ** Vocabulary of the statements *)

(** The command record a computation ends with. *)
Definition stateOf {W A} (r : Res W A) : Command W :=
  match r with
  | Cont _ c => c
  | Stop _ c => c
  end.

(** How a computation left: [None] when it goes on. *)
Definition outcomeOf {W A} (r : Res W A) : option Outcome :=
  match r with
  | Cont _ _ => None
  | Stop o _ => Some o
  end.

(** The reload callbacks called, the shutdown actions run, the calls of
    [RunShutdownFuncs] and the calls that stop the listeners (one per
    call of [Controller.Shutdown]), as a trace shows them. *)
Definition invokedOf (t : list Effect) : list (string * nat) :=
  omap (fun e => match e with Invoked k i => Some (k, i) | _ => None end) t.

Definition ranActions (t : list Effect) : list nat :=
  omap (fun e => match e with ShutdownAction i => Some i | _ => None end) t.

Definition isCall (fn : string) (e : Effect) : bool :=
  match e with
  | Call g => String.eqb g fn
  | _ => false
  end.

Definition calls (fn : string) (t : list Effect) : nat :=
  length (List.filter (isCall fn) t).

Definition teardowns (t : list Effect) : nat := calls "stopListeners" t.

(** Lines 150-244 of [Run]: everything before the [defer]. *)
Definition startup {W} (env : Env W) (args : list string) : M W unit :=
  startupBeforeChecks env args;;
  checkListenerPurposes;;
  startupAfterChecks env.

(** A computation leaves the part [part] of the command as it found it,
    however it ends. *)
Definition preserves {W X A} (part : Command W -> X) (m : M W A) : Prop :=
  forall c, part (stateOf (m c)) = part c.

(** What the signal loop leaves alone: everything but the world, the
    loggers' levels and the trace, in which it runs no shutdown action. *)
Definition loopFrame {W} (c : Command W) :=
  (flags c, Config c, controller c, cleanupGuard c,
   globals_DefaultMaxRequestDuration c,
   ShutdownFuncs (Server c), ReloadFuncs (Server c),
   ranActions (trace c), calls "RunShutdownFuncs" (trace c)).

(** The same with the calls that stop the listeners: what the handlers of
    the reload and dump signals leave alone. *)
Definition handlerFrame {W} (c : Command W) := (loopFrame c, teardowns (trace c)).

(** What lines 248-256 leave alone. *)
Definition serveFrame {W} (c : Command W) :=
  (flags c, Config c, cleanupGuard c, globals_DefaultMaxRequestDuration c,
   ShutdownFuncs (Server c), ReloadFuncs (Server c),
   ranActions (trace c), calls "RunShutdownFuncs" (trace c)).

(** What the startup stages leave alone. *)
Definition startupFrame {W} (c : Command W) :=
  (cleanupGuard c, world c, ranActions (trace c), calls "RunShutdownFuncs" (trace c)).

(** *** Listener purposes *)

(** The purposes a listener serves: the declared ones, both when none is
    declared. *)
Definition serves (p : string) (ln : Listener) : Prop :=
  Purpose ln = [] \/ In p (Purpose ln).


(** The listener passes the rules for a single listener: the loop body
    does not reject it. *)
Definition passesOwnRules (ln : Listener) : Prop :=
  forall fc fa, exists ln' fc' fa', checkListener ln fc fa = Marked ln' fc' fa'.

(** What an iteration decides, without the listener. *)
Definition verdict (ch : Checked) : Msg + bool * bool :=
  match ch with
  | Marked _ fc fa => inr (fc, fa)
  | Rejected _ m => inl m
  end.

(** [Run] gets through everything before the listener checks and arrives
    there with the configuration [cfg]. *)
Definition reachesChecks {W} (env : Env W) (args : list string) (c : Command W)
    (cfg : ConfigT) : Prop :=
  exists c1, startupBeforeChecks env args c = Cont tt c1 /\ Config c1 = Some cfg.

(** [Run] returns 1 from the listener checks: [m] is the last thing it
    prints, right after the trace of the stages before the checks, so no
    listener is set up. *)
Definition failsAtChecks {W} (env : Env W) (evs : list Event) (args : list string)
    (c : Command W) (m : Msg) : Prop :=
  exists c1 c2,
    startupBeforeChecks env args c = Cont tt c1 /\
    Run env evs args c = Stop (Returned 1) c2 /\
    trace c2 = (trace c1 ++ [UIError m])%list.

(** *** The reload registry *)

(** Modelled from the spec: registration is done by other subsystems
    (listener bring-up) and is not in this file; a callback is appended to
    the sequence kept under its key. *)
Definition register {W} (k : string) (f : option (ReloadFunc W))
    (m : gmap string (list (option (ReloadFunc W)))) : gmap string (list (option (ReloadFunc W))) :=
  <[k := (default [] (m !! k) ++ [f])%list]> m.

(** The registry after the registrations [regs], oldest first, and the
    place [(key, index)] each registration got. *)
Definition registry {W} (regs : list (string * option (ReloadFunc W)))
  : gmap string (list (option (ReloadFunc W))) :=
  fold_left (fun m r => register (fst r) (snd r) m) regs ∅.

Fixpoint placesFrom {W} (m : gmap string (list (option (ReloadFunc W))))
    (regs : list (string * option (ReloadFunc W))) : list (string * nat) :=
  match regs with
  | [] => []
  | (k, f) :: rest => (k, length (default [] (m !! k))) :: placesFrom (register k f m) rest
  end.

(** The non-nil callbacks of a slice with their indices, first to last. *)
Fixpoint nonNilFrom {W} (i : nat) (relFuncs : list (option (ReloadFunc W)))
  : list (nat * ReloadFunc W) :=
  match relFuncs with
  | [] => []
  | Some f :: rest => (i, f) :: nonNilFrom (S i) rest
  | None :: rest => nonNilFrom (S i) rest
  end.

(** The callbacks a reload selects when it visits the keys in [order]:
    those under a key with the listener prefix, key by key, each key's
    callbacks in the order of its sequence. *)
Definition selected {W} (m : gmap string (list (option (ReloadFunc W)))) (order : list string)
  : list (string * nat * ReloadFunc W) :=
  flat_map (fun k =>
    match m !! k with
    | Some relFuncs =>
        if HasPrefix k "listener|"
        then map (fun jf => (k, fst jf, snd jf)) (nonNilFrom 0 relFuncs)
        else []
    | None => []
    end) order.

(** The positions of a slice that hold a callback, in increasing order. *)
Definition nonNilIndices {A} (relFuncs : list (option A)) : list nat :=
  List.filter (fun i => match nth i relFuncs None with Some _ => true | None => false end)
    (seq 0 (length relFuncs)).

(** Of the calls [inv], the indices of those made under key [k], in the
    order of the calls. *)
Definition callsFor (k : string) (inv : list (string * nat)) : list nat :=
  map snd (List.filter (fun x => String.eqb (fst x) k) inv).

(** Running callbacks one after the other, whatever each returns: the
    world they leave and the failures, each wrapped as [Reload] does. *)
Fixpoint runAll {W} (fs : list (ReloadFunc W)) (w : W) : W * list Err :=
  match fs with
  | [] => (w, [])
  | f :: rest =>
      let '(w1, err) := f w in
      let '(w2, errs) := runAll rest w1 in
      (w2, match err with
           | Some e => ErrWrap "error encountered reloading listener" e :: errs
           | None => errs
           end)
  end.

(** *** The configuration as loaded and as left *)

(** What the loader handed to [ParseFlagsAndConfig]. *)
Definition loadedBy {W} (env : Env W) (f : Flags) : LoadResult :=
  if flagDev f then config_DevController env else config_LoadFile env (flagConfig f).

(** A listener of the loaded configuration [l] and the same listener
    later [l']: the dev address override may have been applied, and an
    empty purpose list may have been filled in. *)
Definition listenerFrame (f : Flags) (l l' : Listener) : Prop :=
  exists l0,
    (l0 = l \/ (flagDev f = true /\ l0 = devListenerAddress f l)) /\
    (l' = l0 \/ (Purpose l0 = [] /\ l' = set_Purpose ["api"; "cluster"] l0)).

Definition configFrame (f : Flags) (cfg cfg' : ConfigT) : Prop :=
  LogLevel cfg' = LogLevel cfg /\ LogFormat cfg' = LogFormat cfg /\
  DisableMlock cfg' = DisableMlock cfg /\ PidFile cfg' = PidFile cfg /\
  DefaultMaxRequestDuration cfg' = DefaultMaxRequestDuration cfg /\
  Forall2 (listenerFrame f) (Listeners cfg) (Listeners cfg').

(** *** More vocabulary for the listener checks *)

(** The listener as an iteration of the loop leaves it: an empty purpose
    list has been filled in, nothing else is touched. *)
Definition defaulted (ln : Listener) : Listener :=
  match Purpose ln with
  | [] => set_Purpose ["api"; "cluster"] ln
  | _ => ln
  end.

(** The listener counts for purpose [p] when the two flags are checked:
    it serves [p] and declares at most two purposes. *)
Definition marks (p : string) (ln : Listener) : Prop :=
  (length (Purpose ln) <= 2)%nat /\ serves p ln.

(** *** More vocabulary for the runs *)

(** The collaborators called, by name, as a trace shows them. *)
Definition callNames (t : list Effect) : list string :=
  omap (fun e => match e with Call fn => Some fn | _ => None end) t.

(** The setup stages in the order [Run] calls them. *)
Definition stageOrder (dev : bool) : list string :=
  (["SetupLogging"; "StartMemProfiler"; "SetupMetrics"; "SetupKMSes";
    "SetupListeners"; "StorePidFile"]
   ++ (if dev then ["CreateDevDatabase"] else []))%list.

(** *** More vocabulary for the loop and the dev listeners *)

(** The events a call of [WaitForInterrupt] receives: those up to the
    first shutdown trigger. *)
Fixpoint received (evs : list Event) : list Event :=
  match evs with
  | [] => []
  | ShutdownCh_recv closed :: _ => [ShutdownCh_recv closed]
  | ev :: rest => ev :: received rest
  end.

(** The reload callbacks the reload triggers among [evs] select, trigger
    by trigger. *)
Definition reloadsOf {W} (m : gmap string (list (option (ReloadFunc W))))
    (evs : list Event) : list (string * nat) :=
  flat_map (fun ev =>
    match ev with
    | SighupCh_recv _ order _ => map fst (selected m order)
    | _ => []
    end) evs.

(** The dump signals among [evs]. *)
Definition dumpSignals (evs : list Event) : nat :=
  length (List.filter (fun ev => match ev with SigUSR2Ch_recv => true | _ => false end) evs).

(** The reload handler gets to [RUNRELOADFUNCS] without a call of
    [c.Logger]: no path is set, or the re-read gives a configuration whose
    log level is empty or one the [switch] knows. *)
Definition reloadsQuietly {W} (env : Env W) (f : Flags) (load : LoadResult) : bool :=
  String.eqb (flagConfig f) EmptyString ||
  match ld_err load, ld_conf load with
  | None, Some newConf =>
      String.eqb (LogLevel newConf) EmptyString ||
      match levelOf (strings_ToLower env (strings_TrimSpace env (LogLevel newConf))) with
      | Some _ => true
      | None => false
      end
  | _, _ => false
  end.

(** The event is handled with a call of [c.Logger]: a dump signal, or a
    reload trigger that does not get to [RUNRELOADFUNCS] quietly. *)
Definition logged {W} (env : Env W) (f : Flags) (ev : Event) : bool :=
  match ev with
  | ShutdownCh_recv _ => false
  | SighupCh_recv load _ _ => negb (reloadsQuietly env f load)
  | SigUSR2Ch_recv => true
  end.

(** What the dev address flags may do to a listener [l], giving [l']:
    only the address changes, only for a listener declaring exactly the
    one purpose the flag is for, and only to the flag's value. *)
Definition devAddressed (f : Flags) (l l' : Listener) : Prop :=
  Purpose l' = Purpose l /\ TLSDisable l' = TLSDisable l /\
  (length (Purpose l) <> 1%nat -> l' = l) /\
  (Address l' <> Address l ->
   (Purpose l = ["api"] /\ Address l' = flagDevControllerAPIListenAddr f) \/
   (Purpose l = ["cluster"] /\ Address l' = flagDevControllerClusterListenAddr f)) /\
  (Purpose l = ["api"] -> flagDevControllerAPIListenAddr f <> EmptyString ->
   Address l' = flagDevControllerAPIListenAddr f) /\
  (Purpose l = ["cluster"] -> flagDevControllerClusterListenAddr f <> EmptyString ->
   Address l' = flagDevControllerClusterListenAddr f).

(** ** Sample runs

    A world that is the log of what the callbacks did, collaborators that
    succeed unless told otherwise, and a few configurations. *)
Module Sample.

Definition World : Type := list string.

(** A callback that writes its name to the log and succeeds, and one that
    writes its name and fails. *)
Definition ok (name : string) : ReloadFunc World :=
  fun w => ((w ++ [name])%list, None).

Definition failing (name : string) : ReloadFunc World :=
  fun w => ((w ++ [name])%list, Some (ErrExt name)).

(** ASCII versions of the two string functions. *)
Definition isSpace (a : ascii) : bool :=
  let n := nat_of_ascii a in
  (Nat.eqb n 32 || (Nat.leb 9 n && Nat.leb n 13))%bool.

Fixpoint trimLeft (s : string) : string :=
  match s with
  | String a rest => if isSpace a then trimLeft rest else s
  | EmptyString => EmptyString
  end.

Fixpoint rev_string (s acc : string) : string :=
  match s with
  | String a rest => rev_string rest (String a acc)
  | EmptyString => acc
  end.

Definition trimSpace (s : string) : string :=
  rev_string (trimLeft (rev_string (trimLeft s) EmptyString)) EmptyString.

Definition lowerChar (a : ascii) : ascii :=
  let n := nat_of_ascii a in
  if (Nat.leb 65 n && Nat.leb n 90)%bool then ascii_of_nat (n + 32) else a.

Fixpoint toLower (s : string) : string :=
  match s with
  | String a rest => String (lowerChar a) (toLower rest)
  | EmptyString => EmptyString
  end.

Definition noFlags : Flags :=
  {| flagConfig := EmptyString; flagLogLevel := EmptyString;
     flagLogFormat := EmptyString; flagDev := false;
     flagDevAdminPassword := EmptyString;
     flagDevControllerAPIListenAddr := EmptyString;
     flagDevControllerClusterListenAddr := EmptyString;
     flagCombineLogs := false |}.

(** [-config=controller.hcl]. *)
Definition prodFlags : Flags :=
  {| flagConfig := "controller.hcl"; flagLogLevel := EmptyString;
     flagLogFormat := EmptyString; flagDev := false;
     flagDevAdminPassword := EmptyString;
     flagDevControllerAPIListenAddr := EmptyString;
     flagDevControllerClusterListenAddr := EmptyString;
     flagCombineLogs := false |}.

(** [-dev -dev-api-listen-address=0.0.0.0:9200]. *)
Definition devFlags : Flags :=
  {| flagConfig := EmptyString; flagLogLevel := EmptyString;
     flagLogFormat := EmptyString; flagDev := true;
     flagDevAdminPassword := EmptyString;
     flagDevControllerAPIListenAddr := "0.0.0.0:9200";
     flagDevControllerClusterListenAddr := EmptyString;
     flagCombineLogs := false |}.

Definition emptyServer : ServerT World :=
  {| CombineLogs := false; Logger := None; AllLoggers := [];
     SecureRandomReader := None; ShutdownFuncs := []; ReloadFuncs := ∅ |}.

Definition configOf (lns : list Listener) : ConfigT :=
  {| Listeners := lns; LogLevel := "info"; LogFormat := "standard";
     DisableMlock := true; PidFile := "controller.pid";
     DefaultMaxRequestDuration := 0 |}.

Definition apiListener : Listener :=
  {| Address := "127.0.0.1:9200"; Purpose := ["api"]; TLSDisable := true |}.
Definition clusterListener : Listener :=
  {| Address := "127.0.0.1:9201"; Purpose := ["cluster"]; TLSDisable := false |}.
Definition defaultListener : Listener :=
  {| Address := "127.0.0.1:9202"; Purpose := []; TLSDisable := false |}.
Definition tripleApiListener : Listener :=
  {| Address := "127.0.0.1:9203"; Purpose := ["api"; "api"; "api"]; TLSDisable := false |}.

(** Collaborators: parsing yields [parsed]; both loaders yield [cfg];
    logging installs a logger; listener bring-up registers the callbacks
    [reloads]; writing the PID file registers [pidActions]; creating the
    dev database answers [devdb]; everything else succeeds. *)
Definition envOf (parsed : Flags) (cfg : ConfigT)
    (reloads : gmap string (list (option (ReloadFunc World))))
    (pidActions : list (ShutdownFunc World)) (devdb : option Err) : Env World :=
  {| flags_Parse := fun _ _ => (parsed, None);
     config_LoadFile := fun _ => {| ld_conf := Some cfg; ld_err := None |};
     config_DevController := {| ld_conf := Some cfg; ld_err := None |};
     base_NewServer := emptyServer;
     SetupLogging := fun _ _ _ _ s =>
       ({| CombineLogs := CombineLogs s; Logger := Some "watchtower";
           AllLoggers := (AllLoggers s ++ [Info])%list;
           SecureRandomReader := SecureRandomReader s;
           ShutdownFuncs := ShutdownFuncs s; ReloadFuncs := ReloadFuncs s |}, None);
     SetupMetrics := fun s => (s, None);
     SetupKMSes := fun s => (s, None);
     mlock_Supported := true;
     SetupListeners := fun _ s =>
       ({| CombineLogs := CombineLogs s; Logger := Logger s;
           AllLoggers := AllLoggers s;
           SecureRandomReader := SecureRandomReader s;
           ShutdownFuncs := ShutdownFuncs s; ReloadFuncs := reloads |}, None);
     StorePidFile := fun _ s =>
       (set_ShutdownFuncs (ShutdownFuncs s ++ pidActions)%list s, None);
     CreateDevDatabase := fun s => (s, devdb);
     DestroyDevDatabase := ok "destroy dev database";
     mlock_LockMemory := None;
     startListeners := None;
     stopListeners := None;
     strings_TrimSpace := trimSpace;
     strings_ToLower := toLower |}.

(** A command as the CLI hands it to [Run]. *)
Definition fresh : Command World :=
  {| flags := noFlags; Server := emptyServer; Config := None;
     controller := None; cleanupGuard := false;
     globals_DefaultMaxRequestDuration := 0; world := []; trace := [] |}.

(** A command that has been started: a controller is there. *)
Definition started (reloads : gmap string (list (option (ReloadFunc World)))) : Command World :=
  {| flags := noFlags;
     Server := {| CombineLogs := false; Logger := Some "watchtower";
                  AllLoggers := [Info]; SecureRandomReader := None;
                  ShutdownFuncs := []; ReloadFuncs := reloads |};
     Config := Some (configOf [apiListener; clusterListener]);
     controller := Some {| logger := Some "watchtower" |}; cleanupGuard := false;
     globals_DefaultMaxRequestDuration := 0; world := []; trace := [] |}.

Definition noLoad : LoadResult := {| ld_conf := None; ld_err := None |}.

(** Two purposes that are not the pair, and a listener serving both
    purposes by default with TLS disabled. *)
Definition webListener : Listener :=
  {| Address := "127.0.0.1:9204"; Purpose := ["api"; "web"]; TLSDisable := false |}.
Definition plainDefaultListener : Listener :=
  {| Address := "127.0.0.1:9205"; Purpose := []; TLSDisable := true |}.

(** Registrations, oldest first: one callback under each of two listener
    keys; and, under one listener key, a callback that fails, one that
    succeeds and a nil entry, with a callback under another kind of key
    in between. *)
Definition twoKeys : list (string * option (ReloadFunc World)) :=
  [("listener|a", Some (ok "a")); ("listener|b", Some (ok "b"))].

Definition oneKey : list (string * option (ReloadFunc World)) :=
  [("listener|tcp", Some (failing "first")); ("metrics", Some (ok "metrics"));
   ("listener|tcp", Some (ok "second")); ("listener|tcp", None)].

(** The usual collaborators, in production and in dev mode. *)
Definition prodEnv (lns : list Listener) : Env World :=
  envOf prodFlags (configOf lns) (registry oneKey) [ok "remove pid file"] None.

Definition devEnv (devdb : option Err) : Env World :=
  envOf devFlags (configOf [apiListener; clusterListener; defaultListener])
    (registry oneKey) [ok "remove pid file"] devdb.

(** Listener lists and configurations for the checks. *)
Definition tripleOnly : list Listener := [tripleApiListener].
Definition apiAndTriple : ConfigT := configOf [apiListener; tripleApiListener].
Definition clusterOnly : ConfigT := configOf [clusterListener].
Definition withDefault : list Listener := [clusterListener; defaultListener; apiListener].
Definition withPair : list Listener :=
  [clusterListener; set_Purpose ["cluster"; "api"] defaultListener; apiListener].

(** A started command with the callbacks of [oneKey], one with those of
    [twoKeys], and the first again after a shutdown trigger. *)
Definition serving : Command World := started (registry oneKey).
Definition servingTwo : Command World := started (registry twoKeys).
Definition afterShutdown : Command World :=
  stateOf (WaitForInterrupt (prodEnv []) [ShutdownCh_recv false] serving).

(** Where the startup leaves the command: in production, and in dev mode
    when the dev database cannot be created. *)
Definition afterStartup : Command World :=
  stateOf (startup (prodEnv [apiListener; clusterListener]) [] fresh).
Definition afterFailedStartup : Command World :=
  stateOf (startup (devEnv (Some (ErrExt "docker"))) [] fresh).

(** Further listeners, flags, collaborators and commands. *)

(** A listener whose one purpose is spelt in capitals. *)
Definition shoutingListener : Listener :=
  {| Address := "127.0.0.1:9206"; Purpose := ["API"]; TLSDisable := false |}.

(** [-config=controller.hcl -dev-admin-password=hunter2]. *)
Definition passwordFlags : Flags :=
  {| flagConfig := "controller.hcl"; flagLogLevel := EmptyString;
     flagLogFormat := EmptyString; flagDev := false;
     flagDevAdminPassword := "hunter2";
     flagDevControllerAPIListenAddr := EmptyString;
     flagDevControllerClusterListenAddr := EmptyString;
     flagCombineLogs := true |}.

Definition passwordEnv : Env World :=
  envOf passwordFlags (configOf [apiListener; clusterListener]) (registry oneKey) [] None.

(** Collaborators as [env] has them, but for the memory lock and the
    listener subsystem, and but for the configuration loader. *)
Definition withController (lock start stop : option Err) (env : Env World) : Env World :=
  {| flags_Parse := flags_Parse env; config_LoadFile := config_LoadFile env;
     config_DevController := config_DevController env;
     base_NewServer := base_NewServer env; SetupLogging := SetupLogging env;
     SetupMetrics := SetupMetrics env; SetupKMSes := SetupKMSes env;
     mlock_Supported := mlock_Supported env; SetupListeners := SetupListeners env;
     StorePidFile := StorePidFile env; CreateDevDatabase := CreateDevDatabase env;
     DestroyDevDatabase := DestroyDevDatabase env;
     mlock_LockMemory := lock; startListeners := start; stopListeners := stop;
     strings_TrimSpace := strings_TrimSpace env; strings_ToLower := strings_ToLower env |}.

Definition withLoader (r : LoadResult) (env : Env World) : Env World :=
  {| flags_Parse := flags_Parse env; config_LoadFile := fun _ => r;
     config_DevController := r;
     base_NewServer := base_NewServer env; SetupLogging := SetupLogging env;
     SetupMetrics := SetupMetrics env; SetupKMSes := SetupKMSes env;
     mlock_Supported := mlock_Supported env; SetupListeners := SetupListeners env;
     StorePidFile := StorePidFile env; CreateDevDatabase := CreateDevDatabase env;
     DestroyDevDatabase := DestroyDevDatabase env;
     mlock_LockMemory := mlock_LockMemory env; startListeners := startListeners env;
     stopListeners := stopListeners env;
     strings_TrimSpace := strings_TrimSpace env; strings_ToLower := strings_ToLower env |}.

(** Collaborators as [env] has them, but for a [SetupLogging] that
    succeeds without giving the server a logger. *)
Definition withoutLogger (env : Env World) : Env World :=
  {| flags_Parse := flags_Parse env; config_LoadFile := config_LoadFile env;
     config_DevController := config_DevController env;
     base_NewServer := base_NewServer env; SetupLogging := fun _ _ _ _ s => (s, None);
     SetupMetrics := SetupMetrics env; SetupKMSes := SetupKMSes env;
     mlock_Supported := mlock_Supported env; SetupListeners := SetupListeners env;
     StorePidFile := StorePidFile env; CreateDevDatabase := CreateDevDatabase env;
     DestroyDevDatabase := DestroyDevDatabase env;
     mlock_LockMemory := mlock_LockMemory env; startListeners := startListeners env;
     stopListeners := stopListeners env;
     strings_TrimSpace := strings_TrimSpace env; strings_ToLower := strings_ToLower env |}.

Definition muteEnv : Env World := withoutLogger (prodEnv [apiListener; clusterListener]).

(** Where the startup leaves the command when it installs no logger. *)
Definition afterMuteStartup : Command World := stateOf (startup muteEnv [] fresh).

(** The usual production collaborators with a listener subsystem that
    neither starts nor stops, and with a memory lock that fails. *)
Definition brokenListenersEnv : Env World :=
  withController None (Some (ErrExt "bind")) (Some (ErrExt "close"))
    (prodEnv [apiListener; clusterListener]).

Definition noLockEnv : Env World :=
  withController (Some (ErrExt "mlock")) None None (prodEnv [apiListener; clusterListener]).

(** A configuration that asks for the memory lock, and the command after
    the startup with it. *)
Definition lockingConfig : ConfigT :=
  {| Listeners := [apiListener; clusterListener]; LogLevel := "info";
     LogFormat := "standard"; DisableMlock := false; PidFile := "controller.pid";
     DefaultMaxRequestDuration := 0 |}.

Definition afterLockingStartup : Command World :=
  set_Config (Some lockingConfig) afterStartup.

(** Where [ParseFlagsAndConfig] leaves a fresh command. *)
Definition afterPasswordParse : Command World :=
  stateOf (ParseFlagsAndConfig passwordEnv [] fresh).
Definition afterDevParse : Command World :=
  stateOf (ParseFlagsAndConfig (devEnv None) [] fresh).

(** A started command that was given a configuration file. *)
Definition servingFile : Command World := set_flags prodFlags serving.

(** What re-reading the file yields: a level the handler knows, written
    with capitals and blanks, and one it does not know. *)
Definition debugLoad : LoadResult :=
  {| ld_conf := Some {| Listeners := []; LogLevel := " DEBUG "; LogFormat := "standard";
                        DisableMlock := true; PidFile := EmptyString;
                        DefaultMaxRequestDuration := 0 |};
     ld_err := None |}.
Definition loudLoad : LoadResult :=
  {| ld_conf := Some {| Listeners := []; LogLevel := "loud"; LogFormat := "standard";
                        DisableMlock := true; PidFile := EmptyString;
                        DefaultMaxRequestDuration := 0 |};
     ld_err := None |}.

(** What re-reading yields when the file cannot be read. *)
Definition failedLoad : LoadResult :=
  {| ld_conf := None; ld_err := Some (ErrExt "no such file") |}.

(** A started command that was given a configuration file, and whose
    server was given no logger. *)
Definition mute : Command World :=
  set_Server {| CombineLogs := false; Logger := None; AllLoggers := [Trace];
                SecureRandomReader := None; ShutdownFuncs := [];
                ReloadFuncs := registry oneKey |} servingFile.

(** A schedule with two reload triggers before the shutdown trigger and
    one after it. *)
Definition busySchedule : list Event :=
  [SighupCh_recv noLoad ["metrics"; "listener|tcp"] true; SigUSR2Ch_recv;
   SighupCh_recv noLoad ["listener|tcp"] false; ShutdownCh_recv false;
   SighupCh_recv noLoad ["listener|tcp"] true].

(** The command after a reload trigger, and after a whole run with two
    dump signals before the shutdown trigger and one after it. *)
Definition afterReload : Command World :=
  stateOf (handleSighup (prodEnv []) noLoad ["metrics"; "listener|tcp"] true serving).

Definition afterTwoDumps : Command World :=
  stateOf (Run (prodEnv [apiListener; clusterListener])
             [SigUSR2Ch_recv; SigUSR2Ch_recv; ShutdownCh_recv false; SigUSR2Ch_recv] []
             fresh).

End Sample.

(** * The REST gateway of the host service

    Shallow embedding of the request translators of
    [host_service.pb.gw.go]: for each of the five operations, the function
    that builds the typed request from an HTTP request and calls the gRPC
    client ([request_HostService_..._0]), and its twin that calls the
    server in process ([local_request_HostService_..._0]).

    The translators do not touch shared state: each is a function of its
    arguments and of what the libraries it calls answer, and returns the
    triple [(msg, metadata, err)]. *)

(** The error returned with the triple: built here with
    [status.Errorf(codes.InvalidArgument, ...)], or whatever the client or
    the server returned. *)
Inductive Status :=
| MissingParameter (k : string)            (* "missing parameter %s" *)
| TypeMismatch (k : string) (e : string)   (* "type mismatch, parameter: %s, error: %v" *)
| InvalidArgument (e : string)             (* "%v" of a library error *)
| FromBackend (e : string).

(** What [Decode] can return besides [nil]. *)
Inductive DecodeError :=
| io_EOF
| DecodeFailure (e : string).

(** [runtime.ServerMetadata]; [metadata.MD] as the list of its entries. *)
Record ServerMetadata := mkServerMetadata {
  HeaderMD : list (string * list string);
  TrailerMD : list (string * list string)
}.

Section Gateway.

(** The [Host] message, the responses ([proto.Message]), [url.Values],
    [req.Body] and the buffered body behind the reader factory. *)
Context {Host Message Values Reader Buffer : Type}.

(** The fields of [*http.Request] the translators read. *)
Record Request := mkRequest {
  Body : Reader;
  URL_Query : Values
}.

(** The request messages, with the fields the translators assign. *)
Record GetHostRequest := mkGetHostRequest {
  get_Org : string; get_Project : string; get_CatalogId : string; get_Id : string
}.

Record ListHostsRequest := mkListHostsRequest {
  list_Org : string; list_Project : string; list_CatalogId : string
}.

Record CreateHostRequest := mkCreateHostRequest {
  create_Org : string; create_Project : string; create_CatalogId : string;
  create_Item : option Host
}.

Record UpdateHostRequest := mkUpdateHostRequest {
  update_Org : string; update_Project : string; update_CatalogId : string;
  update_Id : string;
  update_Item : option Host;
  update_UpdateMask : option (list string)
}.

Record DeleteHostRequest := mkDeleteHostRequest {
  delete_Org : string; delete_Project : string; delete_CatalogId : string;
  delete_Id : string
}.

(** The triple a translator returns. *)
Record Reply := mkReply {
  reply_msg : option Message;
  reply_metadata : ServerMetadata;
  reply_err : option Status
}.

(** The libraries: [runtime.String], [utilities.IOReaderFactory] applied
    to a body, [runtime.FieldMaskFromRequestBody] applied to a fresh
    reader of the buffered body, [req.ParseForm] with the [req.Form] it
    leaves, and [runtime.PopulateQueryParameters] with the filter of each
    operation. *)
Record Runtime := mkRuntime {
  runtime_String : string -> string * option string;
  utilities_IOReaderFactory : Reader -> Buffer * option string;
  runtime_FieldMaskFromRequestBody : Buffer -> option (list string) * option string;
  http_ParseForm : Request -> Values * option string;
  PopulateQueryParameters_GetHost : GetHostRequest -> Values -> GetHostRequest * option string;
  PopulateQueryParameters_ListHosts :
    ListHostsRequest -> Values -> ListHostsRequest * option string;
  PopulateQueryParameters_UpdateHost :
    UpdateHostRequest -> Values -> UpdateHostRequest * option string
}.

(** [runtime.Marshaler]: [NewDecoder(r).Decode(&item)] on a fresh reader
    of the buffered body gives the item decoded and the error. *)
Record Marshaler := mkMarshaler {
  Decode : Buffer -> option Host * option DecodeError
}.

(** [HostServiceClient]: a call answers with the message, with the header
    and trailer it stored through the call options, and with the error. *)
Record HostServiceClient := mkClient {
  client_GetHost : GetHostRequest -> option Message * ServerMetadata * option Status;
  client_ListHosts : ListHostsRequest -> option Message * ServerMetadata * option Status;
  client_CreateHost : CreateHostRequest -> option Message * ServerMetadata * option Status;
  client_UpdateHost : UpdateHostRequest -> option Message * ServerMetadata * option Status;
  client_DeleteHost : DeleteHostRequest -> option Message * ServerMetadata * option Status
}.

(** [HostServiceServer]. *)
Record HostServiceServer := mkHostServer {
  server_GetHost : GetHostRequest -> option Message * option Status;
  server_ListHosts : ListHostsRequest -> option Message * option Status;
  server_CreateHost : CreateHostRequest -> option Message * option Status;
  server_UpdateHost : UpdateHostRequest -> option Message * option Status;
  server_DeleteHost : DeleteHostRequest -> option Message * option Status
}.

(** [var metadata runtime.ServerMetadata]. *)
Definition noMetadata : ServerMetadata := {| HeaderMD := []; TrailerMD := [] |}.

(** The statements before the call of the backend either go on with a
    value or return [nil, metadata, status.Errorf(...)]. *)
Definition Try (A : Type) : Type := Status + A.

#[export] Instance Try_ret : MRet Try := fun A a => inr a.
#[export] Instance Try_bind : MBind Try := fun A B f m =>
  match m with
  | inl st => inl st
  | inr a => f a
  end.

(** [return nil, metadata, status.Errorf(...)]. *)
Definition failed (st : Status) : Reply :=
  {| reply_msg := None; reply_metadata := noMetadata; reply_err := Some st |}.

(** [msg, err := client.X(ctx, &protoReq, grpc.Header(&metadata.HeaderMD),
    grpc.Trailer(&metadata.TrailerMD)); return msg, metadata, err]. *)
Definition fromClient (r : option Message * ServerMetadata * option Status) : Reply :=
  let '(msg, md, err) := r in
  {| reply_msg := msg; reply_metadata := md; reply_err := err |}.

(** [msg, err := server.X(ctx, &protoReq); return msg, metadata, err]. *)
Definition fromServer (r : option Message * option Status) : Reply :=
  let '(msg, err) := r in
  {| reply_msg := msg; reply_metadata := noMetadata; reply_err := err |}.

(** [if err != nil { return nil, metadata,
    status.Errorf(codes.InvalidArgument, "%v", err) }]. *)
Definition orInvalid {A} (r : A * option string) : Try A :=
  match r with
  | (_, Some e) => inl (InvalidArgument e)
  | (a, None) => inr a
  end.

(** The block written once per path parameter:
    [val, ok = pathParams[k]], the missing-parameter return,
    [x, err = runtime.String(val)], the type-mismatch return. *)
Definition pathParam (rt : Runtime) (pathParams : gmap string string) (k : string)
  : Try string :=
  match pathParams !! k with
  | None => inl (MissingParameter k)
  | Some val =>
      match runtime_String rt val with
      | (_, Some e) => inl (TypeMismatch k e)
      | (x, None) => inr x
      end
  end.

(** The block that opens the translators of the operations with a body:
    the reader factory, then [Decode(&protoReq.Item)], whose [io.EOF] is
    let through. *)
Definition decodeItem (rt : Runtime) (marshaler : Marshaler) (req : Request)
  : Try (Buffer * option Host) :=
  newReader ← orInvalid (utilities_IOReaderFactory rt (Body req));
  match Decode marshaler newReader with
  | (_, Some (DecodeFailure e)) => inl (InvalidArgument e)
  | (item, _) => inr (newReader, item)
  end.

(** [if protoReq.UpdateMask == nil || len(protoReq.UpdateMask.GetPaths()) == 0]
    with the mask taken from the body. *)
Definition deriveUpdateMask (rt : Runtime) (newReader : Buffer)
    (protoReq : UpdateHostRequest) : Try UpdateHostRequest :=
  if match update_UpdateMask protoReq with
     | None => true
     | Some paths => Nat.eqb (length paths) 0
     end
  then
    fieldMask ← orInvalid (runtime_FieldMaskFromRequestBody rt newReader);
    mret {| update_Org := update_Org protoReq; update_Project := update_Project protoReq;
            update_CatalogId := update_CatalogId protoReq; update_Id := update_Id protoReq;
            update_Item := update_Item protoReq; update_UpdateMask := fieldMask |}
  else mret protoReq.

(** Ends a translator: the early return, or the call of the backend. *)
Definition finish {R} (call : R -> Reply) (r : Try R) : Reply :=
  match r with
  | inl st => failed st
  | inr protoReq => call protoReq
  end.

(** ** GetHost *)

Definition request_HostService_GetHost_0 (rt : Runtime) (marshaler : Marshaler)
    (client : HostServiceClient) (req : Request) (pathParams : gmap string string) : Reply :=
  finish (fun protoReq => fromClient (client_GetHost client protoReq))
    (org ← pathParam rt pathParams "org";
     project ← pathParam rt pathParams "project";
     catalog_id ← pathParam rt pathParams "catalog_id";
     id ← pathParam rt pathParams "id";
     let protoReq := {| get_Org := org; get_Project := project;
                        get_CatalogId := catalog_id; get_Id := id |} in
     form ← orInvalid (http_ParseForm rt req);
     orInvalid (PopulateQueryParameters_GetHost rt protoReq form)).

Definition local_request_HostService_GetHost_0 (rt : Runtime) (marshaler : Marshaler)
    (server : HostServiceServer) (req : Request) (pathParams : gmap string string) : Reply :=
  finish (fun protoReq => fromServer (server_GetHost server protoReq))
    (org ← pathParam rt pathParams "org";
     project ← pathParam rt pathParams "project";
     catalog_id ← pathParam rt pathParams "catalog_id";
     id ← pathParam rt pathParams "id";
     let protoReq := {| get_Org := org; get_Project := project;
                        get_CatalogId := catalog_id; get_Id := id |} in
     orInvalid (PopulateQueryParameters_GetHost rt protoReq (URL_Query req))).

(** ** ListHosts *)

Definition request_HostService_ListHosts_0 (rt : Runtime) (marshaler : Marshaler)
    (client : HostServiceClient) (req : Request) (pathParams : gmap string string) : Reply :=
  finish (fun protoReq => fromClient (client_ListHosts client protoReq))
    (org ← pathParam rt pathParams "org";
     project ← pathParam rt pathParams "project";
     catalog_id ← pathParam rt pathParams "catalog_id";
     let protoReq := {| list_Org := org; list_Project := project;
                        list_CatalogId := catalog_id |} in
     form ← orInvalid (http_ParseForm rt req);
     orInvalid (PopulateQueryParameters_ListHosts rt protoReq form)).

Definition local_request_HostService_ListHosts_0 (rt : Runtime) (marshaler : Marshaler)
    (server : HostServiceServer) (req : Request) (pathParams : gmap string string) : Reply :=
  finish (fun protoReq => fromServer (server_ListHosts server protoReq))
    (org ← pathParam rt pathParams "org";
     project ← pathParam rt pathParams "project";
     catalog_id ← pathParam rt pathParams "catalog_id";
     let protoReq := {| list_Org := org; list_Project := project;
                        list_CatalogId := catalog_id |} in
     orInvalid (PopulateQueryParameters_ListHosts rt protoReq (URL_Query req))).

(** ** CreateHost *)

Definition request_HostService_CreateHost_0 (rt : Runtime) (marshaler : Marshaler)
    (client : HostServiceClient) (req : Request) (pathParams : gmap string string) : Reply :=
  finish (fun protoReq => fromClient (client_CreateHost client protoReq))
    ('(_, item) ← decodeItem rt marshaler req;
     org ← pathParam rt pathParams "org";
     project ← pathParam rt pathParams "project";
     catalog_id ← pathParam rt pathParams "catalog_id";
     mret {| create_Org := org; create_Project := project;
             create_CatalogId := catalog_id; create_Item := item |}).

Definition local_request_HostService_CreateHost_0 (rt : Runtime) (marshaler : Marshaler)
    (server : HostServiceServer) (req : Request) (pathParams : gmap string string) : Reply :=
  finish (fun protoReq => fromServer (server_CreateHost server protoReq))
    ('(_, item) ← decodeItem rt marshaler req;
     org ← pathParam rt pathParams "org";
     project ← pathParam rt pathParams "project";
     catalog_id ← pathParam rt pathParams "catalog_id";
     mret {| create_Org := org; create_Project := project;
             create_CatalogId := catalog_id; create_Item := item |}).

(** ** UpdateHost *)

(** [var protoReq UpdateHostRequest] after [Decode(&protoReq.Item)]. *)
Definition decodedUpdate (item : option Host) : UpdateHostRequest :=
  {| update_Org := EmptyString; update_Project := EmptyString;
     update_CatalogId := EmptyString; update_Id := EmptyString;
     update_Item := item; update_UpdateMask := None |}.

Definition set_update_path (org project catalog_id id : string)
    (protoReq : UpdateHostRequest) : UpdateHostRequest :=
  {| update_Org := org; update_Project := project; update_CatalogId := catalog_id;
     update_Id := id; update_Item := update_Item protoReq;
     update_UpdateMask := update_UpdateMask protoReq |}.

Definition request_HostService_UpdateHost_0 (rt : Runtime) (marshaler : Marshaler)
    (client : HostServiceClient) (req : Request) (pathParams : gmap string string) : Reply :=
  finish (fun protoReq => fromClient (client_UpdateHost client protoReq))
    ('(newReader, item) ← decodeItem rt marshaler req;
     protoReq ← deriveUpdateMask rt newReader (decodedUpdate item);
     org ← pathParam rt pathParams "org";
     project ← pathParam rt pathParams "project";
     catalog_id ← pathParam rt pathParams "catalog_id";
     id ← pathParam rt pathParams "id";
     let protoReq := set_update_path org project catalog_id id protoReq in
     form ← orInvalid (http_ParseForm rt req);
     orInvalid (PopulateQueryParameters_UpdateHost rt protoReq form)).

Definition local_request_HostService_UpdateHost_0 (rt : Runtime) (marshaler : Marshaler)
    (server : HostServiceServer) (req : Request) (pathParams : gmap string string) : Reply :=
  finish (fun protoReq => fromServer (server_UpdateHost server protoReq))
    ('(newReader, item) ← decodeItem rt marshaler req;
     protoReq ← deriveUpdateMask rt newReader (decodedUpdate item);
     org ← pathParam rt pathParams "org";
     project ← pathParam rt pathParams "project";
     catalog_id ← pathParam rt pathParams "catalog_id";
     id ← pathParam rt pathParams "id";
     let protoReq := set_update_path org project catalog_id id protoReq in
     orInvalid (PopulateQueryParameters_UpdateHost rt protoReq (URL_Query req))).

(** ** DeleteHost *)

Definition request_HostService_DeleteHost_0 (rt : Runtime) (marshaler : Marshaler)
    (client : HostServiceClient) (req : Request) (pathParams : gmap string string) : Reply :=
  finish (fun protoReq => fromClient (client_DeleteHost client protoReq))
    (org ← pathParam rt pathParams "org";
     project ← pathParam rt pathParams "project";
     catalog_id ← pathParam rt pathParams "catalog_id";
     id ← pathParam rt pathParams "id";
     mret {| delete_Org := org; delete_Project := project;
             delete_CatalogId := catalog_id; delete_Id := id |}).

Definition local_request_HostService_DeleteHost_0 (rt : Runtime) (marshaler : Marshaler)
    (server : HostServiceServer) (req : Request) (pathParams : gmap string string) : Reply :=
  finish (fun protoReq => fromServer (server_DeleteHost server protoReq))
    (org ← pathParam rt pathParams "org";
     project ← pathParam rt pathParams "project";
     catalog_id ← pathParam rt pathParams "catalog_id";
     id ← pathParam rt pathParams "id";
     mret {| delete_Org := org; delete_Project := project;
             delete_CatalogId := catalog_id; delete_Id := id |}).

(** ** Vocabulary of the gateway statements *)

(** The first return taken when the path parameters [ks] are looked up in
    that order. *)
Fixpoint firstFailure (rt : Runtime) (pathParams : gmap string string) (ks : list string)
  : option Status :=
  match ks with
  | [] => None
  | k :: rest =>
      match pathParam rt pathParams k with
      | inl st => Some st
      | inr _ => firstFailure rt pathParams rest
      end
  end.

(** The reply is an early return, or what [call] makes of the answer of
    the backend to one request. *)
Definition earlyOr {R} (call : R -> Reply) (r : Reply) : Prop :=
  (exists st, r = failed st) \/ (exists protoReq, r = call protoReq).

End Gateway.

Arguments Request : clear implicits.
Arguments GetHostRequest : clear implicits.
Arguments ListHostsRequest : clear implicits.
Arguments CreateHostRequest : clear implicits.
Arguments UpdateHostRequest : clear implicits.
Arguments DeleteHostRequest : clear implicits.
Arguments Reply : clear implicits.
Arguments Runtime : clear implicits.
Arguments Marshaler : clear implicits.
Arguments HostServiceClient : clear implicits.
Arguments HostServiceServer : clear implicits.

Module GatewaySample.

(** Messages and bodies as text, query values as pairs. *)
Definition Payload : Type := string.
Definition Query : Type := list (string * string).

(** Libraries that accept everything, a decoder that reports the end of
    an empty body and rejects a body cut short. *)
Definition rt : Runtime Payload Query Payload Payload :=
  {| runtime_String := fun val => (val, None);
     utilities_IOReaderFactory := fun body => (body, None);
     runtime_FieldMaskFromRequestBody := fun buf => (Some [buf], None);
     http_ParseForm := fun req => (URL_Query req, None);
     PopulateQueryParameters_GetHost := fun protoReq _ => (protoReq, None);
     PopulateQueryParameters_ListHosts := fun protoReq _ => (protoReq, None);
     PopulateQueryParameters_UpdateHost := fun protoReq _ => (protoReq, None) |}.

(** The same libraries with a field mask that cannot be derived. *)
Definition rtNoMask : Runtime Payload Query Payload Payload :=
  {| runtime_String := fun val => (val, None);
     utilities_IOReaderFactory := fun body => (body, None);
     runtime_FieldMaskFromRequestBody := fun buf => (None, Some "no field mask");
     http_ParseForm := fun req => (URL_Query req, None);
     PopulateQueryParameters_GetHost := fun protoReq _ => (protoReq, None);
     PopulateQueryParameters_ListHosts := fun protoReq _ => (protoReq, None);
     PopulateQueryParameters_UpdateHost := fun protoReq _ => (protoReq, None) |}.

Definition jsonpb : Marshaler Payload Payload :=
  {| Decode := fun buf =>
       if String.eqb buf EmptyString then (None, Some io_EOF)
       else if String.eqb buf "{" then (None, Some (DecodeFailure "unexpected EOF"))
       else (Some buf, None) |}.

(** A decoder that takes the empty body without a word. *)
Definition lenient : Marshaler Payload Payload :=
  {| Decode := fun buf =>
       if String.eqb buf EmptyString then (None, None)
       else if String.eqb buf "{" then (None, Some (DecodeFailure "unexpected EOF"))
       else (Some buf, None) |}.

(** A backend that answers every call with the same message. *)
Definition client : HostServiceClient Payload Payload :=
  {| client_GetHost := fun _ => (Some "host", {| HeaderMD := [("via", ["grpc"])]; TrailerMD := [] |}, None);
     client_ListHosts := fun _ => (Some "hosts", {| HeaderMD := [("via", ["grpc"])]; TrailerMD := [] |}, None);
     client_CreateHost := fun _ => (Some "created", {| HeaderMD := [("via", ["grpc"])]; TrailerMD := [] |}, None);
     client_UpdateHost := fun _ => (Some "updated", {| HeaderMD := [("via", ["grpc"])]; TrailerMD := [] |}, None);
     client_DeleteHost := fun _ => (Some "deleted", {| HeaderMD := [("via", ["grpc"])]; TrailerMD := [] |}, None) |}.

Definition server : HostServiceServer Payload Payload :=
  {| server_GetHost := fun _ => (Some "host", None);
     server_ListHosts := fun _ => (Some "hosts", None);
     server_CreateHost := fun _ => (Some "created", None);
     server_UpdateHost := fun _ => (Some "updated", None);
     server_DeleteHost := fun _ => (Some "deleted", None) |}.

(** Requests with an empty body, with a body cut short and with a host. *)
Definition emptyRequest : Request Query Payload := {| Body := EmptyString; URL_Query := [] |}.
Definition cutRequest : Request Query Payload := {| Body := "{"; URL_Query := [] |}.
Definition hostRequest : Request Query Payload :=
  {| Body := "{address: 10.0.0.1}"; URL_Query := [] |}.

(** Path parameters: all four, and the organization alone. *)
Definition fullPath : gmap string string :=
  <["org" := "o1"]> (<["project" := "p1"]> (<["catalog_id" := "c1"]> (<["id" := "h1"]> ∅))).
Definition orgOnly : gmap string string := <["org" := "o1"]> ∅.

End GatewaySample.

(** * Properties *)

(** ** The listener checks, listener by listener *)

Lemma checkListener_none ln fc fa :
  Purpose ln = [] ->
  checkListener ln fc fa = checkBoth (set_Purpose ["api"; "cluster"] ln).
Proof. unfold checkListener. intros ->. reflexivity. Qed.

Lemma checkListener_one ln p fc fa :
  Purpose ln = [p] ->
  checkListener ln fc fa =
    if String.eqb p "cluster" then Marked ln true fa
    else if String.eqb p "api" then Marked ln fc true
    else Rejected ln (UnknownListenerPurpose p).
Proof. unfold checkListener. intros ->. reflexivity. Qed.

Lemma checkListener_two ln fc fa :
  length (Purpose ln) = 2%nat -> checkListener ln fc fa = checkBoth ln.
Proof. unfold checkListener. intros ->. reflexivity. Qed.

Lemma checkListener_more ln fc fa :
  (3 <= length (Purpose ln))%nat -> checkListener ln fc fa = Marked ln fc fa.
Proof.
  unfold checkListener. intros H.
  destruct (length (Purpose ln)) as [|[|[|n]]]; try lia. reflexivity.
Qed.

Lemma StrListContains_In ps p : StrListContains ps p = true <-> In p ps.
Proof.
  unfold StrListContains. rewrite existsb_exists. split.
  - intros (x & Hx & Heq). apply String.eqb_eq in Heq. subst. exact Hx.
  - intros H. exists p. split; [exact H | apply String.eqb_refl].
Qed.

(** In a two-element list, containing both names is being the pair. *)
Lemma contains_both_pair ps :
  length ps = 2%nat ->
  (StrListContains ps "api" && StrListContains ps "cluster" = true
   <-> ps ≡ₚ ["api"; "cluster"]).
Proof.
  intros Hlen. destruct ps as [|p [|q [|r rest]]]; try discriminate.
  rewrite andb_true_iff, !StrListContains_In. split.
  - intros [Ha Hc]. simpl in Ha, Hc.
    destruct Ha as [Ha|[Ha|[]]], Hc as [Hc|[Hc|[]]]; subst; try discriminate.
    + reflexivity.
    + apply perm_swap.
  - intros Hp. symmetry in Hp. apply Permutation_length_2_inv in Hp.
    destruct Hp as [Hp|Hp]; injection Hp as -> ->; simpl; intuition.
Qed.

Lemma checkBoth_pair ln :
  Purpose ln ≡ₚ ["api"; "cluster"] ->
  checkBoth ln = if TLSDisable ln then Rejected ln (TLSCannotBeDisabled "api" "cluster")
                 else Marked ln true true.
Proof.
  intros Hp. assert (Hlen : length (Purpose ln) = 2%nat)
    by (rewrite Hp; reflexivity).
  apply (contains_both_pair _ Hlen) in Hp. apply andb_true_iff in Hp as [Ha Hc].
  unfold checkBoth. rewrite Ha, Hc. reflexivity.
Qed.

Lemma checkBoth_not_pair ln :
  length (Purpose ln) = 2%nat -> ~ Purpose ln ≡ₚ ["api"; "cluster"] ->
  checkBoth ln = Rejected ln (InvalidListenerPurposeSet (Purpose ln)).
Proof.
  intros Hlen Hn. unfold checkBoth.
  destruct (StrListContains (Purpose ln) "api") eqn:Ha;
    destruct (StrListContains (Purpose ln) "cluster") eqn:Hc; try reflexivity.
  exfalso. apply Hn, (contains_both_pair _ Hlen). rewrite Ha, Hc. reflexivity.
Qed.

(** The loop, one listener at a time. *)
Lemma checkListeners_cons ln rest fc fa :
  snd (checkListeners (ln :: rest) fc fa) =
    match verdict (checkListener ln fc fa) with
    | inl m => inl m
    | inr (fc', fa') => snd (checkListeners rest fc' fa')
    end.
Proof.
  simpl. destruct (checkListener ln fc fa) as [ln' fc' fa'|ln' m]; simpl.
  - destruct (checkListeners rest fc' fa'). reflexivity.
  - reflexivity.
Qed.

(** A listener the loop body rejects whatever the flags makes the loop
    stop with a message, at that listener or before. *)
Lemma checkListeners_rejects lns ln :
  In ln lns ->
  (forall fc fa, exists ln' m, checkListener ln fc fa = Rejected ln' m) ->
  forall fc fa, exists m, snd (checkListeners lns fc fa) = inl m.
Proof.
  intros Hin Hrej. induction lns as [|x rest IH]; [destruct Hin|].
  intros fc fa. rewrite checkListeners_cons.
  destruct (checkListener x fc fa) as [x' fc' fa'|x' m] eqn:Hx; simpl.
  - destruct Hin as [->|Hin].
    + destruct (Hrej fc fa) as (? & ? & Heq). congruence.
    + apply IH, Hin.
  - eauto.
Qed.

Lemma validateListeners_rejects lns ln :
  In ln lns ->
  (forall fc fa, exists ln' m, checkListener ln fc fa = Rejected ln' m) ->
  exists m, snd (validateListeners lns) = Some m.
Proof.
  intros Hin Hrej.
  destruct (checkListeners_rejects lns ln Hin Hrej false false) as [m Hm].
  unfold validateListeners. destruct (checkListeners lns false false) as [lns' r].
  simpl in Hm. subst r. eauto.
Qed.

(** A listener that passes its own rules and does not serve "cluster"
    either declares three or more purposes, or only "api". *)
Lemma passes_no_cluster ln fc fa :
  passesOwnRules ln -> ~ serves "cluster" ln ->
  ((3 <= length (Purpose ln))%nat /\ checkListener ln fc fa = Marked ln fc fa)
  \/ (Purpose ln = ["api"] /\ checkListener ln fc fa = Marked ln fc true).
Proof.
  intros Hp Hn. unfold serves in Hn.
  destruct (Purpose ln) as [|p [|q [|r rest]]] eqn:HP.
  - exfalso. auto.
  - right. destruct (Hp fc fa) as (ln' & fc' & fa' & Heq).
    rewrite (checkListener_one ln p) in * by exact HP.
    destruct (String.eqb_spec p "cluster") as [->|_].
    + exfalso. apply Hn. right. left. reflexivity.
    + destruct (String.eqb_spec p "api") as [->|_]; [auto|discriminate].
  - exfalso. destruct (Hp fc fa) as (ln' & fc' & fa' & Heq).
    assert (Hlen : length (Purpose ln) = 2%nat) by (rewrite HP; reflexivity).
    rewrite checkListener_two in Heq by exact Hlen.
    destruct (StrListContains (Purpose ln) "api" && StrListContains (Purpose ln) "cluster")
      eqn:Hb.
    + apply andb_true_iff in Hb as [_ Hc]. apply StrListContains_In in Hc.
      apply Hn. right. rewrite <- HP. exact Hc.
    + rewrite checkBoth_not_pair in Heq; [discriminate|exact Hlen|].
      intros Hperm. apply (contains_both_pair _ Hlen) in Hperm. congruence.
  - left. assert (Hlen : (3 <= length (Purpose ln))%nat) by (rewrite HP; simpl; lia).
    split; [rewrite <- HP; exact Hlen | apply checkListener_more, Hlen].
Qed.

(** A listener that passes its own rules and does not serve "api" leaves
    the api flag alone. *)
Lemma passes_no_api ln fc fa :
  passesOwnRules ln -> ~ serves "api" ln ->
  exists fc', checkListener ln fc fa = Marked ln fc' fa.
Proof.
  intros Hp Hn. unfold serves in Hn.
  destruct (Purpose ln) as [|p [|q [|r rest]]] eqn:HP.
  - exfalso. auto.
  - destruct (Hp fc fa) as (ln' & fc' & fa' & Heq).
    rewrite (checkListener_one ln p) in * by exact HP.
    destruct (String.eqb_spec p "cluster") as [->|_]; [eauto|].
    destruct (String.eqb_spec p "api") as [->|_]; [|discriminate].
    exfalso. apply Hn. right. left. reflexivity.
  - exfalso. destruct (Hp fc fa) as (ln' & fc' & fa' & Heq).
    assert (Hlen : length (Purpose ln) = 2%nat) by (rewrite HP; reflexivity).
    rewrite checkListener_two in Heq by exact Hlen.
    destruct (StrListContains (Purpose ln) "api" && StrListContains (Purpose ln) "cluster")
      eqn:Hb.
    + apply andb_true_iff in Hb as [Ha _]. apply StrListContains_In in Ha.
      apply Hn. right. rewrite <- HP. exact Ha.
    + rewrite checkBoth_not_pair in Heq; [discriminate|exact Hlen|].
      intros Hperm. apply (contains_both_pair _ Hlen) in Hperm. congruence.
  - exists fc. apply checkListener_more. rewrite HP. simpl. lia.
Qed.

(** With no listener serving "cluster", the loop changes nothing, never
    sets the cluster flag, and sets the api flag exactly at the listeners
    of at most two purposes. *)
Lemma checkListeners_no_cluster lns :
  Forall passesOwnRules lns -> ~ Exists (serves "cluster") lns ->
  forall fc fa,
    checkListeners lns fc fa =
      (lns, inr (fc, fa || existsb (fun ln => Nat.leb (length (Purpose ln)) 2) lns)).
Proof.
  induction lns as [|ln rest IH]; intros Hall Hno fc fa.
  - simpl. rewrite orb_false_r. reflexivity.
  - apply Forall_cons in Hall as [Hln Hrest].
    assert (Hno1 : ~ serves "cluster" ln) by (intros H; apply Hno; left; exact H).
    assert (Hno2 : ~ Exists (serves "cluster") rest)
      by (intros H; apply Hno; right; exact H).
    simpl.
    destruct (passes_no_cluster ln fc fa Hln Hno1) as [[Hlen ->]|[HP ->]].
    + rewrite (IH Hrest Hno2).
      replace (Nat.leb (length (Purpose ln)) 2) with false
        by (symmetry; apply Nat.leb_gt; lia).
      reflexivity.
    + rewrite (IH Hrest Hno2), HP. simpl. rewrite orb_true_r. reflexivity.
Qed.

(** With no listener serving "api", the loop changes nothing and never
    sets the api flag. *)
Lemma checkListeners_no_api lns :
  Forall passesOwnRules lns -> ~ Exists (serves "api") lns ->
  forall fc fa, exists fc', checkListeners lns fc fa = (lns, inr (fc', fa)).
Proof.
  induction lns as [|ln rest IH]; intros Hall Hno fc fa.
  - simpl. eauto.
  - apply Forall_cons in Hall as [Hln Hrest].
    assert (Hno1 : ~ serves "api" ln) by (intros H; apply Hno; left; exact H).
    assert (Hno2 : ~ Exists (serves "api") rest)
      by (intros H; apply Hno; right; exact H).
    simpl. destruct (passes_no_api ln fc fa Hln Hno1) as [fc1 ->].
    destruct (IH Hrest Hno2 fc1 fa) as [fc2 ->]. eauto.
Qed.

(** Listeners of three or more purposes go through the loop untouched. *)
Lemma checkListeners_more lns fc fa :
  Forall (fun ln => (3 <= length (Purpose ln))%nat) lns ->
  checkListeners lns fc fa = (lns, inr (fc, fa)).
Proof.
  induction 1 as [|ln rest Hln _ IH]; simpl; [reflexivity|].
  rewrite checkListener_more by exact Hln. rewrite IH. reflexivity.
Qed.

(** An empty purpose list and the declared pair get the same verdict. *)
Lemma verdict_default_pair ln ps fc fa :
  Purpose ln = [] -> ps ≡ₚ ["api"; "cluster"] ->
  verdict (checkListener ln fc fa) = verdict (checkListener (set_Purpose ps ln) fc fa).
Proof.
  intros Hnil Hps.
  assert (Hlen : length (Purpose (set_Purpose ps ln)) = 2%nat)
    by (simpl; rewrite Hps; reflexivity).
  rewrite checkListener_none by exact Hnil.
  rewrite (checkListener_two (set_Purpose ps ln)) by exact Hlen.
  rewrite !checkBoth_pair by (simpl; auto). simpl.
  destruct (TLSDisable ln); reflexivity.
Qed.

Lemma checkListeners_default_pair pre post ln ps :
  Purpose ln = [] -> ps ≡ₚ ["api"; "cluster"] ->
  forall fc fa,
    snd (checkListeners (pre ++ ln :: post) fc fa) =
    snd (checkListeners (pre ++ set_Purpose ps ln :: post) fc fa).
Proof.
  intros Hnil Hps. induction pre as [|x pre IH]; intros fc fa.
  - simpl app. rewrite !checkListeners_cons.
    rewrite (verdict_default_pair ln ps fc fa Hnil Hps). reflexivity.
  - rewrite <- !app_comm_cons, !checkListeners_cons.
    destruct (verdict (checkListener x fc fa)) as [m|[fc' fa']]; [reflexivity|].
    apply IH.
Qed.

(** ** The command *)

Section Properties.

Context {W : Type}.
Implicit Types (c : Command W) (env : Env W) (cfg : ConfigT).

Lemma bind_run {A B} (m : M W A) (f : A -> M W B) c :
  (m ≫= f) c = match m c with
               | Cont a c' => f a c'
               | Stop o c' => Stop o c'
               end.
Proof. reflexivity. Qed.

(** Record updates that put back what is there. *)
Lemma set_Listeners_same cfg : set_Listeners (Listeners cfg) cfg = cfg.
Proof. destruct cfg. reflexivity. Qed.

Lemma set_Config_same c cfg : Config c = Some cfg -> set_Config (Some cfg) c = c.
Proof. destruct c. simpl. intros ->. reflexivity. Qed.

(** *** The listener checks inside [Run] *)

Lemma checkListenerPurposes_run c cfg :
  Config c = Some cfg ->
  checkListenerPurposes c =
    let c' := set_Config (Some (set_Listeners (fst (validateListeners (Listeners cfg))) cfg)) c in
    match snd (validateListeners (Listeners cfg)) with
    | Some m => Stop (Returned 1) (set_trace (trace c ++ [UIError m]) c')
    | None => Cont tt c'
    end.
Proof.
  intros Hcfg. unfold checkListenerPurposes, theConfig.
  rewrite !bind_run. unfold get. rewrite Hcfg. unfold mret, M_ret.
  destruct (validateListeners (Listeners cfg)) as [lns [m|]]; reflexivity.
Qed.

Lemma Run_stops_in_checks env evs args c c1 o c2 :
  startupBeforeChecks env args c = Cont tt c1 ->
  checkListenerPurposes c1 = Stop o c2 ->
  Run env evs args c = Stop o c2.
Proof.
  intros H1 H2. unfold Run. rewrite bind_run, H1, bind_run, H2. reflexivity.
Qed.

(** A message from the checks is the last thing [Run] prints. *)
Lemma checks_fail env evs args c cfg m :
  reachesChecks env args c cfg ->
  snd (validateListeners (Listeners cfg)) = Some m ->
  failsAtChecks env evs args c m.
Proof.
  intros (c1 & Hstart & Hcfg) Hm. exists c1. eexists. split; [exact Hstart|].
  split.
  - eapply Run_stops_in_checks; [exact Hstart|].
    rewrite (checkListenerPurposes_run c1 cfg Hcfg). simpl. rewrite Hm. reflexivity.
  - reflexivity.
Qed.

(** A configuration the checks accept and do not change is passed on as
    it is. *)
Lemma checks_pass c cfg :
  Config c = Some cfg ->
  validateListeners (Listeners cfg) = (Listeners cfg, None) ->
  checkListenerPurposes c = Cont tt c.
Proof.
  intros Hcfg Hv. rewrite (checkListenerPurposes_run c cfg Hcfg). simpl.
  rewrite Hv. simpl. rewrite set_Listeners_same, set_Config_same by exact Hcfg.
  reflexivity.
Qed.

(** C3 (amended).  Let every configured listener pass the rules for a
    single listener.  If some listener declaring at most two purposes
    serves "api" and no listener of the list serves "cluster", [Run]
    prints the missing-cluster message and returns 1 from the checks,
    before any listener is set up.  If no listener serves "api" (so in
    particular when all listeners are "cluster" listeners), the checks
    pass and leave the configuration as it is. *)
Theorem C3_topology_check env evs args c cfg :
  reachesChecks env args c cfg ->
  Forall passesOwnRules (Listeners cfg) ->
  (Exists (fun ln => (length (Purpose ln) <= 2)%nat /\ serves "api" ln) (Listeners cfg) ->
   ~ Exists (serves "cluster") (Listeners cfg) ->
   failsAtChecks env evs args c NoClusterListener)
  /\
  (~ Exists (serves "api") (Listeners cfg) ->
   validateListeners (Listeners cfg) = (Listeners cfg, None) /\
   forall c1, startupBeforeChecks env args c = Cont tt c1 ->
              checkListenerPurposes c1 = Cont tt c1).
Proof.
  intros Hreach Hall. split.
  - intros Hapi Hcl. apply (checks_fail env evs args c cfg); [exact Hreach|].
    unfold validateListeners.
    rewrite (checkListeners_no_cluster _ Hall Hcl). simpl.
    replace (existsb _ (Listeners cfg)) with true; [reflexivity|].
    symmetry. apply existsb_exists. apply Exists_exists in Hapi as (ln & Hin & Hlen & _).
    exists ln. split; [apply list_elem_of_In, Hin | apply Nat.leb_le, Hlen].
  - intros Hno.
    assert (Hv : validateListeners (Listeners cfg) = (Listeners cfg, None)).
    { unfold validateListeners.
      destruct (checkListeners_no_api _ Hall Hno false false) as [fc' ->].
      reflexivity. }
    split; [exact Hv|]. intros c1 Hc1. destruct Hreach as (c1' & Hc1' & Hcfg).
    rewrite Hc1 in Hc1'. injection Hc1' as <-.
    apply (checks_pass c1 cfg Hcfg Hv).
Qed.


(** C9.  Take two configurations that differ in one listener only, whose
    purpose list is empty in the first and the pair of "api" and "cluster"
    (in either order) in the second.  The loop body gives both listeners
    the same verdict (the same message, or the same flags), the loop and
    the whole validation end the same way, and the checks in [Run] leave
    with the same outcome and the same trace. *)
Theorem C9_empty_is_both pre post ln ps :
  Purpose ln = [] -> ps ≡ₚ ["api"; "cluster"] ->
  let lnsA := (pre ++ ln :: post)%list in
  let lnsB := (pre ++ set_Purpose ps ln :: post)%list in
  (forall fc fa,
     verdict (checkListener ln fc fa) = verdict (checkListener (set_Purpose ps ln) fc fa)) /\
  (forall fc fa, snd (checkListeners lnsA fc fa) = snd (checkListeners lnsB fc fa)) /\
  snd (validateListeners lnsA) = snd (validateListeners lnsB) /\
  (forall c cfg,
     let checksOn lns := checkListenerPurposes (set_Config (Some (set_Listeners lns cfg)) c) in
     outcomeOf (checksOn lnsA) = outcomeOf (checksOn lnsB) /\
     trace (stateOf (checksOn lnsA)) = trace (stateOf (checksOn lnsB))).
Proof.
  intros Hnil Hps lnsA lnsB.
  assert (Hloop : forall fc fa,
            snd (checkListeners lnsA fc fa) = snd (checkListeners lnsB fc fa))
    by (apply checkListeners_default_pair; assumption).
  assert (Hval : snd (validateListeners lnsA) = snd (validateListeners lnsB)).
  { unfold validateListeners. specialize (Hloop false false).
    destruct (checkListeners lnsA false false) as [la ra],
             (checkListeners lnsB false false) as [lb rb].
    simpl in Hloop. subst rb. destruct ra as [m|[fc fa]]; [reflexivity|].
    destruct (fa && negb fc); reflexivity. }
  split; [intros; apply verdict_default_pair; assumption|].
  split; [exact Hloop|]. split; [exact Hval|].
  intros c cfg checksOn. unfold checksOn.
  rewrite (checkListenerPurposes_run _ (set_Listeners lnsA cfg))
    by (destruct c; reflexivity).
  rewrite (checkListenerPurposes_run _ (set_Listeners lnsB cfg))
    by (destruct c; reflexivity).
  simpl. rewrite Hval. destruct (snd (validateListeners lnsB)); split; reflexivity.
Qed.

(** C10.  A listener declaring three or more purposes goes through the
    loop body unchanged, with no message and with both flags as they were.
    A configuration whose listeners all declare three or more purposes
    passes the loop with both flags unset, passes the check of the flags,
    and [Run] goes on from the checks with the command unchanged. *)
Theorem C10_three_or_more_unexamined :
  (forall ln fc fa, (3 <= length (Purpose ln))%nat ->
                    checkListener ln fc fa = Marked ln fc fa) /\
  (forall lns, Forall (fun ln => (3 <= length (Purpose ln))%nat) lns ->
     checkListeners lns false false = (lns, inr (false, false)) /\
     validateListeners lns = (lns, None) /\
     forall c cfg, Config c = Some cfg -> Listeners cfg = lns ->
                   checkListenerPurposes c = Cont tt c).
Proof.
  split; [intros; apply checkListener_more; assumption|].
  intros lns Hall.
  assert (Hv : validateListeners lns = (lns, None))
    by (unfold validateListeners; rewrite checkListeners_more by exact Hall; reflexivity).
  split; [apply checkListeners_more, Hall|]. split; [exact Hv|].
  intros c cfg Hcfg <-. apply (checks_pass c cfg Hcfg Hv).
Qed.

(** *** What a reload does *)

(** Unfolds the sequencing of statements. *)
Ltac runM :=
  cbv beta iota delta [mbind M_bind mret M_ret emit modify get exit panic].

Lemma runAll_app (fs gs : list (ReloadFunc W)) w :
  runAll (fs ++ gs) w =
    (fst (runAll gs (fst (runAll fs w))),
     (snd (runAll fs w) ++ snd (runAll gs (fst (runAll fs w))))%list).
Proof.
  revert w. induction fs as [|f fs IH]; intros w; simpl.
  - destruct (runAll gs w); reflexivity.
  - destruct (f w) as [w1 err]. rewrite IH.
    destruct (runAll fs w1) as [w2 es]. simpl.
    destruct (runAll gs w2) as [w3 es']. simpl. destruct err; reflexivity.
Qed.

Lemma reloadSlice_run k relFuncs : forall i errs c,
  reloadSlice k i relFuncs errs c =
    let sel := nonNilFrom i relFuncs in
    Cont (fold_left multierror_Append (snd (runAll (map snd sel) (world c))) errs)
         (set_world (fst (runAll (map snd sel) (world c)))
            (set_trace (trace c ++ map (fun jf => Invoked k (fst jf)) sel) c)).
Proof.
  induction relFuncs as [|[f|] rest IH]; intros i errs c.
  - simpl. rewrite app_nil_r. destruct c; reflexivity.
  - simpl reloadSlice. runM. simpl.
    destruct (f (world c)) as [w1 err] eqn:Hf.
    rewrite IH. simpl.
    destruct (runAll (map snd (nonNilFrom (S i) rest)) w1) as [w2 es] eqn:Hrest.
    simpl. rewrite <- app_assoc. simpl. destruct err; reflexivity.
  - simpl. apply IH.
Qed.

Lemma reloadKeys_run m order : forall errs c,
  reloadKeys m order errs c =
    let sel := selected m order in
    Cont (fold_left multierror_Append (snd (runAll (map snd sel) (world c))) errs)
         (set_world (fst (runAll (map snd sel) (world c)))
            (set_trace (trace c ++ map (fun x => Invoked (fst (fst x)) (snd (fst x))) sel) c)).
Proof.
  induction order as [|k rest IH]; intros errs c.
  - simpl. rewrite app_nil_r. destruct c; reflexivity.
  - unfold selected. simpl flat_map. fold (selected m rest). simpl reloadKeys.
    destruct (m !! k) as [relFuncs|]; [|apply IH].
    destruct (HasPrefix k "listener|"); [|apply IH].
    rewrite bind_run, reloadSlice_run. simpl. rewrite IH. simpl.
    rewrite !map_app, !map_map. simpl. rewrite runAll_app.
    cbn [fst snd]. rewrite fold_left_app, <- app_assoc.
    destruct c; reflexivity.
Qed.

Lemma multierror_Append_all es : forall l,
  fold_left multierror_Append es (Some l) = Some (l ++ es)%list.
Proof.
  induction es as [|e es IH]; intros l; simpl.
  - rewrite app_nil_r. reflexivity.
  - rewrite IH, <- app_assoc. reflexivity.
Qed.

Lemma ErrorOrNil_all es :
  ErrorOrNil (fold_left multierror_Append es None) =
    match es with
    | [] => None
    | _ => Some es
    end.
Proof.
  destruct es as [|e es]; [reflexivity|]. simpl.
  rewrite multierror_Append_all. reflexivity.
Qed.

(** [Reload] always comes back: it calls the selected callbacks one after
    the other, sends the acknowledgement, and returns the failures. *)
Lemma Reload_run order ackReady c :
  Reload order ackReady c =
    let sel := selected (ReloadFuncs (Server c)) order in
    Cont (match snd (runAll (map snd sel) (world c)) with
          | [] => None
          | es => Some es
          end)
         (set_world (fst (runAll (map snd sel) (world c)))
            (set_trace (trace c ++ map (fun x => Invoked (fst (fst x)) (snd (fst x))) sel
                                ++ [ReloadedCh_send ackReady]) c)).
Proof.
  unfold Reload. rewrite bind_run. unfold get. rewrite bind_run, reloadKeys_run.
  simpl. runM. simpl. rewrite ErrorOrNil_all, <- app_assoc.
  destruct (runAll _ (world c)) as [w es]. simpl. destruct es; reflexivity.
Qed.

Lemma invokedOf_app t1 t2 : invokedOf (t1 ++ t2) = (invokedOf t1 ++ invokedOf t2)%list.
Proof. apply omap_app. Qed.

Lemma invokedOf_selected (sel : list (string * nat * ReloadFunc W)) :
  invokedOf (map (fun x => Invoked (fst (fst x)) (snd (fst x))) sel) = map fst sel.
Proof.
  induction sel as [|[[k i] f] sel IH]; simpl; [reflexivity|].
  unfold invokedOf in *. simpl. f_equal. exact IH.
Qed.

Lemma Reload_invoked order ackReady c :
  invokedOf (trace (stateOf (Reload order ackReady c))) =
    (invokedOf (trace c) ++ map fst (selected (ReloadFuncs (Server c)) order))%list.
Proof.
  rewrite Reload_run. simpl. rewrite !invokedOf_app, invokedOf_selected.
  simpl. rewrite app_nil_r. reflexivity.
Qed.

Lemma nonNilFrom_lookup (relFuncs : list (option (ReloadFunc W))) : forall i j f,
  In (j, f) (nonNilFrom i relFuncs) ->
  exists n, j = (i + n)%nat /\ relFuncs !! n = Some (Some f).
Proof.
  induction relFuncs as [|[g|] rest IH]; intros i j f Hin; simpl in Hin.
  - destruct Hin.
  - destruct Hin as [Heq|Hin].
    + injection Heq as <- <-. exists 0%nat. split; [lia|reflexivity].
    + destruct (IH _ _ _ Hin) as (n & -> & Hn). exists (S n). split; [lia|exact Hn].
  - destruct (IH _ _ _ Hin) as (n & -> & Hn). exists (S n). split; [lia|exact Hn].
Qed.

Lemma nonNilFrom_indices (relFuncs : list (option (ReloadFunc W))) : forall i,
  map fst (nonNilFrom i relFuncs) =
    List.filter (fun j => match nth (j - i) relFuncs None with Some _ => true | None => false end)
      (seq i (length relFuncs)).
Proof.
  induction relFuncs as [|x rest IH]; intros i; [reflexivity|].
  assert (Hrest : List.filter
            (fun j => match nth (j - i) (x :: rest) None with Some _ => true | None => false end)
            (seq (S i) (length rest)) = map fst (nonNilFrom (S i) rest)).
  { rewrite IH. apply List.filter_ext_in. intros j Hj. apply in_seq in Hj.
    replace (j - i)%nat with (S (j - S i)) by lia. reflexivity. }
  cbn [length seq List.filter]. rewrite Hrest, Nat.sub_diag.
  destruct x; reflexivity.
Qed.

Lemma selected_sound (m : gmap string (list (option (ReloadFunc W)))) order k i :
  In (k, i) (map fst (selected m order)) ->
  In k order /\ HasPrefix k "listener|" = true /\
  exists fs f, m !! k = Some fs /\ fs !! i = Some (Some f).
Proof.
  intros Hin. apply in_map_iff in Hin as ([[k' i'] f] & Heq & Hin).
  simpl in Heq. injection Heq as -> ->.
  unfold selected in Hin. apply in_flat_map in Hin as (k0 & Hk0 & Hin).
  destruct (m !! k0) as [fs|] eqn:Hm; [|destruct Hin].
  destruct (HasPrefix k0 "listener|") eqn:Hp; [|destruct Hin].
  apply in_map_iff in Hin as ([j g] & Heq & Hin). simpl in Heq.
  injection Heq as -> -> ->.
  apply nonNilFrom_lookup in Hin as (n & -> & Hn). simpl.
  split; [exact Hk0|]. split; [exact Hp|]. eauto.
Qed.

Lemma callsFor_app k l1 l2 : callsFor k (l1 ++ l2) = (callsFor k l1 ++ callsFor k l2)%list.
Proof. unfold callsFor. rewrite List.filter_app, map_app. reflexivity. Qed.

Lemma callsFor_other_keys k inv :
  (forall i, ~ In (k, i) inv) -> callsFor k inv = [].
Proof.
  unfold callsFor. induction inv as [|[k' i] inv IH]; intros Hno; [reflexivity|].
  simpl. destruct (String.eqb_spec k' k) as [->|_].
  - exfalso. apply (Hno i). left. reflexivity.
  - apply IH. intros j Hj. apply (Hno j). right. exact Hj.
Qed.

Lemma callsFor_own_key k (sel : list (nat * ReloadFunc W)) :
  callsFor k (map fst (map (fun jf => (k, fst jf, snd jf)) sel)) = map fst sel.
Proof.
  unfold callsFor. induction sel as [|[j f] sel IH]; [reflexivity|].
  simpl. rewrite String.eqb_refl. simpl. f_equal. exact IH.
Qed.

(** When every key is visited once, the calls made under a key are the
    non-nil callbacks of its slice, first to last. *)
Lemma selected_for_key (m : gmap string (list (option (ReloadFunc W)))) order k fs :
  NoDup order -> In k order -> m !! k = Some fs ->
  callsFor k (map fst (selected m order)) =
    if HasPrefix k "listener|" then nonNilIndices fs else [].
Proof.
  intros Hnd Hin Hm. induction order as [|k0 rest IH]; [destruct Hin|].
  apply NoDup_cons in Hnd as [Hk0 Hnd].
  unfold selected. simpl flat_map. fold (selected m rest).
  rewrite map_app, callsFor_app.
  destruct (String.eqb_spec k0 k) as [->|Hne].
  - rewrite (callsFor_other_keys k (map fst (selected m rest))).
    2:{ intros i Hi. apply selected_sound in Hi as [Hi _].
        apply Hk0, list_elem_of_In, Hi. }
    rewrite app_nil_r, Hm. destruct (HasPrefix k "listener|"); [|reflexivity].
    rewrite callsFor_own_key, nonNilFrom_indices. unfold nonNilIndices.
    apply List.filter_ext. intros j. rewrite Nat.sub_0_r. reflexivity.
  - rewrite callsFor_other_keys.
    + simpl. apply IH; [exact Hnd|]. destruct Hin as [Heq|Hin]; [congruence|exact Hin].
    + intros i Hi. apply Hne.
      destruct (m !! k0) as [fs0|]; [|destruct Hi].
      destruct (HasPrefix k0 "listener|"); [|destruct Hi].
      apply in_map_iff in Hi as ([[k' i'] f] & Heq & Hi). simpl in Heq.
      apply in_map_iff in Hi as ([j g] & Heq' & _). congruence.
Qed.

(** C5.  [Reload] always returns.  The callbacks it calls are the selected
    ones whatever any of them returns, so a failure stops none of the
    later ones; the world afterwards is the one all of them leave, run one
    after the other; the result is [nil] exactly when none of them failed
    and otherwise one aggregate holding every failure, in the order of the
    calls. *)
Theorem C5_reload_collects_failures order ackReady c :
  let sel := selected (ReloadFuncs (Server c)) order in
  let '(w, failures) := runAll (map snd sel) (world c) in
  exists c',
    Reload order ackReady c = Cont (match failures with [] => None | _ => Some failures end) c' /\
    invokedOf (trace c') = (invokedOf (trace c) ++ map fst sel)%list /\
    world c' = w.
Proof.
  intros sel. pose proof (Reload_run order ackReady c) as Hrun.
  pose proof (Reload_invoked order ackReady c) as Hinv.
  fold sel in Hrun, Hinv. simpl in Hrun.
  destruct (runAll (map snd sel) (world c)) as [w failures] eqn:Hall.
  simpl in Hrun. rewrite Hrun in Hinv |- *. simpl in Hinv.
  eexists. split; [destruct failures; reflexivity|].
  split; [exact Hinv|reflexivity].
Qed.

(** C7 (amended).  The callbacks [Reload] calls are the selected ones, key
    by key in the order the keys are visited.  Every call is a non-nil
    callback registered under a key with the listener prefix; and when the
    keys are visited once each, the calls made under a key with the prefix
    are all the non-nil callbacks of that key, each once, in the order of
    their slice, which is the order they were registered under that key;
    no call is made under any other key. *)
Theorem C7_reload_selects_by_prefix order ackReady c :
  let m := ReloadFuncs (Server c) in
  let new := map fst (selected m order) in
  invokedOf (trace (stateOf (Reload order ackReady c))) = (invokedOf (trace c) ++ new)%list /\
  (forall k i, In (k, i) new ->
     HasPrefix k "listener|" = true /\
     exists fs f, m !! k = Some fs /\ fs !! i = Some (Some f)) /\
  (order ≡ₚ map fst (map_to_list m) ->
   forall k fs, m !! k = Some fs ->
     callsFor k new = if HasPrefix k "listener|" then nonNilIndices fs else []).
Proof.
  intros m new. split; [apply Reload_invoked|]. split.
  - intros k i Hin. apply selected_sound in Hin as (_ & Hp & Hreg). auto.
  - intros Hperm k fs Hm. apply selected_for_key; [| |exact Hm].
    + rewrite Hperm. apply NoDup_fst_map_to_list.
    + apply list_elem_of_In. rewrite Hperm. apply list_elem_of_fmap.
      exists (k, fs). split; [reflexivity|]. apply elem_of_map_to_list, Hm.
Qed.

(** *** The reload handler *)

Lemma set_trace_twice t l c :
  set_trace (trace (set_trace t c) ++ l) (set_trace t c) = set_trace (t ++ l) c.
Proof. destruct c; reflexivity. Qed.

Lemma set_trace_same c : set_trace (trace c) c = c.
Proof. destruct c; reflexivity. Qed.

(** With no path, a failed load or no configuration, the part of the
    handler before [RUNRELOADFUNCS] does nothing but log the failure, one
    line through [c.Logger]; with no path it logs nothing. *)
Lemma reloadConfig_skips env load c :
  flagConfig (flags c) = EmptyString \/ ld_err load <> None \/ ld_conf load = None ->
  flagConfig (flags c) = EmptyString \/ Logger (Server c) <> None ->
  exists logs,
    (flagConfig (flags c) = EmptyString /\ logs = [] \/
     flagConfig (flags c) <> EmptyString /\ ld_err load <> None /\
       logs = [LoggerError "could not reload config"] \/
     flagConfig (flags c) <> EmptyString /\ ld_err load = None /\ ld_conf load = None /\
       logs = [LoggerError "no config found at reload time"]) /\
    reloadConfig env load c = Cont tt (set_trace (trace c ++ logs) c).
Proof.
  intros H Hl. unfold reloadConfig, theLogger. runM.
  destruct (String.eqb_spec (flagConfig (flags c)) EmptyString) as [He|Hne].
  - exists []. split; [left; auto|].
    rewrite app_nil_r, set_trace_same. reflexivity.
  - destruct Hl as [Hl|Hl]; [contradiction|]. destruct H as [H|H]; [contradiction|].
    destruct (ld_err load) as [e|].
    + runM. destruct (Logger (Server c)) as [l|]; [clear Hl|contradiction].
      eexists. split; [right; left; repeat split; [exact Hne|discriminate]|reflexivity].
    + destruct H as [H|H]; [contradiction|]. rewrite H.
      runM. destruct (Logger (Server c)) as [l|]; [clear Hl|contradiction].
      eexists. split; [right; right; repeat split; exact Hne|reflexivity].
Qed.

(** The same failures with a nil [c.Logger]: the call that would log
    them panics. *)
Lemma reloadConfig_panics env load c :
  flagConfig (flags c) <> EmptyString ->
  ld_err load <> None \/ ld_conf load = None ->
  Logger (Server c) = None ->
  reloadConfig env load c = Stop Panicked c.
Proof.
  intros Hne H Hl. unfold reloadConfig, theLogger. runM.
  destruct (String.eqb_spec (flagConfig (flags c)) EmptyString) as [He|_]; [contradiction|].
  destruct (ld_err load) as [e|]; [runM; rewrite Hl; reflexivity|].
  destruct H as [H|H]; [contradiction|]. rewrite H. runM. rewrite Hl. reflexivity.
Qed.

(** The part from [RUNRELOADFUNCS] on always goes on, having called the
    selected callbacks. *)
Lemma runReloadFuncs_run order ackReady c :
  exists c',
    runReloadFuncs order ackReady c = Cont tt c' /\
    invokedOf (trace c') =
      (invokedOf (trace c) ++ map fst (selected (ReloadFuncs (Server c)) order))%list.
Proof.
  pose proof (Reload_invoked order ackReady c) as Hinv.
  unfold runReloadFuncs. rewrite bind_run. rewrite Reload_run in *. simpl in *.
  destruct (runAll _ (world c)) as [w [|e es]]; simpl in *.
  - eexists. split; [reflexivity|exact Hinv].
  - runM. eexists. split; [reflexivity|]. simpl.
    rewrite invokedOf_app. simpl. rewrite app_nil_r. exact Hinv.
Qed.

(** C6 (amended).  A reload trigger that finds no configuration path, or
    whose re-read fails, or whose re-read yields no configuration.
    - With no path, or with a logger in [c.Logger], it does not end the
      handler or the loop: after the announcement the handler logs nothing
      when there is no path, the line [could not reload config] when the
      re-read failed and the line [no config found at reload time] when
      it gave no configuration; it then goes straight on to the reload
      callbacks (the selected ones are all called), and the loop goes on
      with the next event.
    - With a path and a nil [c.Logger], the call that would log the
      failure panics: the handler and the loop end there, after the
      announcement, and no reload callback has been called. *)
Theorem C6_reload_goes_on env load order ackReady rest c :
  flagConfig (flags c) = EmptyString \/ ld_err load <> None \/ ld_conf load = None ->
  (flagConfig (flags c) = EmptyString \/ Logger (Server c) <> None ->
   exists logs c',
     (flagConfig (flags c) = EmptyString /\ logs = [] \/
      flagConfig (flags c) <> EmptyString /\ ld_err load <> None /\
        logs = [LoggerError "could not reload config"] \/
      flagConfig (flags c) <> EmptyString /\ ld_err load = None /\ ld_conf load = None /\
        logs = [LoggerError "no config found at reload time"]) /\
     let c1 := set_trace (trace c ++ UIOutput (Text "==> Watchtower controller reload triggered")
                                  :: logs) c in
     handleSighup env load order ackReady c = runReloadFuncs order ackReady c1 /\
     runReloadFuncs order ackReady c1 = Cont tt c' /\
     invokedOf (trace c') =
       (invokedOf (trace c) ++ map fst (selected (ReloadFuncs (Server c)) order))%list /\
     WaitForInterrupt env (SighupCh_recv load order ackReady :: rest) c =
       WaitForInterrupt env rest c')
  /\
  (flagConfig (flags c) <> EmptyString -> Logger (Server c) = None ->
   let c0 := set_trace (trace c ++ [UIOutput (Text "==> Watchtower controller reload triggered")])
               c in
   handleSighup env load order ackReady c = Stop Panicked c0 /\
   WaitForInterrupt env (SighupCh_recv load order ackReady :: rest) c = Stop Panicked c0).
Proof.
  intros H.
  set (c0 := set_trace (trace c ++ [UIOutput (Text "==> Watchtower controller reload triggered")]) c).
  assert (Hstart : handleSighup env load order ackReady c =
                   (reloadConfig env load;; runReloadFuncs order ackReady) c0).
  { unfold handleSighup. rewrite bind_run. reflexivity. }
  split.
  - intros Hl.
    destruct (reloadConfig_skips env load c0) as (logs & Hlogs & Hskip);
      [destruct c; exact H|destruct c; exact Hl|].
    unfold c0 in Hskip. rewrite set_trace_twice, <- app_assoc in Hskip. simpl in Hskip.
    destruct (runReloadFuncs_run order ackReady
                (set_trace (trace c ++ UIOutput (Text "==> Watchtower controller reload triggered")
                                     :: logs) c)) as (c' & Hrun & Hinv).
    assert (Hhandle : handleSighup env load order ackReady c =
                      runReloadFuncs order ackReady
                        (set_trace (trace c ++ UIOutput (Text "==> Watchtower controller reload triggered")
                                     :: logs) c)).
    { rewrite Hstart, bind_run. unfold c0. rewrite Hskip. reflexivity. }
    exists logs, c'. split; [destruct c; exact Hlogs|]. simpl.
    split; [exact Hhandle|]. split; [exact Hrun|]. split.
    + rewrite Hinv. simpl. rewrite invokedOf_app.
      replace (invokedOf (_ :: logs)) with (@nil (string * nat)); [rewrite app_nil_r; reflexivity|].
      destruct Hlogs as [[_ ->]|[(_ & _ & ->)|(_ & _ & _ & ->)]]; reflexivity.
    + simpl WaitForInterrupt. rewrite bind_run, Hhandle, Hrun. reflexivity.
  - intros Hne Hl. destruct H as [H|H]; [contradiction|].
    assert (Hhandle : handleSighup env load order ackReady c = Stop Panicked c0).
    { rewrite Hstart, bind_run.
      rewrite (reloadConfig_panics env load c0); [reflexivity| | |];
        unfold c0; destruct c; assumption. }
    simpl. split; [exact Hhandle|].
    simpl WaitForInterrupt. rewrite bind_run, Hhandle. reflexivity.
Qed.

(** *** Parts of the command a computation leaves alone *)

Section Preserves.

Context {X : Type} (part : Command W -> X).

Lemma preserves_bind {A B} (m : M W A) (f : A -> M W B) :
  preserves part m -> (forall a, preserves part (f a)) -> preserves part (m ≫= f).
Proof.
  intros Hm Hf c. rewrite bind_run. specialize (Hm c).
  destruct (m c) as [a c'|o c']; simpl in *; [|exact Hm].
  rewrite <- Hm. apply Hf.
Qed.

Lemma preserves_ret {A} (a : A) : preserves part (mret a).
Proof. intros c. reflexivity. Qed.

Lemma preserves_get : preserves part get.
Proof. intros c. reflexivity. Qed.

Lemma preserves_exit {A} code : preserves part (@exit W A code).
Proof. intros c. reflexivity. Qed.

Lemma preserves_panic {A} : preserves part (@panic W A).
Proof. intros c. reflexivity. Qed.

Lemma preserves_modify (g : Command W -> Command W) :
  (forall c, part (g c) = part c) -> preserves part (modify g).
Proof. intros Hg c. apply Hg. Qed.

Lemma preserves_emit e :
  (forall c, part (set_trace (trace c ++ [e]) c) = part c) -> preserves part (emit e).
Proof. intros He c. apply He. Qed.

Lemma preserves_deferring {A} (d : Command W -> Command W) (m : M W A) :
  (forall c, part (d c) = part c) -> preserves part m -> preserves part (deferring d m).
Proof.
  intros Hd Hm c. specialize (Hm c). unfold deferring.
  destruct (m c) as [a c'|[code| |] c']; simpl in *; rewrite ?Hd; exact Hm.
Qed.

End Preserves.

(** A part computed from a preserved part is preserved. *)
Lemma preserves_weaken {X Y A} (part : Command W -> X) (g : X -> Y) (m : M W A) :
  preserves part m -> preserves (fun c => g (part c)) m.
Proof. intros Hm c. simpl. rewrite (Hm c). reflexivity. Qed.

Lemma ranActions_app t1 t2 : ranActions (t1 ++ t2) = (ranActions t1 ++ ranActions t2)%list.
Proof. apply omap_app. Qed.

Lemma calls_app fn t1 t2 : calls fn (t1 ++ t2) = (calls fn t1 + calls fn t2)%nat.
Proof. unfold calls. rewrite List.filter_app, length_app. reflexivity. Qed.

(** Closes the side conditions: the part is a tuple of fields and of
    trace summaries, and the update touches none of them. *)
Ltac frame_side :=
  intros;
  unfold handlerFrame, loopFrame, serveFrame, startupFrame, teardowns;
  cbn [flags Server Config controller cleanupGuard globals_DefaultMaxRequestDuration
       world trace set_flags set_Server set_Config set_controller
       set_globals_DefaultMaxRequestDuration set_world set_trace
       CombineLogs Logger AllLoggers SecureRandomReader ShutdownFuncs ReloadFuncs
       set_CombineLogs set_AllLoggers set_SecureRandomReader set_ShutdownFuncs];
  rewrite ?ranActions_app, ?calls_app;
  cbn; rewrite ?app_nil_r, ?Nat.add_0_r; reflexivity.

(** Walks through a computation built from the statements above. *)
Ltac frame_step :=
  lazymatch goal with
  | |- preserves _ (_ ≫= _) => apply preserves_bind; [|intros ?]
  | |- preserves _ (mret _) => apply preserves_ret
  | |- preserves _ get => apply preserves_get
  | |- preserves _ (exit _) => apply preserves_exit
  | |- preserves _ panic => apply preserves_panic
  | |- preserves _ (modify _) => apply preserves_modify; frame_side
  | |- preserves _ (emit _) => apply preserves_emit; frame_side
  | |- preserves _ (match ?x with _ => _ end) => destruct x
  end.

Ltac frame :=
  repeat first
    [ frame_step
    | progress unfold theConfig, theLogger, theController, stage, orFail,
        controller_New, controller_Start, controller_Shutdown, controller_SetLogLevel,
        Start, reloadConfig, handleShutdown, handleSigUSR2 ].

Lemma Reload_handlerFrame order ackReady : preserves (@handlerFrame W) (Reload order ackReady).
Proof.
  intros c. rewrite Reload_run. simpl stateOf.
  unfold handlerFrame, loopFrame, teardowns. simpl.
  rewrite !ranActions_app, !calls_app.
  assert (H1 : forall sel : list (string * nat * ReloadFunc W),
            ranActions (map (fun x => Invoked (fst (fst x)) (snd (fst x))) sel) = [])
    by (induction sel; auto).
  assert (H2 : forall fn (sel : list (string * nat * ReloadFunc W)),
            calls fn (map (fun x => Invoked (fst (fst x)) (snd (fst x))) sel) = 0%nat)
    by (induction sel; auto).
  rewrite H1, !H2. simpl. rewrite app_nil_r, !Nat.add_0_r. reflexivity.
Qed.

Lemma handleSighup_handlerFrame env load order ackReady :
  preserves handlerFrame (handleSighup env load order ackReady).
Proof.
  unfold handleSighup, runReloadFuncs. frame.
  apply Reload_handlerFrame.
Qed.

Lemma handleSigUSR2_handlerFrame : preserves (@handlerFrame W) handleSigUSR2.
Proof. frame. Qed.

Lemma WaitForInterrupt_loopFrame env evs :
  preserves (@loopFrame W) (WaitForInterrupt env evs).
Proof.
  induction evs as [|[closed|load order ackReady|] rest IH]; simpl WaitForInterrupt.
  - intros c. reflexivity.
  - frame.
  - apply preserves_bind; [|intros _; exact IH].
    exact (preserves_weaken handlerFrame fst _
             (handleSighup_handlerFrame env load order ackReady)).
  - apply preserves_bind; [|intros _; exact IH].
    exact (preserves_weaken handlerFrame fst _ handleSigUSR2_handlerFrame).
Qed.

Lemma serve_serveFrame env evs : preserves (@serveFrame W) (serve env evs).
Proof.
  unfold serve. frame.
  exact (preserves_weaken loopFrame
           (fun x => match x with
                     | (f, cfg, _, g, d, sf, rf, a, n) => (f, cfg, g, d, sf, rf, a, n)
                     end) _ (WaitForInterrupt_loopFrame env evs)).
Qed.





Lemma setupStages_Config env : preserves (@Config W) (setupStages env).
Proof. unfold setupStages. frame. Qed.

Lemma startupAfterChecks_Config env : preserves (@Config W) (startupAfterChecks env).
Proof. unfold startupAfterChecks. frame. Qed.

(** *** The shutdown actions *)

Lemma runShutdownFuncsFrom_run (fs : list (ShutdownFunc W)) : forall i c,
  let c' := runShutdownFuncsFrom i fs c in
  ranActions (trace c') = (ranActions (trace c) ++ seq i (length fs))%list /\
  world c' = fst (runAll fs (world c)) /\
  Config c' = Config c /\ Server c' = Server c.
Proof.
  induction fs as [|f rest IH]; intros i c; simpl.
  - rewrite app_nil_r. auto.
  - destruct (f (world c)) as [w err] eqn:Hf.
    match goal with |- context [runShutdownFuncsFrom (S i) rest ?c1] =>
      destruct (IH (S i) c1) as (Ha & Hw & Hc & Hs) end.
    rewrite Ha, Hw, Hc, Hs.
    destruct (runAll rest w) as [w2 es] eqn:Hrest.
    destruct err; simpl; rewrite ?ranActions_app, Hrest; simpl;
      rewrite ?app_nil_r, <- ?app_assoc; auto.
Qed.

Lemma RunShutdownFuncs_run c :
  ranActions (trace (RunShutdownFuncs c)) =
    (ranActions (trace c) ++ seq 0 (length (ShutdownFuncs (Server c))))%list /\
  world (RunShutdownFuncs c) = fst (runAll (ShutdownFuncs (Server c)) (world c)) /\
  Config (RunShutdownFuncs c) = Config c.
Proof.
  unfold RunShutdownFuncs.
  match goal with |- context [runShutdownFuncsFrom 0 ?fs ?c1] =>
    destruct (runShutdownFuncsFrom_run fs 0 c1) as (Ha & Hw & Hc & _) end.
  rewrite Ha, Hw, Hc. simpl. rewrite ranActions_app. simpl.
  rewrite app_nil_r. auto.
Qed.

(** *** [Run], block by block *)

Lemma Run_startup env evs args c :
  Run env evs args c =
    match startup env args c with
    | Cont _ c1 => deferring RunShutdownFuncs (serve env evs) c1
    | Stop o c1 => Stop o c1
    end.
Proof.
  unfold Run, startup. rewrite !bind_run.
  destruct (startupBeforeChecks env args c) as [[] c1|]; [|reflexivity].
  rewrite !bind_run. destruct (checkListenerPurposes c1) as [[] c2|]; [|reflexivity].
  rewrite !bind_run. destruct (startupAfterChecks env c2) as [[] c3|]; reflexivity.
Qed.




(** *** The paths of the startup *)

(** Runs a computation symbolically: unfolds the sequencing, reduces the
    field accesses, and splits on whatever a collaborator answers. *)
Ltac exec_step :=
  first
    [ progress runM
    | progress cbn [flags Server Config controller cleanupGuard
                    globals_DefaultMaxRequestDuration world trace
                    set_flags set_Server set_Config set_controller
                    set_globals_DefaultMaxRequestDuration set_world set_trace
                    CombineLogs Logger AllLoggers SecureRandomReader ShutdownFuncs
                    ReloadFuncs set_CombineLogs set_AllLoggers set_SecureRandomReader
                    set_ShutdownFuncs stateOf outcomeOf fst snd negb
                    flagConfig flagLogLevel flagLogFormat flagDev flagDevAdminPassword
                    flagDevControllerAPIListenAddr flagDevControllerClusterListenAddr
                    flagCombineLogs set_flagDevAdminPassword]
    | progress change (0 <? 1) with true
    | progress change (0 <? 0) with false
    | match goal with
      | H : ?x = _ |- context [match ?x with _ => _ end] => rewrite H
      | H : ?y = _ |- context [match negb ?y with _ => _ end] => rewrite H
      | |- context [match ?x with _ => _ end] =>
          lazymatch x with
          | context [match _ with _ => _ end] => fail
          | negb ?y => destruct y eqn:?
          | _ => destruct x eqn:?
          end
      end ].

Ltac exec := repeat exec_step.

(** Brings a trace built by appending into the form [trace c ++ t]. *)
Ltac trace_tail :=
  rewrite <- ?app_assoc; cbn [app];
  first [ eexists; split; [reflexivity|]
        | exists []; split; [symmetry; apply app_nil_r|] ].

Lemma callNames_app t1 t2 : callNames (t1 ++ t2) = (callNames t1 ++ callNames t2)%list.
Proof. apply omap_app. Qed.

(** How the startup can end. *)
Lemma startup_paths env args c :
  let f := fst (flags_Parse env args (flags c)) in
  exists t,
    trace (stateOf (startup env args c)) = (trace c ++ t)%list /\
    callNames t `prefix_of` stageOrder (flagDev f) /\
    match startup env args c with
    | Cont _ c1 => callNames t = stageOrder (flagDev f) /\ Config c1 <> None
    | Stop (Returned code) c1 => code = 1 /\ exists m, last t = Some (UIError m)
    | Stop Panicked c1 =>
        callNames t = [] /\ Config c1 = None /\
        snd (flags_Parse env args (flags c)) = None /\
        (flagDev f = false -> flagConfig f <> EmptyString) /\
        ld_conf (loadedBy env f) = None /\ ld_err (loadedBy env f) = None
    | Stop Blocked _ => False
    end.
Proof.
  unfold startup, startupBeforeChecks, loadFlagsAndConfig, ParseFlagsAndConfig,
    setupStages, checkListenerPurposes, startupAfterChecks, theConfig, stage, orFail,
    loadedBy, stageOrder.
  exec.
  all: trace_tail.
  all: (split; [eexists; simpl; reflexivity|]).
  all: try (split; [reflexivity|eexists; reflexivity]).
  all: try (split; [reflexivity|discriminate]).
  all: repeat split; try solve [assumption|reflexivity|discriminate].
  all: intros _ Hempty; rewrite Hempty in *; discriminate.
Qed.

(** *** The signal loop and the controller's shutdown *)

Lemma teardowns_snoc t e :
  teardowns (t ++ [e]) = (teardowns t + if isCall "stopListeners" e then 1 else 0)%nat.
Proof. unfold teardowns. rewrite calls_app. unfold calls. simpl. destruct (isCall _ e); reflexivity. Qed.

(** The shutdown case stops the listeners once when it goes through, and
    not at all when it panics on a nil controller. *)
Lemma handleShutdown_teardowns env c :
  match handleShutdown env c with
  | Cont _ c' =>
      controller c <> None /\ teardowns (trace c') = (teardowns (trace c) + 1)%nat
  | Stop _ c' => controller c = None /\ teardowns (trace c') = teardowns (trace c)
  end.
Proof.
  unfold handleShutdown, controller_Shutdown, theController. runM.
  cbn [controller set_trace trace].
  destruct (controller c) as [k|]; simpl.
  - destruct (stopListeners env); simpl; rewrite ?teardowns_snoc; simpl;
      split; try congruence; lia.
  - rewrite teardowns_snoc. simpl. split; [reflexivity|lia].
Qed.

Lemma WaitForInterrupt_teardowns env evs : forall c,
  match WaitForInterrupt env evs c with
  | Cont code c' => code = 0 /\ teardowns (trace c') = (teardowns (trace c) + 1)%nat
  | Stop _ c' => teardowns (trace c') = teardowns (trace c)
  end.
Proof.
  induction evs as [|[closed|load order ackReady|] rest IH]; intros c;
    simpl WaitForInterrupt.
  - reflexivity.
  - rewrite bind_run. pose proof (handleShutdown_teardowns env c) as H.
    destruct (handleShutdown env c) as [[] c'|o c']; simpl; tauto.
  - rewrite bind_run.
    pose proof (handleSighup_handlerFrame env load order ackReady c) as H.
    destruct (handleSighup env load order ackReady c) as [[] c'|o c'];
      apply (f_equal snd) in H; simpl in H.
    + specialize (IH c'). rewrite H in IH. exact IH.
    + exact H.
  - rewrite bind_run. pose proof (handleSigUSR2_handlerFrame c) as H.
    destruct (handleSigUSR2 c) as [[] c'|o c'];
      apply (f_equal snd) in H; simpl in H.
    + specialize (IH c'). rewrite H in IH. exact IH.
    + exact H.
Qed.

(** Events after the first shutdown trigger are never received. *)
Lemma WaitForInterrupt_ignores_rest env pre closed post : forall c,
  WaitForInterrupt env (pre ++ ShutdownCh_recv closed :: post) c =
  WaitForInterrupt env (pre ++ [ShutdownCh_recv closed]) c.
Proof.
  induction pre as [|[closed'|load order ackReady|] pre IH]; intros c;
    rewrite <- ?app_comm_cons; simpl WaitForInterrupt; try reflexivity.
  - rewrite !bind_run. destruct (handleSighup _ _ _ _ c); [apply IH|reflexivity].
  - rewrite !bind_run. destruct (handleSigUSR2 c); [apply IH|reflexivity].
Qed.

(** The handlers leave [c.Logger] alone. *)
Lemma Reload_Logger order ackReady :
  preserves (fun c : Command W => Logger (Server c)) (Reload order ackReady).
Proof. intros c. rewrite Reload_run. reflexivity. Qed.

Lemma handleSighup_Logger env load order ackReady :
  preserves (fun c : Command W => Logger (Server c)) (handleSighup env load order ackReady).
Proof. unfold handleSighup, runReloadFuncs. frame. apply Reload_Logger. Qed.

(** The dump signal: the stack is taken, then logged through [c.Logger],
    where a nil logger panics. *)
Lemma handleSigUSR2_run c :
  handleSigUSR2 c =
    match Logger (Server c) with
    | Some _ =>
        Cont tt (set_trace (trace c ++ [Call "runtime.Stack"; LoggerInfo "goroutine trace"]) c)
    | None => Stop Panicked (set_trace (trace c ++ [Call "runtime.Stack"]) c)
    end.
Proof.
  unfold handleSigUSR2, theLogger. runM. cbn [Server set_trace].
  destruct (Logger (Server c)); [|reflexivity].
  rewrite set_trace_twice, <- app_assoc. reflexivity.
Qed.

Lemma reloadConfig_total env load c :
  controller c <> None -> Logger (Server c) <> None ->
  exists c', reloadConfig env load c = Cont tt c'.
Proof.
  intros Hk Hl. unfold reloadConfig, controller_SetLogLevel, theController, theLogger.
  destruct (controller c) as [k|] eqn:Ek; [clear Hk|contradiction].
  destruct (Logger (Server c)) as [l|] eqn:El; [clear Hl|contradiction].
  exec; eauto.
Qed.

Lemma handleSighup_total env load order ackReady c :
  controller c <> None -> Logger (Server c) <> None ->
  exists c', handleSighup env load order ackReady c = Cont tt c'.
Proof.
  intros Hk Hl. unfold handleSighup. rewrite bind_run. unfold emit at 1, modify at 1.
  rewrite bind_run.
  destruct (reloadConfig_total env load
              (set_trace (trace c ++ [UIOutput (Text "==> Watchtower controller reload triggered")]) c))
    as [c1 ->]; [destruct c; exact Hk|destruct c; exact Hl|].
  destruct (runReloadFuncs_run order ackReady c1) as (c' & -> & _). eauto.
Qed.

(** With a controller and a logger in place, the loop returns as soon as
    the schedule holds a shutdown trigger. *)
Lemma WaitForInterrupt_returns env evs : forall c,
  controller c <> None -> Logger (Server c) <> None ->
  (exists closed, In (ShutdownCh_recv closed) evs) ->
  exists c', WaitForInterrupt env evs c = Cont 0 c'.
Proof.
  induction evs as [|[closed|load order ackReady|] rest IH]; intros c Hk Hl [b Hin];
    simpl WaitForInterrupt.
  - destruct Hin.
  - rewrite bind_run. pose proof (handleShutdown_teardowns env c) as H.
    destruct (handleShutdown env c) as [[] c'|o c']; [eauto|].
    destruct H as [H _]. contradiction.
  - rewrite bind_run.
    pose proof (handleSighup_handlerFrame env load order ackReady c) as H.
    pose proof (handleSighup_Logger env load order ackReady c) as HL.
    destruct (handleSighup_total env load order ackReady c Hk Hl) as [c' Hc'].
    rewrite Hc' in H, HL |- *. simpl in H, HL. unfold handlerFrame, loopFrame in H.
    injection H as _ _ Hk' _ _ _ _ _ _ _.
    apply IH; [congruence|congruence|]. destruct Hin as [Heq|Hin]; [discriminate|eauto].
  - rewrite bind_run, handleSigUSR2_run.
    destruct (Logger (Server c)) as [l|] eqn:El; [clear Hl|contradiction].
    apply IH; [destruct c; exact Hk|destruct c; simpl in *; congruence|].
    destruct Hin as [Heq|Hin]; [discriminate|eauto].
Qed.



(** [Start] gives the server a logger of its own only in [AllLoggers]:
    [c.Logger] stays as the startup left it. *)
Lemma Start_Logger env : preserves (fun c : Command W => Logger (Server c)) (Start env).
Proof. frame. Qed.




(** C1 (amended).  A call of [WaitForInterrupt] never touches
    [cleanupGuard]: no one-shot guard stands before the controller's
    [Shutdown].  Within one call the listeners are still stopped at most
    once, and exactly once when the call returns, which it does with code
    0 right after the first shutdown trigger it receives (a value or the
    closing of the channel alike); what arrives after that trigger is not
    received by this call; and with a controller and a logger in place
    (the handlers reach through [c.controller] and [c.Logger] unchecked)
    the call does return once a shutdown trigger is in the schedule. *)
Theorem C1_shutdown_once_per_call env evs c :
  let r := WaitForInterrupt env evs c in
  cleanupGuard (stateOf r) = cleanupGuard c /\
  (teardowns (trace (stateOf r)) <= teardowns (trace c) + 1)%nat /\
  (forall code c', r = Cont code c' ->
     code = 0 /\ teardowns (trace c') = (teardowns (trace c) + 1)%nat) /\
  (forall o c', r = Stop o c' -> teardowns (trace c') = teardowns (trace c)) /\
  (forall pre closed post, evs = (pre ++ ShutdownCh_recv closed :: post)%list ->
     r = WaitForInterrupt env (pre ++ [ShutdownCh_recv closed]) c) /\
  (controller c <> None -> Logger (Server c) <> None ->
   (exists closed, In (ShutdownCh_recv closed) evs) ->
   exists c', r = Cont 0 c').
Proof.
  intros r. pose proof (WaitForInterrupt_teardowns env evs c) as Ht.
  pose proof (WaitForInterrupt_loopFrame env evs c) as Hf. fold r in Ht, Hf.
  split.
  { unfold loopFrame in Hf. injection Hf as _ _ _ Hg _ _ _ _ _. exact Hg. }
  split; [destruct r; simpl; [destruct Ht|]; lia|].
  split; [intros code c' Hr; rewrite Hr in Ht; exact Ht|].
  split; [intros o c' Hr; rewrite Hr in Ht; exact Ht|].
  split.
  - intros pre closed post ->. apply WaitForInterrupt_ignores_rest.
  - apply WaitForInterrupt_returns.
Qed.

(** *** What happens to the configuration *)

Lemma devListenerAddress_frame f l :
  Purpose (devListenerAddress f l) = Purpose l /\
  TLSDisable (devListenerAddress f l) = TLSDisable l /\
  (length (Purpose l) <> 1%nat -> devListenerAddress f l = l).
Proof.
  unfold devListenerAddress.
  destruct (Nat.eqb_spec (length (Purpose l)) 1) as [Hlen|Hlen]; simpl.
  - repeat match goal with |- context [if ?b then _ else _] => destruct b end;
      simpl; split; try reflexivity; split; try reflexivity; intros; congruence.
  - auto.
Qed.

(** The loop changes a listener only by filling in an empty purpose
    list. *)
Lemma checkListener_frame ln fc fa :
  let ln' := match checkListener ln fc fa with
             | Marked ln' _ _ => ln'
             | Rejected ln' _ => ln'
             end in
  ln' = ln \/ (Purpose ln = [] /\ ln' = set_Purpose ["api"; "cluster"] ln).
Proof.
  unfold checkListener, checkBoth.
  destruct (Purpose ln) as [|p [|q [|r rest]]] eqn:HP; simpl;
    repeat match goal with |- context [if ?b then _ else _] => destruct b end;
    simpl; auto.
Qed.

Lemma checkListeners_frame lns : forall fc fa,
  Forall2 (fun l l' => l' = l \/ (Purpose l = [] /\ l' = set_Purpose ["api"; "cluster"] l))
    lns (fst (checkListeners lns fc fa)).
Proof.
  induction lns as [|ln rest IH]; intros fc fa; simpl; [constructor|].
  pose proof (checkListener_frame ln fc fa) as Hln. simpl in Hln.
  destruct (checkListener ln fc fa) as [ln' fc' fa'|ln' m].
  - specialize (IH fc' fa'). destruct (checkListeners rest fc' fa') as [rest' r].
    simpl in *. constructor; assumption.
  - simpl. constructor; [exact Hln|]. apply Forall2_same_length_lookup.
    split; [reflexivity|]. intros i x y Hx Hy. left. congruence.
Qed.

Lemma validateListeners_frame lns :
  Forall2 (fun l l' => l' = l \/ (Purpose l = [] /\ l' = set_Purpose ["api"; "cluster"] l))
    lns (fst (validateListeners lns)).
Proof.
  unfold validateListeners. pose proof (checkListeners_frame lns false false) as H.
  destruct (checkListeners lns false false) as [lns' [m|[fc fa]]]; simpl in *;
    [exact H|]. destruct (fa && negb fc); exact H.
Qed.

(** Lines 150-155 leave the configuration as it was (the flags did not
    parse, or no file was named), or install what the loader returned, in
    dev mode with the address override applied. *)
Lemma loadFlagsAndConfig_Config env args c :
  let f := fst (flags_Parse env args (flags c)) in
  let cfg' := Config (stateOf (loadFlagsAndConfig env args c)) in
  cfg' = Config c \/
  cfg' = ld_conf (loadedBy env f) \/
  (flagDev f = true /\
   exists cfg, ld_conf (loadedBy env f) = Some cfg /\
     cfg' = Some (set_Listeners (map (devListenerAddress f) (Listeners cfg)) cfg)).
Proof.
  unfold loadFlagsAndConfig, ParseFlagsAndConfig, theConfig, loadedBy. runM.
  cbn [flags set_Server].
  destruct (flags_Parse env args (flags c)) as [f [e|]]; cbn [fst]; [left; reflexivity|].
  destruct (flagDev f) eqn:Hdev; cbn [negb].
  - destruct (ld_err (config_DevController env)); [right; left; reflexivity|].
    cbn [Config set_Config set_flags].
    destruct (ld_conf (config_DevController env)) as [cfg|] eqn:Hld;
      [|right; left; reflexivity].
    right. right. split; [reflexivity|]. exists cfg. split; reflexivity.
  - destruct (Nat.eqb _ 0); [left; reflexivity|].
    destruct (negb _); destruct (ld_err _); right; left; reflexivity.
Qed.

(** When lines 150-155 go on, the loader's configuration is installed. *)
Lemma loadFlagsAndConfig_goes_on env args c c0 :
  loadFlagsAndConfig env args c = Cont tt c0 ->
  let f := fst (flags_Parse env args (flags c)) in
  (flagDev f = false /\ Config c0 = ld_conf (loadedBy env f)) \/
  (flagDev f = true /\
   exists cfg, ld_conf (loadedBy env f) = Some cfg /\
     Config c0 = Some (set_Listeners (map (devListenerAddress f) (Listeners cfg)) cfg)).
Proof.
  unfold loadFlagsAndConfig, ParseFlagsAndConfig, theConfig, loadedBy. runM.
  cbn [flags set_Server].
  destruct (flags_Parse env args (flags c)) as [f [e|]]; cbn [fst]; [discriminate|].
  destruct (flagDev f) eqn:Hdev; cbn [negb].
  - destruct (ld_err (config_DevController env)); [discriminate|].
    cbn [Config set_Config set_flags].
    destruct (ld_conf (config_DevController env)) as [cfg|] eqn:Hld; [|discriminate].
    cbn. intros H. injection H as <-. right. split; [reflexivity|].
    exists cfg. split; reflexivity.
  - destruct (Nat.eqb _ 0); [discriminate|].
    destruct (negb _); destruct (ld_err _); try discriminate;
      cbn; intros H; injection H as <-; left; split; reflexivity.
Qed.

Lemma serve_Config env evs : preserves (@Config W) (deferring RunShutdownFuncs (serve env evs)).
Proof.
  apply preserves_deferring; [intros c; apply RunShutdownFuncs_run|].
  exact (preserves_weaken serveFrame
           (fun x => match x with (_, cfg, _, _, _, _, _, _) => cfg end) _
           (serve_serveFrame env evs)).
Qed.

(** From the checks on, the configuration changes once at most: the
    checks write back the listeners as the loop left them. *)
Lemma Run_from_checks_Config env evs c :
  let rest := checkListenerPurposes;; startupAfterChecks env;;
              deferring RunShutdownFuncs (serve env evs) in
  Config (stateOf (rest c)) = Config c \/
  exists cfg, Config c = Some cfg /\
    Config (stateOf (rest c)) =
      Some (set_Listeners (fst (validateListeners (Listeners cfg))) cfg).
Proof.
  intros rest. unfold rest. rewrite bind_run.
  destruct (Config c) as [cfg|] eqn:Hcfg.
  - right. exists cfg. split; [reflexivity|].
    rewrite (checkListenerPurposes_run c cfg Hcfg). cbn zeta.
    destruct (snd (validateListeners (Listeners cfg))); [reflexivity|].
    rewrite bind_run.
    match goal with |- context [startupAfterChecks env ?c1] =>
      pose proof (startupAfterChecks_Config env c1) as H1;
      destruct (startupAfterChecks env c1) as [[] c2|o c2]; simpl in H1
    end; [|simpl; rewrite H1; reflexivity].
    rewrite (serve_Config env evs c2), H1. reflexivity.
  - left. unfold checkListenerPurposes, theConfig. runM. rewrite Hcfg. simpl.
    exact Hcfg.
Qed.

Lemma listenerFrame_same f l : listenerFrame f l l.
Proof. exists l. auto. Qed.

Lemma configFrame_same f cfg : configFrame f cfg cfg.
Proof.
  unfold configFrame. repeat split.
  apply Forall2_same_length_lookup. split; [reflexivity|].
  intros i x y Hx Hy. replace y with x by congruence. apply listenerFrame_same.
Qed.

(** C8 (amended).  [Run] leaves the configuration it was given alone
    when it returns before loading one; otherwise the configuration at
    the end is the loaded one except for two kinds of change to its
    listeners: in dev mode [ParseFlagsAndConfig] may overwrite the
    address of a listener, which it does only for a listener declaring
    one purpose and without touching its purposes or its TLS setting;
    and the listener checks replace an empty purpose list by the pair of
    "api" and "cluster".  No other field changes, and neither the signal
    loop nor [Reload] changes the configuration at all. *)
Theorem C8_config_frame env evs args c :
  let f := fst (flags_Parse env args (flags c)) in
  let c' := stateOf (Run env evs args c) in
  (Config c' = Config c \/
   option_Forall2 (configFrame f) (ld_conf (loadedBy env f)) (Config c')) /\
  (forall l,
     Purpose (devListenerAddress f l) = Purpose l /\
     TLSDisable (devListenerAddress f l) = TLSDisable l /\
     (length (Purpose l) <> 1%nat -> devListenerAddress f l = l)) /\
  (forall evs' c0, Config (stateOf (WaitForInterrupt env evs' c0)) = Config c0) /\
  (forall order ackReady c0, Config (stateOf (Reload order ackReady c0)) = Config c0).
Proof.
  intros f c'. split; [|split; [apply devListenerAddress_frame|split]].
  - unfold c', Run, startupBeforeChecks. rewrite !bind_run.
    pose proof (loadFlagsAndConfig_Config env args c) as Hstop.
    pose proof (loadFlagsAndConfig_goes_on env args c) as Hgo.
    fold f in Hstop, Hgo. cbn zeta in Hstop.
    destruct (loadFlagsAndConfig env args c) as [[] c0|o c0]; simpl in Hstop.
    2:{ simpl. destruct Hstop as [H|[H|(Hdev & cfg & Hld & H)]]; rewrite H.
        - left. reflexivity.
        - right. destruct (ld_conf (loadedBy env f)); constructor. apply configFrame_same.
        - right. rewrite Hld. constructor. unfold configFrame. simpl. repeat split.
          apply Forall2_fmap_r, Forall2_same_length_lookup. split; [reflexivity|].
          intros i x y Hx Hy. replace y with x by congruence.
          exists (devListenerAddress f x). auto. }
    clear Hstop. specialize (Hgo c0 eq_refl).
    pose proof (setupStages_Config env c0) as Hsetup.
    destruct (setupStages env c0) as [[] c1|o c1]; simpl in Hsetup.
    + pose proof (Run_from_checks_Config env evs c1) as Hrest. cbn zeta in Hrest.
      match type of Hrest with
      | Config (stateOf ?r) = _ \/ _ => match goal with |- context [stateOf ?r'] =>
          change r' with r end end.
      right. rewrite Hsetup in Hrest.
      destruct Hgo as [(Hdev & Hc0)|(Hdev & cfg & Hld & Hc0)].
      * destruct Hrest as [->|(cfg & Hcfg & ->)].
        { rewrite Hc0. destruct (ld_conf (loadedBy env f)); constructor.
          apply configFrame_same. }
        { rewrite Hc0 in Hcfg. rewrite Hcfg. constructor. unfold configFrame. simpl.
          repeat split. eapply Forall2_impl; [apply validateListeners_frame|].
          intros l l' [->|[Hnil ->]]; exists l; auto. }
      * rewrite Hld. destruct Hrest as [->|(cfg0 & Hcfg & ->)]; rewrite Hc0 in *.
        { constructor. unfold configFrame. simpl. repeat split.
          apply Forall2_fmap_r, Forall2_same_length_lookup. split; [reflexivity|].
          intros i x y Hx Hy. replace y with x by congruence.
          exists (devListenerAddress f x). auto. }
        { injection Hcfg as <-. constructor. unfold configFrame. simpl. repeat split.
          pose proof (validateListeners_frame (map (devListenerAddress f) (Listeners cfg))) as Hv.
          apply Forall2_fmap_l in Hv. eapply Forall2_impl; [exact Hv|].
          intros l l' Hl. simpl in Hl. exists (devListenerAddress f l).
          split; [auto|]. exact Hl. }
    + simpl. right. rewrite Hsetup.
      destruct Hgo as [(Hdev & ->)|(Hdev & cfg & Hld & ->)].
      * destruct (ld_conf (loadedBy env f)); constructor. apply configFrame_same.
      * rewrite Hld. constructor. unfold configFrame. simpl. repeat split.
        apply Forall2_fmap_r, Forall2_same_length_lookup. split; [reflexivity|].
        intros i x y Hx Hy. replace y with x by congruence.
        exists (devListenerAddress f x). auto.
  - intros evs' c0. pose proof (WaitForInterrupt_loopFrame env evs' c0) as H.
    unfold loopFrame in H. injection H as _ H _ _ _ _ _ _ _. exact H.
  - intros order ackReady c0. pose proof (Reload_handlerFrame order ackReady c0) as H.
    unfold handlerFrame, loopFrame in H. injection H as _ H _ _ _ _ _ _ _ _. exact H.
Qed.

(** ** Further properties of the listener checks *)

(** Every listener either passes whatever the flags are, or is rejected
    with one message whatever the flags are; in both cases the loop
    leaves it [defaulted]. *)
Lemma checkListener_cases ln :
  (forall fc fa, exists fc' fa', checkListener ln fc fa = Marked (defaulted ln) fc' fa') \/
  (exists m, forall fc fa, checkListener ln fc fa = Rejected (defaulted ln) m).
Proof.
  unfold checkListener, checkBoth, defaulted.
  destruct (Purpose ln) as [|p [|q [|r rest]]] eqn:HP; cbn [length nth Purpose set_Purpose].
  - cbn. destruct (TLSDisable ln); [right|left]; eauto.
  - destruct (String.eqb p "cluster"); [left; eauto|].
    destruct (String.eqb p "api"); [left|right]; eauto.
  - rewrite <- HP.
    destruct (negb (StrListContains (Purpose ln) "api")
              || negb (StrListContains (Purpose ln) "cluster")); [right; eauto|].
    destruct (TLSDisable ln); [right|left]; eauto.
  - left. eauto.
Qed.

Lemma passes_or_rejected ln :
  passesOwnRules ln \/
  (exists m, forall fc fa, checkListener ln fc fa = Rejected (defaulted ln) m).
Proof.
  destruct (checkListener_cases ln) as [H|H]; [left|right; exact H].
  intros fc fa. destruct (H fc fa) as (fc' & fa' & Heq). eauto.
Qed.

Lemma passes_not_rejected ln m :
  passesOwnRules ln -> ~ (forall fc fa, checkListener ln fc fa = Rejected (defaulted ln) m).
Proof.
  intros Hp Hr. destruct (Hp false false) as (ln' & fc' & fa' & Heq).
  rewrite Hr in Heq. discriminate.
Qed.

(** What a passing listener does to the two flags. *)
Lemma checkListener_marks ln fc fa :
  passesOwnRules ln ->
  exists fc' fa',
    checkListener ln fc fa = Marked (defaulted ln) fc' fa' /\
    (fc' = true <-> fc = true \/ marks "cluster" ln) /\
    (fa' = true <-> fa = true \/ marks "api" ln).
Proof.
  intros Hp. destruct (Hp fc fa) as (ln0 & fc0 & fa0 & Heq0).
  unfold marks, serves.
  destruct (Purpose ln) as [|p [|q [|r rest]]] eqn:HP.
  - rewrite checkListener_none in * by exact HP.
    unfold checkBoth in *. cbn in *. destruct (TLSDisable ln); [discriminate|].
    exists true, true. unfold defaulted. rewrite HP.
    split; [reflexivity|]. split; split; auto.
  - rewrite (checkListener_one ln p) in * by exact HP.
    unfold defaulted. rewrite HP.
    destruct (String.eqb_spec p "cluster") as [Ep|Hc]; [subst p|].
    + exists true, fa. split; [reflexivity|]. split; split; auto; simpl.
      * intros _. right. split; [lia|]. right. left. reflexivity.
      * intros [H|[_ [H|[H|[]]]]]; [exact H|discriminate H|discriminate H].
    + destruct (String.eqb_spec p "api") as [Ep|Ha]; [subst p|discriminate].
      exists fc, true. split; [reflexivity|]. split; split; auto; simpl.
      * intros [H|[_ [H|[H|[]]]]]; [exact H|discriminate H|discriminate H].
      * intros _. right. split; [lia|]. right. left. reflexivity.
  - assert (Hlen : length (Purpose ln) = 2%nat) by (rewrite HP; reflexivity).
    rewrite checkListener_two in * by exact Hlen.
    destruct (StrListContains (Purpose ln) "api" && StrListContains (Purpose ln) "cluster")
      eqn:Hb.
    + apply andb_true_iff in Hb as [Ha Hc].
      unfold checkBoth in *. rewrite Ha, Hc in *. cbn in *.
      destruct (TLSDisable ln); [discriminate|].
      apply StrListContains_In in Ha, Hc. rewrite HP in Ha, Hc.
      exists true, true. unfold defaulted. rewrite HP.
      split; [reflexivity|]. split; split; auto; intros _; right; (split; [simpl; lia|]);
        right; assumption.
    + rewrite checkBoth_not_pair in Heq0; [discriminate|exact Hlen|].
      intros Hperm. apply (contains_both_pair _ Hlen) in Hperm. congruence.
  - assert (Hlen : (3 <= length (Purpose ln))%nat) by (rewrite HP; simpl; lia).
    rewrite checkListener_more by exact Hlen.
    exists fc, fa. unfold defaulted. rewrite HP.
    split; [reflexivity|]. rewrite HP in Hlen.
    split; split; auto; intros [H|[H _]]; auto; lia.
Qed.

(** The loop over listeners that all pass. *)
Lemma checkListeners_accepts lns :
  Forall passesOwnRules lns ->
  forall fc fa, exists fc' fa',
    checkListeners lns fc fa = (map defaulted lns, inr (fc', fa')) /\
    (fc' = true <-> fc = true \/ Exists (marks "cluster") lns) /\
    (fa' = true <-> fa = true \/ Exists (marks "api") lns).
Proof.
  induction 1 as [|ln rest Hln _ IH]; intros fc fa.
  - exists fc, fa. split; [reflexivity|].
    split; split; auto; intros [H|H]; auto; apply Exists_nil in H; destruct H.
  - destruct (checkListener_marks ln fc fa Hln) as (fc1 & fa1 & Heq & Hc1 & Ha1).
    destruct (IH fc1 fa1) as (fc2 & fa2 & Hrest & Hc2 & Ha2).
    exists fc2, fa2. simpl. rewrite Heq, Hrest. split; [reflexivity|].
    rewrite Hc2, Ha2, Hc1, Ha1, !Exists_cons. tauto.
Qed.

(** The loop up to the first listener it rejects. *)
Lemma checkListeners_first_rejection pre ln post m :
  Forall passesOwnRules pre ->
  (forall fc fa, checkListener ln fc fa = Rejected (defaulted ln) m) ->
  forall fc fa,
    checkListeners (pre ++ ln :: post) fc fa =
      ((map defaulted pre ++ defaulted ln :: post)%list, inl m).
Proof.
  intros Hpre Hrej. induction Hpre as [|x pre Hx _ IH]; intros fc fa.
  - simpl. rewrite Hrej. reflexivity.
  - destruct (checkListener_marks x fc fa Hx) as (fc1 & fa1 & Heq & _).
    rewrite <- app_comm_cons. cbn [checkListeners]. rewrite Heq, IH. reflexivity.
Qed.

(** A list of listeners either passes listener by listener, or has a
    first listener that is rejected. *)
Lemma listeners_split lns :
  Forall passesOwnRules lns \/
  exists pre ln post m,
    lns = (pre ++ ln :: post)%list /\ Forall passesOwnRules pre /\
    (forall fc fa, checkListener ln fc fa = Rejected (defaulted ln) m).
Proof.
  induction lns as [|x rest IH]; [left; constructor|].
  destruct (passes_or_rejected x) as [Hx|[m Hm]].
  - destruct IH as [IH|(pre & ln & post & m & -> & Hpre & Hrej)].
    + left. constructor; assumption.
    + right. exists (x :: pre), ln, post, m. split; [reflexivity|].
      split; [constructor; assumption|exact Hrej].
  - right. exists [], x, rest, m. split; [reflexivity|]. split; [constructor|exact Hm].
Qed.

(** X1.  The configurations the validation accepts: every listener
    passes the rules for a single listener, and if some listener counts
    for "api" then some listener counts for "cluster".  An accepted list
    comes back with its empty purpose lists filled in; when every
    listener passes, the only message left is the one about the missing
    cluster listener. *)
Theorem validateListeners_accepts_iff lns :
  (snd (validateListeners lns) = None <->
   Forall passesOwnRules lns /\
   (Exists (marks "api") lns -> Exists (marks "cluster") lns)) /\
  (snd (validateListeners lns) = None -> fst (validateListeners lns) = map defaulted lns) /\
  (Forall passesOwnRules lns ->
   forall m, snd (validateListeners lns) = Some m -> m = NoClusterListener).
Proof.
  assert (Hpass : Forall passesOwnRules lns ->
            fst (validateListeners lns) = map defaulted lns /\
            (snd (validateListeners lns) = None <->
               (Exists (marks "api") lns -> Exists (marks "cluster") lns)) /\
            (forall m, snd (validateListeners lns) = Some m -> m = NoClusterListener)).
  { intros Hall. unfold validateListeners.
    destruct (checkListeners_accepts lns Hall false false) as (fc & fa & -> & Hc & Ha).
    split; [destruct (fa && negb fc); reflexivity|].
    assert (Hno : forall b : bool, false = true \/ b = true -> b = true)
      by (intros b [H|H]; [discriminate H|exact H]).
    destruct fa, fc; cbn; (split; [split|]); try discriminate;
      try (intros m Hm; congruence); try reflexivity.
    - intros _ _. destruct (proj1 Hc eq_refl) as [H|H]; [discriminate H|exact H].
    - intros H. exfalso.
      assert (Hapi : Exists (marks "api") lns)
        by (destruct (proj1 Ha eq_refl) as [Hf|He]; [discriminate Hf|exact He]).
      assert (Habs : false = true) by (apply Hc; right; exact (H Hapi)).
      discriminate Habs.
    - intros _ Hapi. exfalso.
      assert (Habs : false = true) by (apply Ha; right; exact Hapi).
      discriminate Habs.
    - intros _ Hapi. exfalso.
      assert (Habs : false = true) by (apply Ha; right; exact Hapi).
      discriminate Habs. }
  assert (Hrej : snd (validateListeners lns) = None -> Forall passesOwnRules lns).
  { intros Hnone. destruct (listeners_split lns)
      as [Hall|(pre & ln & post & m & -> & Hpre & Hr)]; [exact Hall|].
    unfold validateListeners in Hnone.
    rewrite (checkListeners_first_rejection pre ln post m Hpre Hr) in Hnone.
    discriminate. }
  split; [|split].
  - split.
    + intros Hnone. pose proof (Hrej Hnone) as Hall. split; [exact Hall|].
      apply (proj1 (proj2 (Hpass Hall))), Hnone.
    + intros [Hall Htopo]. apply (proj1 (proj2 (Hpass Hall))), Htopo.
  - intros Hnone. apply (Hpass (Hrej Hnone)).
  - intros Hall. apply (Hpass Hall).
Qed.

(** X2.  The validation stops at the first listener it rejects: the
    message is that listener's, the listeners before it have had their
    empty purpose lists filled in although [Run] is about to fail, and
    the listeners after it are neither examined nor changed. *)
Theorem validateListeners_stops_at_first pre ln post m :
  Forall passesOwnRules pre ->
  checkListener ln false false = Rejected (defaulted ln) m ->
  validateListeners (pre ++ ln :: post) =
    ((map defaulted pre ++ defaulted ln :: post)%list, Some m) /\
  (forall env evs args (c : Command W) cfg,
     reachesChecks env args c cfg -> Listeners cfg = (pre ++ ln :: post)%list ->
     failsAtChecks env evs args c m).
Proof.
  intros Hpre Hrej.
  assert (Hall : forall fc fa, checkListener ln fc fa = Rejected (defaulted ln) m).
  { destruct (checkListener_cases ln) as [H|[m' H]].
    - destruct (H false false) as (? & ? & Heq). congruence.
    - intros fc fa. rewrite H. rewrite H in Hrej. exact Hrej. }
  assert (Hv : validateListeners (pre ++ ln :: post) =
               ((map defaulted pre ++ defaulted ln :: post)%list, Some m)).
  { unfold validateListeners.
    rewrite (checkListeners_first_rejection pre ln post m Hpre Hall). reflexivity. }
  split; [exact Hv|].
  intros env evs args c cfg Hreach Hls.
  apply (checks_fail env evs args c cfg m Hreach). rewrite Hls, Hv. reflexivity.
Qed.

(** X3.  A listener declaring one purpose that is neither "api" nor
    "cluster" (the comparison is exact, so "API" is such a purpose) is
    rejected as unknown, and [Run] returns 1 from the checks for any
    configuration that holds it, whatever the other listeners are. *)
Theorem unknown_purpose_rejected ln p :
  Purpose ln = [p] -> p <> "api" -> p <> "cluster" ->
  (forall fc fa, checkListener ln fc fa = Rejected ln (UnknownListenerPurpose p)) /\
  (forall env evs args (c : Command W) cfg,
     reachesChecks env args c cfg -> In ln (Listeners cfg) ->
     exists m, failsAtChecks env evs args c m).
Proof.
  intros HP Ha Hc.
  assert (Hrej : forall fc fa,
            checkListener ln fc fa = Rejected ln (UnknownListenerPurpose p)).
  { intros fc fa. rewrite (checkListener_one ln p) by exact HP.
    destruct (String.eqb_spec p "cluster"); [contradiction|].
    destruct (String.eqb_spec p "api"); [contradiction|reflexivity]. }
  split; [exact Hrej|].
  intros env evs args c cfg Hreach Hin.
  destruct (validateListeners_rejects _ ln Hin) as [m Hm].
  { intros fc fa. rewrite Hrej. eauto. }
  exists m. apply (checks_fail env evs args c cfg m Hreach Hm).
Qed.

Lemma checkListener_defaulted ln fc fa :
  checkListener (defaulted ln) fc fa = checkListener ln fc fa.
Proof.
  unfold defaulted. destruct (Purpose ln) eqn:HP; [|reflexivity].
  rewrite (checkListener_none ln) by exact HP.
  rewrite checkListener_two by reflexivity. reflexivity.
Qed.

Lemma checkListener_out ln fc fa :
  match checkListener ln fc fa with
  | Marked ln' _ _ => ln' = defaulted ln
  | Rejected ln' _ => ln' = defaulted ln
  end.
Proof.
  destruct (checkListener_cases ln) as [H|[m H]].
  - destruct (H fc fa) as (? & ? & ->). reflexivity.
  - rewrite H. reflexivity.
Qed.

Lemma checkListeners_again lns : forall fc fa,
  checkListeners (fst (checkListeners lns fc fa)) fc fa = checkListeners lns fc fa.
Proof.
  induction lns as [|ln rest IH]; intros fc fa; [reflexivity|].
  pose proof (checkListener_out ln fc fa) as Hout.
  cbn [checkListeners].
  destruct (checkListener ln fc fa) as [ln' fc' fa'|ln' m] eqn:Hln; subst ln'.
  - specialize (IH fc' fa').
    destruct (checkListeners rest fc' fa') as [rest' r] eqn:Hrest.
    cbn [fst checkListeners] in *. rewrite checkListener_defaulted, Hln, IH. reflexivity.
  - cbn [fst checkListeners]. rewrite checkListener_defaulted, Hln. reflexivity.
Qed.

(** X4.  Validating again the listeners the validation left behind
    changes nothing and ends the same way: what listener bring-up later
    reads is a configuration the validation would judge as it judged the
    loaded one. *)
Theorem validateListeners_again lns :
  validateListeners (fst (validateListeners lns)) = validateListeners lns.
Proof.
  unfold validateListeners. pose proof (checkListeners_again lns false false) as H.
  destruct (checkListeners lns false false) as [lns' [m|[fc fa]]]; cbn [fst] in *.
  - rewrite H. reflexivity.
  - destruct (fa && negb fc) eqn:Hb; cbn [fst]; rewrite H, Hb; reflexivity.
Qed.

(** ** Further properties of the startup *)

(** X5.  A startup that fails returns 1, never another code, and the
    last thing it did was to print an error on the UI; [Run] returns 1
    with the command as the failed stage left it. *)
Theorem startup_fails_with_error env evs args c code c1 :
  startup env args c = Stop (Returned code) c1 ->
  code = 1 /\
  (exists t m, trace c1 = (trace c ++ t ++ [UIError m])%list) /\
  Run env evs args c = Stop (Returned 1) c1.
Proof.
  intros H. pose proof (startup_paths env args c) as Hp. cbv zeta in Hp.
  destruct Hp as (t & Ht & _ & Hend). rewrite H in Ht, Hend. cbn [stateOf] in Ht.
  destruct Hend as [-> (m & Hlast)]. split; [reflexivity|].
  apply last_Some in Hlast as [t' ->].
  split; [eauto|]. rewrite Run_startup, H. reflexivity.
Qed.

(** X6.  The startup calls the setup stages in one order, SetupLogging,
    StartMemProfiler, SetupMetrics, SetupKMSes, SetupListeners,
    StorePidFile and, in dev mode only, CreateDevDatabase: whatever
    happens, the stages called are a prefix of that list, no stage is
    called twice or out of turn, and a startup that gets through has
    called them all. *)
Theorem startup_stage_order env args c :
  exists t,
    trace (stateOf (startup env args c)) = (trace c ++ t)%list /\
    callNames t `prefix_of` stageOrder (flagDev (fst (flags_Parse env args (flags c)))) /\
    (outcomeOf (startup env args c) = None ->
     callNames t = stageOrder (flagDev (fst (flags_Parse env args (flags c))))).
Proof.
  pose proof (startup_paths env args c) as Hp. cbv zeta in Hp.
  destruct Hp as (t & Ht & Hpre & Hend). exists t. split; [exact Ht|]. split; [exact Hpre|].
  destruct (startup env args c) as [[] c1|o c1]; [|discriminate].
  intros _. apply Hend.
Qed.

(** X7.  [Run] dereferences the configuration without checking it: the
    startup panics exactly when the flags parse, a file is named or dev
    mode is on, and the loader returns neither a configuration nor an
    error.  It then panics before any setup stage is called. *)
Theorem startup_panics_iff env args c :
  ((exists c1, startup env args c = Stop Panicked c1) <->
   snd (flags_Parse env args (flags c)) = None /\
   (flagDev (fst (flags_Parse env args (flags c))) = false ->
    flagConfig (fst (flags_Parse env args (flags c))) <> EmptyString) /\
   ld_conf (loadedBy env (fst (flags_Parse env args (flags c)))) = None /\
   ld_err (loadedBy env (fst (flags_Parse env args (flags c)))) = None) /\
  (forall c1, startup env args c = Stop Panicked c1 ->
     Config c1 = None /\ callNames (trace c1) = callNames (trace c)).
Proof.
  pose proof (startup_paths env args c) as Hp. cbv zeta in Hp.
  destruct Hp as (t & Ht & _ & Hend).
  split; [split|].
  - intros [c1 H]. rewrite H in Hend. tauto.
  - clear t Ht Hend. intros (Hparse & Hcfg & Hconf & Herr).
    unfold startup, startupBeforeChecks, loadFlagsAndConfig, ParseFlagsAndConfig,
      setupStages, theConfig, loadedBy in *.
    destruct (flags_Parse env args (flags c)) as [f err] eqn:Hfp. cbn [fst snd] in *.
    subst err. destruct (flagDev f) eqn:Hdev.
    + exec. eauto.
    + specialize (Hcfg eq_refl).
      assert (Hlen : Nat.eqb (String.length (flagConfig f)) 0 = false)
        by (destruct (flagConfig f); [contradiction|reflexivity]).
      exec; eauto.
  - intros c1 H. rewrite H in Ht, Hend. cbn [stateOf] in Ht.
    destruct Hend as (Hnames & Hnone & _). split; [exact Hnone|].
    rewrite Ht, callNames_app, Hnames, app_nil_r. reflexivity.
Qed.

(** X8.  When [ParseFlagsAndConfig] returns 0, the flags are as parsed,
    except that outside dev mode the admin password is empty afterwards;
    the one thing printed on the way is the warning that a password given
    outside dev mode is ignored, printed exactly when one was given. *)
Theorem admin_password_outside_dev env args c c1 :
  ParseFlagsAndConfig env args c = Cont 0 c1 ->
  snd (flags_Parse env args (flags c)) = None /\
  flags c1 =
    (if flagDev (fst (flags_Parse env args (flags c)))
     then fst (flags_Parse env args (flags c))
     else set_flagDevAdminPassword EmptyString (fst (flags_Parse env args (flags c)))) /\
  trace c1 =
    (trace c ++
     if negb (flagDev (fst (flags_Parse env args (flags c)))) &&
        negb (String.eqb (flagDevAdminPassword (fst (flags_Parse env args (flags c))))
                EmptyString)
     then [UIWarn AdminPasswordIgnored] else [])%list.
Proof.
  unfold ParseFlagsAndConfig, theConfig.
  destruct (flags_Parse env args (flags c)) as [f [e|]] eqn:Hfp; cbn [fst snd].
  - exec; discriminate.
  - match goal with |- _ -> ?G => set (G0 := G) end.
    exec; intros H; try discriminate H; injection H as <-; subst G0;
      cbn [flags trace set_flags set_trace set_Config];
      repeat match goal with H : ?x = _ |- context [?x] => rewrite H end;
      cbn [andb negb]; rewrite ?app_nil_r; repeat split; try reflexivity.
    all: match goal with
         | H : String.eqb ?p EmptyString = true |- _ =>
             apply String.eqb_eq in H; destruct f; cbn in *; subst; reflexivity
         end.
Qed.

(** X9.  [ParseFlagsAndConfig] returns 0 or 1: 1 right after printing
    an error, 0 without having printed any.  It does not return only when
    the dev configuration comes back nil without an error, and then it
    has printed nothing. *)
Theorem ParseFlagsAndConfig_codes env args c :
  exists t,
    trace (stateOf (ParseFlagsAndConfig env args c)) = (trace c ++ t)%list /\
    match ParseFlagsAndConfig env args c with
    | Cont code c1 =>
        (code = 1 /\ exists m, last t = Some (UIError m)) \/
        (code = 0 /\ Forall (fun e => forall m, e <> UIError m) t)
    | Stop o c1 => o = Panicked /\ t = [] /\ flagDev (flags c1) = true /\ Config c1 = None
    end.
Proof.
  unfold ParseFlagsAndConfig, theConfig.
  exec; trace_tail.
  all: try (left; split; [reflexivity|eexists; reflexivity]).
  all: try (right; split; [reflexivity|repeat constructor; discriminate]).
  all: repeat split; try assumption; try reflexivity.
Qed.

(** X10.  [Run] starts from a new base server, dropping whatever the
    command held, and copies [flagCombineLogs] into it before the
    arguments are parsed: [CombineLogs] is the flag's value from before
    this run's arguments were read, on every path through lines
    150-155. *)
Theorem Run_server_before_parse env args c :
  Server (stateOf (loadFlagsAndConfig env args c)) =
    set_CombineLogs (flagCombineLogs (flags c)) (base_NewServer env).
Proof.
  unfold loadFlagsAndConfig, ParseFlagsAndConfig, theConfig.
  exec; reflexivity.
Qed.


Lemma devListenerAddress_devAddressed f l : devAddressed f l (devListenerAddress f l).
Proof.
  unfold devAddressed, devListenerAddress.
  destruct (Purpose l) as [|p [|q rest]] eqn:HP; cbn [length Nat.eqb negb nth].
  - rewrite HP. repeat split; intros; congruence.
  - destruct (String.eqb_spec p "api") as [->|Hapi];
      [|destruct (String.eqb_spec p "cluster") as [->|Hcl]].
    + destruct (String.eqb_spec (flagDevControllerAPIListenAddr f) EmptyString);
        cbn [negb Purpose TLSDisable Address set_Address]; rewrite ?HP;
        repeat split; intros; try congruence; auto.
    + destruct (String.eqb_spec (flagDevControllerClusterListenAddr f) EmptyString);
        cbn [negb Purpose TLSDisable Address set_Address]; rewrite ?HP;
        repeat split; intros; try congruence; auto.
    + rewrite HP. repeat split; intros; congruence.
  - rewrite HP. repeat split; intros; congruence.
Qed.

(** X11.  In dev mode the configuration kept is the dev configuration
    with the two address flags applied listener by listener: a flag
    reaches the listeners declaring exactly its one purpose, and a
    listener that declares no purpose, or both, keeps its address. *)
Theorem dev_listen_addresses env args c c1 cfg :
  ParseFlagsAndConfig env args c = Cont 0 c1 ->
  flagDev (fst (flags_Parse env args (flags c))) = true ->
  ld_conf (config_DevController env) = Some cfg ->
  exists cfg1,
    Config c1 = Some cfg1 /\
    Forall2 (devAddressed (fst (flags_Parse env args (flags c))))
      (Listeners cfg) (Listeners cfg1).
Proof.
  unfold ParseFlagsAndConfig, theConfig.
  destruct (flags_Parse env args (flags c)) as [f [e|]] eqn:Hfp; cbn [fst snd].
  - exec; discriminate.
  - intros H Hdev Hconf. revert H. exec; intros H; simplify_eq.
    eexists. cbn [Config set_Config Listeners set_Listeners]. split; [reflexivity|].
    apply Forall2_fmap_r, Forall_Forall2_diag, Forall_forall.
    intros l _. apply devListenerAddress_devAddressed.
Qed.

(** *** The controller and [Start] *)

Lemma calls_snoc fn t e :
  calls fn (t ++ [e]) = (calls fn t + if isCall fn e then 1 else 0)%nat.
Proof. rewrite calls_app. unfold calls. simpl. destruct (isCall fn e); reflexivity. Qed.

Ltac exec_Start :=
  unfold Start, controller_New, controller_Start, controller_Shutdown,
    theConfig, theController;
  exec.

(** X12.  [New] returns a controller or an error, never both and never
    neither; the error is the failure to lock the memory, which is tried
    once unless the configuration disables it.  Whatever it returns, a
    server without a logger has got one more logger, at trace level, and
    the server has a random source, its own if it had one. *)
Theorem controller_New_result env c cfg :
  Config c = Some cfg ->
  exists k err c1,
    controller_New env c = Cont (k, err) c1 /\
    (err = None <-> DisableMlock cfg = true \/ mlock_LockMemory env = None) /\
    (k = None <-> err <> None) /\
    AllLoggers (Server c1) =
      (AllLoggers (Server c) ++
       match Logger (Server c) with None => [Trace] | Some _ => [] end)%list /\
    SecureRandomReader (Server c1) =
      Some (default "rand.Reader" (SecureRandomReader (Server c))) /\
    calls "mlock.LockMemory" (trace c1) =
      (calls "mlock.LockMemory" (trace c) + if DisableMlock cfg then 0 else 1)%nat.
Proof.
  intros Hcfg. unfold controller_New, theConfig.
  exec.
  all: do 3 eexists; (split; [reflexivity|]).
  all: cbn [Server set_Server AllLoggers set_AllLoggers SecureRandomReader
            set_SecureRandomReader trace set_trace default];
    rewrite ?calls_snoc, ?app_nil_r, ?Nat.add_0_r; cbn [isCall String.eqb].
  all: repeat match goal with H : ?x = _ |- context [?x] => rewrite H end.
  all: repeat split; intros; try reflexivity; try congruence; try tauto.
  all: match goal with H : _ \/ _ |- _ => destruct H; discriminate end.
Qed.

(** X13.  [Start] reports no error exactly when the memory could be
    locked (or locking is disabled) and the listeners came up; it then
    leaves a controller behind, has started the listeners once and has
    not stopped them. *)
Theorem Start_succeeds_iff env c cfg :
  Config c = Some cfg ->
  ((exists c1, Start env c = Cont None c1) <->
   (DisableMlock cfg = true \/ mlock_LockMemory env = None) /\ startListeners env = None) /\
  (forall c1, Start env c = Cont None c1 ->
     controller c1 = Some {| logger := Logger (Server c) |} /\
     calls "startListeners" (trace c1) = (calls "startListeners" (trace c) + 1)%nat /\
     teardowns (trace c1) = teardowns (trace c)).
Proof.
  intros Hcfg. exec_Start.
  all: repeat split; intros;
    repeat match goal with
           | H : exists _, _ |- _ => destruct H
           | H : _ /\ _ |- _ => destruct H
           | H : _ \/ _ |- _ => destruct H
           end; simplify_eq; eauto.
  all: unfold teardowns; cbn [trace set_trace controller set_controller];
    rewrite ?calls_snoc, ?Nat.add_0_r; cbn [isCall String.eqb]; try reflexivity.
Qed.

(** X14.  When the listeners do not come up, [Start] takes the
    controller down again: the listeners are stopped once, the controller
    stays in the command, and of the two errors there may be, the one
    returned is that of the shutdown when it fails too (the start error
    has then been printed), and the start error otherwise. *)
Theorem Start_rolls_back env c cfg e :
  Config c = Some cfg ->
  DisableMlock cfg = true \/ mlock_LockMemory env = None ->
  startListeners env = Some e ->
  exists err c1,
    Start env c = Cont (Some err) c1 /\
    controller c1 <> None /\
    calls "startListeners" (trace c1) = (calls "startListeners" (trace c) + 1)%nat /\
    teardowns (trace c1) = (teardowns (trace c) + 1)%nat /\
    match stopListeners env with
    | None =>
        err = ErrWrap "Error starting controller"
                (ErrWrap "error starting controller listeners" e) /\
        last (trace c1) = Some (Call "stopListeners")
    | Some e2 =>
        err = ErrWrap "Error with controller shutdown"
                (ErrWrap "error stopping controller listeners" e2) /\
        last (trace c1) =
          Some (UIError (ErrorText (ErrWrap "Error starting controller"
                                      (ErrWrap "error starting controller listeners" e))))
    end.
Proof.
  intros Hcfg Hlock Hstart. exec_Start.
  all: try (destruct Hlock; discriminate).
  all: do 2 eexists; (split; [reflexivity|]).
  all: unfold teardowns; cbn [trace set_trace controller set_controller];
    rewrite ?calls_snoc, ?calls_app, ?Nat.add_0_r, ?last_snoc; cbn [isCall String.eqb].
  all: simplify_eq; repeat split; try discriminate; try reflexivity; try lia.
Qed.

(** X15.  When the memory cannot be locked, [Start] returns the wrapped
    error and leaves no controller behind; the listeners are neither
    started nor stopped, but the logger [New] created stays with the
    server. *)
Theorem Start_lock_failure env c cfg e :
  Config c = Some cfg ->
  DisableMlock cfg = false ->
  mlock_LockMemory env = Some e ->
  exists c1,
    Start env c =
      Cont (Some (ErrWrap "Error initializing controller" (ErrWrap "Failed to lock memory" e)))
        c1 /\
    controller c1 = None /\
    calls "startListeners" (trace c1) = calls "startListeners" (trace c) /\
    teardowns (trace c1) = teardowns (trace c) /\
    AllLoggers (Server c1) =
      (AllLoggers (Server c) ++
       match Logger (Server c) with None => [Trace] | Some _ => [] end)%list.
Proof.
  intros Hcfg Hmlock Hlock. exec_Start.
  all: eexists; (split; [reflexivity|]).
  all: unfold teardowns;
    cbn [trace set_trace controller set_controller Server set_Server AllLoggers
         set_AllLoggers];
    rewrite ?calls_snoc, ?Nat.add_0_r, ?app_nil_r; cbn [isCall String.eqb].
  all: repeat split; try reflexivity; try lia.
Qed.

(** X16.  [SetLogLevel] puts every logger of the server at the level,
    adds and removes none, and of two calls in a row the second
    decides. *)
Theorem SetLogLevel_all_loggers l1 l2 c :
  controller c <> None ->
  exists c1,
    controller_SetLogLevel l2 c = Cont tt c1 /\
    AllLoggers (Server c1) = map (fun _ => l2) (AllLoggers (Server c)) /\
    Forall (fun l => l = l2) (AllLoggers (Server c1)) /\
    length (AllLoggers (Server c1)) = length (AllLoggers (Server c)) /\
    (controller_SetLogLevel l1;; controller_SetLogLevel l2) c = Cont tt c1.
Proof.
  intros Hk. unfold controller_SetLogLevel, theController. exec; [|contradiction].
  eexists. split; [reflexivity|]. cbn [Server set_Server AllLoggers set_AllLoggers].
  split; [reflexivity|]. split; [apply Forall_fmap, Forall_true; intros; reflexivity|].
  split; [apply length_map|].
  rewrite map_map. reflexivity.
Qed.

(** *** The reload handler, whatever the configuration says *)

Lemma runReloadFuncs_result order ackReady c :
  exists c',
    runReloadFuncs order ackReady c = Cont tt c' /\
    Server c' = Server c /\ controller c' = controller c /\
    trace c `prefix_of` trace c' /\
    invokedOf (trace c') =
      (invokedOf (trace c) ++ map fst (selected (ReloadFuncs (Server c)) order))%list.
Proof.
  pose proof (Reload_invoked order ackReady c) as Hinv.
  unfold runReloadFuncs. rewrite bind_run. rewrite Reload_run in *. cbn [stateOf] in Hinv.
  cbv zeta.
  destruct (snd (runAll _ (world c))) as [|e es]; runM.
  - eexists. split; [reflexivity|]. split; [reflexivity|]. split; [reflexivity|].
    split; [eexists; reflexivity|exact Hinv].
  - eexists. split; [reflexivity|]. split; [reflexivity|]. split; [reflexivity|].
    cbn [trace set_trace set_world] in *.
    split; [eexists; rewrite <- app_assoc; reflexivity|].
    rewrite invokedOf_app, Hinv. cbn. apply app_nil_r.
Qed.

(** X17.  A reload trigger whose re-read configuration names a log
    level the handler knows (after trimming and lowering) sets every
    logger to it, and then runs the reload callbacks. *)
Theorem reload_sets_log_level env load order ackReady c newConf level :
  controller c <> None ->
  flagConfig (flags c) <> EmptyString ->
  ld_err load = None -> ld_conf load = Some newConf ->
  LogLevel newConf <> EmptyString ->
  levelOf (strings_ToLower env (strings_TrimSpace env (LogLevel newConf))) = Some level ->
  exists c1,
    handleSighup env load order ackReady c = Cont tt c1 /\
    AllLoggers (Server c1) = map (fun _ => level) (AllLoggers (Server c)) /\
    invokedOf (trace c1) =
      (invokedOf (trace c) ++ map fst (selected (ReloadFuncs (Server c)) order))%list.
Proof.
  intros Hk Hpath Herr Hconf Hlevel Hlv.
  apply String.eqb_neq in Hpath, Hlevel.
  unfold handleSighup, reloadConfig, controller_SetLogLevel, theController.
  exec; try contradiction.
  match goal with |- context [runReloadFuncs order ackReady ?c0] =>
    destruct (runReloadFuncs_result order ackReady c0) as (c1 & -> & Hs & _ & _ & Hinv) end.
  exists c1. split; [reflexivity|]. rewrite Hs, Hinv.
  cbn [Server set_Server AllLoggers set_AllLoggers trace set_trace ReloadFuncs].
  split; [reflexivity|]. rewrite invokedOf_app. cbn. rewrite app_nil_r. reflexivity.
Qed.

(** X18.  A reload trigger whose re-read configuration names no log
    level, or one the handler does not know.  With an empty level, or
    with a logger in [c.Logger], the handler leaves the server and its
    loggers alone, logs the unknown level (and nothing for an empty one),
    and runs the reload callbacks all the same, with or without a
    controller.  With an unknown level and a nil [c.Logger], the call
    that would log it panics, after the announcement and before any
    callback. *)
Theorem reload_keeps_log_level env load order ackReady c newConf :
  flagConfig (flags c) <> EmptyString ->
  ld_err load = None -> ld_conf load = Some newConf ->
  LogLevel newConf = EmptyString \/
  levelOf (strings_ToLower env (strings_TrimSpace env (LogLevel newConf))) = None ->
  (LogLevel newConf = EmptyString \/ Logger (Server c) <> None ->
   exists logs c1,
     handleSighup env load order ackReady c = Cont tt c1 /\
     Server c1 = Server c /\
     (logs = [] /\ LogLevel newConf = EmptyString \/
      logs = [LoggerError "unknown log level found on reload"] /\
      LogLevel newConf <> EmptyString) /\
     (trace c ++ UIOutput (Text "==> Watchtower controller reload triggered") :: logs)%list
       `prefix_of` trace c1 /\
     invokedOf (trace c1) =
       (invokedOf (trace c) ++ map fst (selected (ReloadFuncs (Server c)) order))%list)
  /\
  (LogLevel newConf <> EmptyString -> Logger (Server c) = None ->
   handleSighup env load order ackReady c =
     Stop Panicked
       (set_trace (trace c ++ [UIOutput (Text "==> Watchtower controller reload triggered")]) c)).
Proof.
  intros Hpath Herr Hconf Hlevel.
  apply String.eqb_neq in Hpath.
  unfold handleSighup, reloadConfig, theLogger.
  destruct (String.eqb (LogLevel newConf) EmptyString) eqn:Hb.
  - pose proof (proj1 (String.eqb_eq _ _) Hb) as Hempty.
    split; [intros _|intros Hne; contradiction]. exec.
    match goal with |- context [runReloadFuncs order ackReady ?c0] =>
      destruct (runReloadFuncs_result order ackReady c0) as (c1 & -> & Hs & _ & Hpre & Hinv) end.
    exists [], c1. split; [reflexivity|]. rewrite Hs, Hinv.
    cbn [Server set_Server trace set_trace ReloadFuncs] in *.
    split; [reflexivity|]. split; [left; split; [reflexivity|exact Hempty]|].
    split; [exact Hpre|]. rewrite invokedOf_app. cbn. rewrite app_nil_r. reflexivity.
  - pose proof (proj1 (String.eqb_neq _ _) Hb) as Hne.
    destruct Hlevel as [Hempty|Hlv]; [contradiction|].
    destruct (Logger (Server c)) as [l|] eqn:El.
    + split; [intros _|intros _ Hnone; discriminate Hnone]. exec.
      match goal with |- context [runReloadFuncs order ackReady ?c0] =>
        destruct (runReloadFuncs_result order ackReady c0) as (c1 & -> & Hs & _ & Hpre & Hinv) end.
      exists [LoggerError "unknown log level found on reload"], c1.
      split; [reflexivity|]. rewrite Hs, Hinv.
      cbn [Server set_Server trace set_trace ReloadFuncs] in *.
      split; [reflexivity|].
      split; [right; split; [reflexivity|exact Hne]|].
      split; [rewrite <- app_assoc in Hpre; exact Hpre|].
      rewrite !invokedOf_app. cbn. rewrite !app_nil_r. reflexivity.
    + split; [intros [Hempty|Hl]; contradiction|intros _ _]. exec. reflexivity.
Qed.

(** *** The loop as a whole *)

Lemma handleSighup_result env load order ackReady c :
  match handleSighup env load order ackReady c with
  | Cont _ c' =>
      controller c' = controller c /\
      ReloadFuncs (Server c') = ReloadFuncs (Server c) /\
      invokedOf (trace c') =
        (invokedOf (trace c) ++ map fst (selected (ReloadFuncs (Server c)) order))%list
  | Stop o c' => o = Panicked /\ (controller c = None \/ Logger (Server c) = None)
  end.
Proof.
  unfold handleSighup, reloadConfig, controller_SetLogLevel, theController, theLogger.
  exec.
  all: try (split; [reflexivity|first [left; reflexivity|right; reflexivity]]).
  all: match goal with H : runReloadFuncs ?o ?a ?c0 = _ |- _ =>
         destruct (runReloadFuncs_result o a c0) as (c9 & Hrun & Hs & Hk & _ & Hinv);
         rewrite Hrun in H; simplify_eq end.
  all: rewrite Hs, Hk, Hinv;
    cbn [Server set_Server trace set_trace ReloadFuncs controller set_AllLoggers];
    rewrite ?invokedOf_app; cbn; rewrite ?app_nil_r; auto.
Qed.

Lemma handleShutdown_invoked env c :
  invokedOf (trace (stateOf (handleShutdown env c))) = invokedOf (trace c).
Proof.
  unfold handleShutdown, controller_Shutdown, theController.
  exec; cbn [trace set_trace]; rewrite ?invokedOf_app; cbn; rewrite ?app_nil_r; reflexivity.
Qed.

(** X19.  With a controller and a logger in place, every reload trigger
    received before the first shutdown trigger runs the selected
    callbacks once more, in the order of the triggers; the dump signal,
    the shutdown trigger and whatever comes after it call no reload
    callback. *)
Theorem loop_reloads_per_trigger env evs : forall c,
  controller c <> None -> Logger (Server c) <> None ->
  invokedOf (trace (stateOf (WaitForInterrupt env evs c))) =
    (invokedOf (trace c) ++ reloadsOf (ReloadFuncs (Server c)) (received evs))%list.
Proof.
  unfold reloadsOf.
  induction evs as [|[closed|load order ackReady|] rest IH]; intros c Hk Hl;
    simpl WaitForInterrupt; cbn [received flat_map].
  - cbn. rewrite app_nil_r. reflexivity.
  - rewrite bind_run. pose proof (handleShutdown_invoked env c) as H.
    destruct (handleShutdown env c) as [[] c'|o c']; cbn [stateOf] in *;
      rewrite app_nil_r; exact H.
  - rewrite bind_run. pose proof (handleSighup_result env load order ackReady c) as H.
    pose proof (handleSighup_Logger env load order ackReady c) as HL. cbv beta in HL.
    destruct (handleSighup env load order ackReady c) as [[] c'|o c']; cbn [stateOf] in HL.
    + destruct H as (Hk' & Hr & Hinv). rewrite IH by congruence.
      rewrite Hinv, Hr, <- app_assoc. reflexivity.
    + destruct H as [_ [H|H]]; contradiction.
  - rewrite bind_run, handleSigUSR2_run.
    destruct (Logger (Server c)) as [l|] eqn:El; [clear Hl|contradiction].
    rewrite IH by (destruct c; simpl in *; congruence).
    cbn [trace set_trace Server set_trace]. rewrite !invokedOf_app. cbn.
    rewrite !app_nil_r. destruct c; reflexivity.
Qed.

Lemma handleShutdown_result env c :
  match handleShutdown env c with
  | Cont _ _ => controller c <> None
  | Stop o _ => o = Panicked /\ controller c = None
  end.
Proof.
  unfold handleShutdown, controller_Shutdown, theController.
  exec; try discriminate; split; reflexivity.
Qed.

(** How a call of the loop can end. *)
Lemma WaitForInterrupt_ends env evs : forall c,
  match WaitForInterrupt env evs c with
  | Cont code _ => code = 0 /\ exists closed, In (ShutdownCh_recv closed) evs
  | Stop (Returned _) _ => False
  | Stop Panicked _ => controller c = None \/ Logger (Server c) = None
  | Stop Blocked _ => forall closed, ~ In (ShutdownCh_recv closed) evs
  end.
Proof.
  induction evs as [|[closed|load order ackReady|] rest IH]; intros c;
    simpl WaitForInterrupt.
  - intros closed [].
  - rewrite bind_run. pose proof (handleShutdown_result env c) as H.
    destruct (handleShutdown env c) as [[] c'|o c'].
    + split; [reflexivity|]. exists closed. left. reflexivity.
    + destruct H as [-> H]. left. exact H.
  - rewrite bind_run. pose proof (handleSighup_result env load order ackReady c) as H.
    pose proof (handleSighup_Logger env load order ackReady c) as HL. cbv beta in HL.
    destruct (handleSighup env load order ackReady c) as [[] c'|o c']; cbn [stateOf] in HL.
    + destruct H as (Hk & _). specialize (IH c'). rewrite Hk, HL in IH.
      destruct (WaitForInterrupt env rest c') as [code c2|[code| |] c2]; try exact IH.
      * destruct IH as [-> [b Hb]]. split; [reflexivity|]. exists b. right. exact Hb.
      * intros b [Hb|Hb]; [discriminate Hb|exact (IH b Hb)].
    + destruct H as [-> H]. exact H.
  - rewrite bind_run, handleSigUSR2_run.
    destruct (Logger (Server c)) as [l|] eqn:El; [|right; reflexivity].
    match goal with |- context [WaitForInterrupt env rest ?c0] =>
      specialize (IH c0);
      destruct (WaitForInterrupt env rest c0) as [code c2|[code| |] c2] end; try exact IH.
    + destruct IH as [-> [b Hb]]. split; [reflexivity|]. exists b. right. exact Hb.
    + left. destruct IH as [IH|IH]; [destruct c; exact IH|].
      exfalso. destruct c; simpl in *; congruence.
    + intros b [Hb|Hb]; [discriminate Hb|exact (IH b Hb)].
Qed.

(** The reload handler goes through unless it has something to log and a
    nil logger to log it with. *)
Lemma handleSighup_goes_on env load order ackReady c :
  controller c <> None ->
  match handleSighup env load order ackReady c with
  | Cont _ _ => Logger (Server c) = None -> reloadsQuietly env (flags c) load = true
  | Stop o _ =>
      o = Panicked /\ Logger (Server c) = None /\ reloadsQuietly env (flags c) load = false
  end.
Proof.
  intros Hk.
  unfold handleSighup, reloadConfig, controller_SetLogLevel, theController, theLogger,
    reloadsQuietly.
  destruct (controller c) as [k|] eqn:Ek; [clear Hk|contradiction].
  exec.
  all: try match goal with H : runReloadFuncs ?o ?a ?c0 = Stop _ _ |- _ =>
         destruct (runReloadFuncs_result o a c0) as (c9 & Hrun & _);
         rewrite Hrun in H; discriminate H end.
  all: try (intros Hnone; discriminate Hnone).
  all: try (split; [reflexivity|split; [reflexivity|]]).
  all: try intros _.
  all: reflexivity.
Qed.

(** How a call of the loop ends when there is a controller: the logger is
    missed exactly by the events that are logged. *)
Lemma WaitForInterrupt_outcome env evs : forall c,
  controller c <> None ->
  match WaitForInterrupt env evs c with
  | Cont code _ =>
      code = 0 /\ (exists closed, In (ShutdownCh_recv closed) evs) /\
      (Logger (Server c) = None -> existsb (logged env (flags c)) (received evs) = false)
  | Stop (Returned _) _ => False
  | Stop Panicked _ =>
      Logger (Server c) = None /\ existsb (logged env (flags c)) (received evs) = true
  | Stop Blocked _ =>
      (forall closed, ~ In (ShutdownCh_recv closed) evs) /\
      (Logger (Server c) = None -> existsb (logged env (flags c)) (received evs) = false)
  end.
Proof.
  induction evs as [|[closed|load order ackReady|] rest IH]; intros c Hk;
    simpl WaitForInterrupt; cbn [received existsb logged].
  - split; [intros closed []|reflexivity].
  - rewrite bind_run. pose proof (handleShutdown_result env c) as H.
    destruct (handleShutdown env c) as [[] c'|o c'].
    + split; [reflexivity|]. split; [exists closed; left; reflexivity|reflexivity].
    + destruct H as [_ H]. contradiction.
  - rewrite bind_run.
    pose proof (handleSighup_goes_on env load order ackReady c Hk) as Hq.
    pose proof (handleSighup_handlerFrame env load order ackReady c) as Hf.
    pose proof (handleSighup_Logger env load order ackReady c) as HL. cbv beta in HL.
    destruct (handleSighup env load order ackReady c) as [[] c'|o c']; cbn [stateOf] in *.
    + unfold handlerFrame, loopFrame in Hf. injection Hf as Hfl _ Hk' _ _ _ _ _ _ _.
      specialize (IH c'). rewrite Hk', HL, Hfl in IH. specialize (IH Hk).
      assert (Hor : Logger (Server c) = None ->
                    negb (reloadsQuietly env (flags c) load)
                    || existsb (logged env (flags c)) (received rest) =
                    existsb (logged env (flags c)) (received rest))
        by (intros Hn; rewrite (Hq Hn); reflexivity).
      destruct (WaitForInterrupt env rest c') as [code c2|[code| |] c2]; try exact IH.
      * destruct IH as (-> & [b Hb] & Hex). split; [reflexivity|].
        split; [exists b; right; exact Hb|]. intros Hn. rewrite (Hor Hn). exact (Hex Hn).
      * destruct IH as [Hn Hex]. split; [exact Hn|]. rewrite (Hor Hn). exact Hex.
      * destruct IH as [Hno Hex]. split.
        -- intros b [Hb|Hb]; [discriminate Hb|exact (Hno b Hb)].
        -- intros Hn. rewrite (Hor Hn). exact (Hex Hn).
    + destruct Hq as (-> & Hn & Hq). split; [exact Hn|]. rewrite Hq. reflexivity.
  - rewrite bind_run, handleSigUSR2_run.
    destruct (Logger (Server c)) as [l|] eqn:El; [|split; reflexivity].
    match goal with |- context [WaitForInterrupt env rest ?c0] =>
      specialize (IH c0);
      assert (Hc0 : controller c0 = controller c /\ Logger (Server c0) = Some l /\
                    flags c0 = flags c)
        by (destruct c; simpl in *; auto);
      destruct Hc0 as (Hk' & HL & Hfl); rewrite Hk', HL, Hfl in IH; specialize (IH Hk);
      destruct (WaitForInterrupt env rest c0) as [code c2|[code| |] c2] end;
      try exact IH.
    + destruct IH as (-> & [b Hb] & _). split; [reflexivity|].
      split; [exists b; right; exact Hb|discriminate].
    + destruct IH as [Hn _]. discriminate Hn.
    + destruct IH as [Hno _]. split; [|discriminate].
      intros b [Hb|Hb]; [discriminate Hb|exact (Hno b Hb)].
Qed.

(** X20.  A call of the loop returns only through a shutdown trigger,
    and then 0: it never returns without one in the schedule, whatever
    else it receives.  It goes on waiting only when the schedule holds no
    shutdown trigger, and it panics only when there is no controller or
    no logger: with a controller in place, exactly when [c.Logger] is nil
    and one of the events received is one the handlers log. *)
Theorem loop_left_only_by_shutdown env evs c :
  (forall code c', WaitForInterrupt env evs c = Cont code c' ->
     code = 0 /\ exists closed, In (ShutdownCh_recv closed) evs) /\
  (forall code c', WaitForInterrupt env evs c <> Stop (Returned code) c') /\
  (forall c', WaitForInterrupt env evs c = Stop Blocked c' ->
     forall closed, ~ In (ShutdownCh_recv closed) evs) /\
  (forall c', WaitForInterrupt env evs c = Stop Panicked c' ->
     controller c = None \/ Logger (Server c) = None) /\
  (controller c <> None ->
   ((exists c', WaitForInterrupt env evs c = Stop Panicked c') <->
    Logger (Server c) = None /\ existsb (logged env (flags c)) (received evs) = true)).
Proof.
  pose proof (WaitForInterrupt_ends env evs c) as H.
  split; [|split; [|split; [|split]]].
  - intros code c' Hr. rewrite Hr in H. exact H.
  - intros code c' Hr. rewrite Hr in H. exact H.
  - intros c' Hr. rewrite Hr in H. exact H.
  - intros c' Hr. rewrite Hr in H. exact H.
  - intros Hk. pose proof (WaitForInterrupt_outcome env evs c Hk) as Ho.
    destruct (WaitForInterrupt env evs c) as [code c2|[code| |] c2].
    + destruct Ho as (_ & _ & Hq). split; [intros [c' Hr]; discriminate Hr|].
      intros [Hn Hex]. rewrite (Hq Hn) in Hex. discriminate Hex.
    + destruct Ho.
    + split; [intros _; exact Ho|eauto].
    + destruct Ho as (_ & Hq). split; [intros [c' Hr]; discriminate Hr|].
      intros [Hn Hex]. rewrite (Hq Hn) in Hex. discriminate Hex.
Qed.

(** *** The listeners over a whole run *)

Lemma startup_listeners env args :
  preserves (fun c : Command W => (calls "startListeners" (trace c), teardowns (trace c)))
    (startup env args).
Proof.
  unfold startup, startupBeforeChecks, loadFlagsAndConfig, ParseFlagsAndConfig, setupStages,
    checkListenerPurposes, startupAfterChecks.
  frame.
Qed.

Lemma Reload_calls fn order ackReady :
  preserves (fun c : Command W => calls fn (trace c)) (Reload order ackReady).
Proof.
  intros c. rewrite Reload_run. cbn [stateOf]. cbv zeta. cbn [trace set_trace set_world].
  rewrite !calls_app.
  assert (H : forall sel : list (string * nat * ReloadFunc W),
            calls fn (map (fun x => Invoked (fst (fst x)) (snd (fst x))) sel) = 0%nat)
    by (induction sel; auto).
  rewrite H. cbn. lia.
Qed.

Lemma WaitForInterrupt_started env evs :
  preserves (fun c : Command W => calls "startListeners" (trace c)) (WaitForInterrupt env evs).
Proof.
  induction evs as [|[closed|load order ackReady|] rest IH]; simpl WaitForInterrupt.
  - intros c. reflexivity.
  - frame.
  - apply preserves_bind; [|intros _; exact IH].
    unfold handleSighup, runReloadFuncs. frame. apply Reload_calls.
  - apply preserves_bind; [|intros _; exact IH]. frame.
Qed.

Lemma runShutdownFuncsFrom_calls fn (fs : list (ShutdownFunc W)) : forall i c,
  calls fn (trace (runShutdownFuncsFrom i fs c)) = calls fn (trace c).
Proof.
  induction fs as [|f rest IH]; intros i c; simpl; [reflexivity|].
  destruct (f (world c)) as [w [e|]]; rewrite IH; cbn [trace set_trace set_world];
    rewrite !calls_app; cbn; lia.
Qed.

Lemma RunShutdownFuncs_listeners c :
  calls "startListeners" (trace (RunShutdownFuncs c)) = calls "startListeners" (trace c) /\
  teardowns (trace (RunShutdownFuncs c)) = teardowns (trace c).
Proof.
  unfold RunShutdownFuncs, teardowns. rewrite !runShutdownFuncsFrom_calls.
  cbn [trace set_trace]. rewrite !calls_app. cbn. lia.
Qed.

(** [Start] never leaves the function, and it stops the listeners when,
    and only when, it started them and reports an error. *)
Lemma Start_listeners env c :
  Config c <> None ->
  exists err c1 (s : nat),
    Start env c = Cont err c1 /\ (s <= 1)%nat /\
    calls "startListeners" (trace c1) = (calls "startListeners" (trace c) + s)%nat /\
    match err with
    | None => s = 1%nat /\ teardowns (trace c1) = teardowns (trace c) /\ controller c1 <> None
    | Some _ => teardowns (trace c1) = (teardowns (trace c) + s)%nat
    end.
Proof.
  intros Hcfg. destruct (Config c) as [cfg|] eqn:Hc; [clear Hcfg|contradiction].
  exec_Start.
  all: do 2 eexists.
  all: let finish :=
         (split; [reflexivity|]);
         unfold teardowns; cbn [trace set_trace controller set_controller];
         rewrite ?calls_snoc, ?Nat.add_0_r; cbn [isCall String.eqb];
         solve [repeat split; try discriminate; lia] in
       first [ exists 1%nat; finish | exists 0%nat; finish ].
Qed.

(** How lines 248-256 end, with the listeners started ([s]) and stopped
    ([t]) on the way. *)
Lemma serve_listeners env evs c :
  Config c <> None ->
  exists s t : nat,
    calls "startListeners" (trace (stateOf (serve env evs c))) =
      (calls "startListeners" (trace c) + s)%nat /\
    teardowns (trace (stateOf (serve env evs c))) = (teardowns (trace c) + t)%nat /\
    match serve env evs c with
    | Stop (Returned code) _ =>
        s = t /\ (s <= 1)%nat /\
        (code = 1 \/
         code = 0 /\ s = 1%nat /\ exists closed, In (ShutdownCh_recv closed) evs)
    | Stop Blocked _ =>
        s = 1%nat /\ t = 0%nat /\ forall closed, ~ In (ShutdownCh_recv closed) evs
    | Stop Panicked _ => s = 1%nat /\ t = 0%nat /\ Logger (Server c) = None
    | Cont _ _ => False
    end.
Proof.
  intros Hcfg. unfold serve, orFail. runM.
  match goal with |- context [Start env ?c0] =>
    pose proof (Start_Logger env c0) as HL;
    destruct (Start_listeners env c0) as (err & c1 & s & HS & Hs & Hstart & Herr);
      [destruct c; exact Hcfg|]; rewrite HS in HL |- * end.
  cbn [stateOf] in HL.
  assert (HL' : Logger (Server c1) = Logger (Server c)) by (rewrite HL; destruct c; reflexivity).
  clear HL.
  unfold teardowns in *. cbn [trace set_trace] in Hstart, Herr.
  rewrite !calls_snoc in Hstart, Herr. simpl (isCall _ _) in Hstart, Herr. cbv iota in Hstart, Herr.
  destruct err as [e|].
  - exists s, s. cbn [stateOf trace set_trace]. rewrite !calls_snoc. simpl (isCall _ _).
    repeat split; lia.
  - destruct Herr as (-> & Hstop & Hk).
    pose proof (WaitForInterrupt_teardowns env evs c1) as Ht.
    pose proof (WaitForInterrupt_started env evs c1) as Hst. cbv beta in Hst.
    pose proof (WaitForInterrupt_ends env evs c1) as Hend.
    unfold teardowns in Ht.
    destruct (WaitForInterrupt env evs c1) as [code c2|[code| |] c2]; cbn [stateOf] in *;
      try contradiction.
    + destruct Ht as [_ Ht]. destruct Hend as [-> Hin].
      exists 1%nat, 1%nat. repeat split; try lia. right. auto.
    + exists 1%nat, 0%nat. destruct Hend as [Hend|Hend]; [contradiction|].
      repeat split; try lia. congruence.
    + exists 1%nat, 0%nat. repeat split; try lia. exact Hend.
Qed.

(** X21.  Over a whole run the listeners are started at most once and
    stopped at most once, and never stopped unless started.  When [Run]
    returns, what it started it has stopped; it returns 0 or 1, and 0
    only after starting the listeners and receiving a shutdown trigger.
    While it waits the listeners are up.  A run that panics has stopped
    nothing: it panicked in the startup, before the listeners were
    started, or in the loop, with the listeners up, after a startup that
    left no logger in [c.Logger]. *)
Theorem Run_listeners_once env evs args c :
  exists s t : nat,
    calls "startListeners" (trace (stateOf (Run env evs args c))) =
      (calls "startListeners" (trace c) + s)%nat /\
    teardowns (trace (stateOf (Run env evs args c))) = (teardowns (trace c) + t)%nat /\
    (t <= s <= 1)%nat /\
    match outcomeOf (Run env evs args c) with
    | Some (Returned code) =>
        s = t /\
        (code = 1 \/
         code = 0 /\ s = 1%nat /\ exists closed, In (ShutdownCh_recv closed) evs)
    | Some Blocked =>
        s = 1%nat /\ t = 0%nat /\ forall closed, ~ In (ShutdownCh_recv closed) evs
    | Some Panicked =>
        t = 0%nat /\
        (s = 0%nat /\ outcomeOf (startup env args c) = Some Panicked \/
         s = 1%nat /\ exists c1, startup env args c = Cont tt c1 /\ Logger (Server c1) = None)
    | None => False
    end.
Proof.
  rewrite Run_startup.
  pose proof (startup_listeners env args c) as Hf. cbv beta in Hf.
  pose proof (startup_paths env args c) as Hp. cbv zeta in Hp.
  destruct Hp as (tr & _ & _ & Hend).
  destruct (startup env args c) as [[] c1|o c1]; cbn [stateOf] in Hf;
    injection Hf as Hs Ht.
  - destruct Hend as [_ Hcfg].
    destruct (serve_listeners env evs c1 Hcfg) as (s & t & Hs' & Ht' & Hserve).
    destruct (RunShutdownFuncs_listeners (stateOf (serve env evs c1))) as [Hrs Hrt].
    exists s, t. unfold deferring.
    destruct (serve env evs c1) as [code c2|[code| |] c2]; cbn [stateOf outcomeOf] in *;
      try contradiction.
    + rewrite Hrs, Hrt, Hs', Ht', Hs, Ht. repeat split; try lia; tauto.
    + rewrite Hrs, Hrt, Hs', Ht', Hs, Ht. destruct Hserve as (-> & -> & Hl).
      repeat split; try lia. right. split; [reflexivity|]. exists c1. auto.
    + rewrite Hs', Ht', Hs, Ht. repeat split; try lia; tauto.
  - exists 0%nat, 0%nat. cbn [stateOf outcomeOf]. rewrite Hs, Ht.
    repeat split; try lia.
    destruct o as [code| |]; [|auto|contradiction].
    destruct Hend as [-> _]. split; [reflexivity|left; reflexivity].
Qed.

(** *** The order of things *)

Lemma runReloadFuncs_trace order ackReady c :
  exists c',
    runReloadFuncs order ackReady c = Cont tt c' /\
    trace c' =
      (trace c
       ++ map (fun x => Invoked (fst (fst x)) (snd (fst x)))
            (selected (ReloadFuncs (Server c)) order)
       ++ ReloadedCh_send ackReady
          :: match snd (runAll (map snd (selected (ReloadFuncs (Server c)) order)) (world c)) with
             | [] => []
             | es => [UIError (ReloadErrors es)]
             end)%list.
Proof.
  unfold runReloadFuncs. rewrite bind_run, Reload_run. cbv zeta.
  destruct (snd (runAll _ (world c))) as [|e es]; runM; eexists; (split; [reflexivity|]);
    cbn [trace set_trace set_world]; rewrite <- ?app_assoc; reflexivity.
Qed.

Lemma callNames_invoked (sel : list (string * nat * ReloadFunc W)) :
  callNames (map (fun x => Invoked (fst (fst x)) (snd (fst x))) sel) = [].
Proof. induction sel; auto. Qed.

(** X27.  What a reload trigger does, in order: the announcement, at
    most one line in the log, the selected callbacks, the
    acknowledgement on [ReloadedCh], sent once and after the last
    callback whether or not any failed, and then, if any failed, the
    one error message with all the failures. *)
Theorem reload_trigger_order env load order ackReady c c' :
  handleSighup env load order ackReady c = Cont tt c' ->
  exists logs,
    (logs = [] \/ exists msg, logs = [LoggerError msg]) /\
    trace c' =
      (trace c
       ++ UIOutput (Text "==> Watchtower controller reload triggered") :: logs
       ++ map (fun x => Invoked (fst (fst x)) (snd (fst x)))
            (selected (ReloadFuncs (Server c)) order)
       ++ ReloadedCh_send ackReady
          :: match snd (runAll (map snd (selected (ReloadFuncs (Server c)) order)) (world c)) with
             | [] => []
             | es => [UIError (ReloadErrors es)]
             end)%list.
Proof.
  unfold handleSighup, reloadConfig, controller_SetLogLevel, theController, theLogger.
  match goal with |- _ -> ?G => set (G0 := G) end.
  exec; intros H; try discriminate H.
  all: match type of H with runReloadFuncs ?o ?a ?c0 = _ =>
         destruct (runReloadFuncs_trace o a c0) as (c9 & Hrun & Ht);
         rewrite Hrun in H; injection H as <- end.
  all: subst G0; rewrite Ht;
    cbn [trace set_trace Server set_Server ReloadFuncs set_AllLoggers world];
    rewrite <- ?app_assoc; cbn [app].
  all: first [ exists []; split; [left; reflexivity|reflexivity]
             | eexists; split; [right; eexists; reflexivity|reflexivity] ].
Qed.

Lemma handleSighup_callNames env load order ackReady c :
  callNames (trace (stateOf (handleSighup env load order ackReady c))) = callNames (trace c).
Proof.
  unfold handleSighup, reloadConfig, controller_SetLogLevel, theController, theLogger.
  exec.
  all: try match goal with |- context [runReloadFuncs ?o ?a ?c0] =>
         destruct (runReloadFuncs_trace o a c0) as (c9 & -> & Ht);
         cbn [stateOf]; rewrite Ht end.
  all: cbn [trace set_trace Server set_Server ReloadFuncs set_AllLoggers world];
    rewrite ?callNames_app, ?callNames_invoked; cbn [callNames omap app];
    try match goal with |- context [match ?x with _ => _ end] => destruct x end;
    cbn; rewrite ?app_nil_r; reflexivity.
Qed.

(** The collaborators a call of the loop calls before it returns: the
    stack dump once per dump signal received, then the listeners' stop. *)
Lemma WaitForInterrupt_callNames env evs : forall c code c',
  WaitForInterrupt env evs c = Cont code c' ->
  callNames (trace c') =
    (callNames (trace c) ++ repeat "runtime.Stack" (dumpSignals (received evs))
     ++ ["stopListeners"])%list.
Proof.
  unfold dumpSignals.
  induction evs as [|[closed|load order ackReady|] rest IH]; intros c code c';
    simpl WaitForInterrupt; cbn [received List.filter length repeat].
  - discriminate.
  - unfold handleShutdown, controller_Shutdown, theController.
    exec; intros H; simplify_eq;
      cbn [trace set_trace]; rewrite ?callNames_app; cbn; rewrite ?app_nil_r; reflexivity.
  - rewrite bind_run. pose proof (handleSighup_callNames env load order ackReady c) as Hn.
    destruct (handleSighup env load order ackReady c) as [[] c1|o c1]; [|discriminate].
    intros H. rewrite (IH _ _ _ H). cbn [stateOf] in Hn. rewrite Hn. reflexivity.
  - rewrite bind_run, handleSigUSR2_run.
    destruct (Logger (Server c)) as [l|]; [|discriminate].
    intros H. rewrite (IH _ _ _ H). cbn [trace set_trace]. rewrite !callNames_app. cbn.
    rewrite <- app_assoc. reflexivity.
Qed.

Lemma runShutdownFuncsFrom_callNames (fs : list (ShutdownFunc W)) : forall i c,
  callNames (trace (runShutdownFuncsFrom i fs c)) = callNames (trace c).
Proof.
  induction fs as [|f rest IH]; intros i c; simpl; [reflexivity|].
  destruct (f (world c)) as [w [e|]]; rewrite IH; cbn [trace set_trace set_world];
    rewrite !callNames_app; cbn; rewrite ?app_nil_r; reflexivity.
Qed.

Lemma RunShutdownFuncs_callNames c :
  callNames (trace (RunShutdownFuncs c)) = (callNames (trace c) ++ ["RunShutdownFuncs"])%list.
Proof.
  unfold RunShutdownFuncs. rewrite runShutdownFuncsFrom_callNames.
  cbn [trace set_trace]. rewrite callNames_app. reflexivity.
Qed.

Lemma Start_callNames env c cfg :
  Config c = Some cfg ->
  exists err c1,
    Start env c = Cont err c1 /\
    (err = None ->
     callNames (trace c1) =
       (callNames (trace c)
        ++ (if DisableMlock cfg then [] else ["mlock.LockMemory"])
        ++ ["startListeners"])%list).
Proof.
  intros Hcfg. exec_Start.
  all: do 2 eexists; (split; [reflexivity|]); intros Herr; try discriminate Herr.
  all: cbn [trace set_trace set_controller set_Server]; rewrite ?callNames_app; cbn;
    rewrite ?app_nil_r, <- ?app_assoc; reflexivity.
Qed.

(** X28.  The collaborators a run that returns 0 has called, in order:
    the setup stages, [PrintInfo], [ReleaseLogGate], the memory lock
    unless the configuration disables it, the start of the listeners, one
    stack dump for each dump signal received up to the first shutdown
    trigger, the stop of the listeners and, last, the shutdown actions. *)
Theorem Run_success_call_order env evs args c c' :
  Run env evs args c = Stop (Returned 0) c' ->
  exists c1 cfg,
    startup env args c = Cont tt c1 /\ Config c1 = Some cfg /\
    callNames (trace c') =
      (callNames (trace c)
       ++ stageOrder (flagDev (fst (flags_Parse env args (flags c))))
       ++ ["PrintInfo"; "ReleaseLogGate"]
       ++ (if DisableMlock cfg then [] else ["mlock.LockMemory"])
       ++ ["startListeners"]
       ++ repeat "runtime.Stack" (dumpSignals (received evs))
       ++ ["stopListeners"; "RunShutdownFuncs"])%list.
Proof.
  rewrite Run_startup.
  pose proof (startup_paths env args c) as Hp. cbv zeta in Hp.
  destruct Hp as (t & Ht & _ & Hend).
  destruct (startup env args c) as [[] c1|o c1]; cbn [stateOf] in Ht.
  2:{ intros H. injection H as -> _. destruct Hend as [Hcode _]. exfalso. lia. }
  destruct Hend as [Hnames Hcfg].
  destruct (Config c1) as [cfg|] eqn:Hc; [clear Hcfg|contradiction].
  unfold deferring.
  destruct (serve env evs c1) as [code c2|[code| |] c2] eqn:Hserve; try discriminate.
  intros H. injection H as -> <-.
  revert Hserve. unfold serve, orFail. runM.
  match goal with |- context [Start env ?c0] =>
    destruct (Start_callNames env c0 cfg) as (err & c3 & -> & Hstart);
      [destruct c1; exact Hc|] end.
  destruct err as [e|]; [discriminate|]. specialize (Hstart eq_refl).
  pose proof (WaitForInterrupt_ends env evs c3) as Hends.
  destruct (WaitForInterrupt env evs c3) as [code c4|o c4] eqn:Hloop.
  2:{ intros H. injection H as -> _. destruct Hends. }
  intros H. injection H as -> <-.
  pose proof (WaitForInterrupt_callNames env evs c3 _ _ Hloop) as Hd.
  exists c1, cfg. split; [reflexivity|]. split; [exact Hc|].
  rewrite RunShutdownFuncs_callNames, Hd, Hstart.
  cbn [trace set_trace]. rewrite !callNames_app, Ht, callNames_app, Hnames. cbn [callNames omap].
  rewrite <- !app_assoc. reflexivity.
Qed.




End Properties.

(** ** The gateway *)

Section GatewayProperties.

Context {Host Message Values Reader Buffer : Type}.
Implicit Types (rt : Runtime Host Values Reader Buffer) (marshaler : Marshaler Host Buffer)
  (client : HostServiceClient Host Message) (server : HostServiceServer Host Message)
  (req : Request Values Reader) (pathParams : gmap string string).

(** Unfolds a translator down to the answers of the libraries. *)
Ltac translate :=
  cbv beta iota delta
    [request_HostService_GetHost_0 local_request_HostService_GetHost_0
     request_HostService_ListHosts_0 local_request_HostService_ListHosts_0
     request_HostService_CreateHost_0 local_request_HostService_CreateHost_0
     request_HostService_UpdateHost_0 local_request_HostService_UpdateHost_0
     request_HostService_DeleteHost_0 local_request_HostService_DeleteHost_0
     finish decodeItem deriveUpdateMask decodedUpdate set_update_path orInvalid
     mbind mret Try_bind Try_ret update_UpdateMask];
  cbn [firstFailure].

(** Splits on the answer of the library under the innermost [match]. *)
Ltac answers :=
  repeat match goal with
         | H : ?x = _ |- context [match ?x with _ => _ end] => rewrite H
         | |- context [match ?x with _ => _ end] =>
             lazymatch x with
             | context [match _ with _ => _ end] => fail
             | _ => destruct x eqn:?
             end
         end.

Lemma firstFailure_missing rt pathParams pre k post :
  Forall (fun k' => exists val x,
            pathParams !! k' = Some val /\ runtime_String rt val = (x, None)) pre ->
  pathParams !! k = None ->
  firstFailure rt pathParams (pre ++ k :: post) = Some (MissingParameter k).
Proof.
  intros Hpre Hk. induction Hpre as [|k' pre (val & x & Hv & Hs) _ IH]; simpl.
  - unfold pathParam. rewrite Hk. reflexivity.
  - unfold pathParam at 1. rewrite Hv, Hs. exact IH.
Qed.

(** X22.  The translators without a body look the path parameters up in
    the order of the URL template, "org", "project", "catalog_id" and,
    where the operation has one, "id", and return at the first that is
    missing or does not convert: a missing parameter is reported when
    those before it are in order, whatever comes after it, and nothing is
    asked of the request or of the backend. *)
Theorem path_parameters_in_order rt marshaler client server req pathParams :
  (forall st,
     firstFailure rt pathParams ["org"; "project"; "catalog_id"; "id"] = Some st ->
     request_HostService_GetHost_0 rt marshaler client req pathParams = failed st /\
     local_request_HostService_GetHost_0 rt marshaler server req pathParams = failed st /\
     request_HostService_DeleteHost_0 rt marshaler client req pathParams = failed st /\
     local_request_HostService_DeleteHost_0 rt marshaler server req pathParams = failed st) /\
  (forall st,
     firstFailure rt pathParams ["org"; "project"; "catalog_id"] = Some st ->
     request_HostService_ListHosts_0 rt marshaler client req pathParams = failed st /\
     local_request_HostService_ListHosts_0 rt marshaler server req pathParams = failed st) /\
  (forall pre k post,
     Forall (fun k' => exists val x,
               pathParams !! k' = Some val /\ runtime_String rt val = (x, None)) pre ->
     pathParams !! k = None ->
     firstFailure rt pathParams (pre ++ k :: post) = Some (MissingParameter k)).
Proof.
  split; [|split; [|apply firstFailure_missing]].
  - intros st. translate.
    destruct (pathParam rt pathParams "org"); [intros [= ->]; auto|].
    destruct (pathParam rt pathParams "project"); [intros [= ->]; auto|].
    destruct (pathParam rt pathParams "catalog_id"); [intros [= ->]; auto|].
    destruct (pathParam rt pathParams "id"); [intros [= ->]; auto|].
    discriminate.
  - intros st. translate.
    destruct (pathParam rt pathParams "org"); [intros [= ->]; auto|].
    destruct (pathParam rt pathParams "project"); [intros [= ->]; auto|].
    destruct (pathParam rt pathParams "catalog_id"); [intros [= ->]; auto|].
    discriminate.
Qed.

(** X23.  The translators of the operations with a body read and decode
    the body before they look at any path parameter: a body that cannot
    be read, or that does not decode, is what they report, whatever the
    path parameters are. *)
Theorem body_checked_first rt marshaler client server req pathParams e :
  snd (utilities_IOReaderFactory rt (Body req)) = Some e \/
  (snd (utilities_IOReaderFactory rt (Body req)) = None /\
   snd (Decode marshaler (fst (utilities_IOReaderFactory rt (Body req)))) =
     Some (DecodeFailure e)) ->
  request_HostService_CreateHost_0 rt marshaler client req pathParams =
    failed (InvalidArgument e) /\
  local_request_HostService_CreateHost_0 rt marshaler server req pathParams =
    failed (InvalidArgument e) /\
  request_HostService_UpdateHost_0 rt marshaler client req pathParams =
    failed (InvalidArgument e) /\
  local_request_HostService_UpdateHost_0 rt marshaler server req pathParams =
    failed (InvalidArgument e).
Proof.
  translate.
  destruct (utilities_IOReaderFactory rt (Body req)) as [buf berr]. cbn [fst snd].
  intros [->|[-> Hd]]; [auto|].
  destruct (Decode marshaler buf) as [item derr]. cbn [snd] in Hd. subst derr. auto.
Qed.

(** X24.  The end of the body is not an error to the translators: a
    decoder that reports [io.EOF] is answered like one that reports
    nothing. *)
Theorem end_of_body_accepted rt marshaler marshaler' client server req pathParams item :
  Decode marshaler (fst (utilities_IOReaderFactory rt (Body req))) = (item, Some io_EOF) ->
  Decode marshaler' (fst (utilities_IOReaderFactory rt (Body req))) = (item, None) ->
  request_HostService_CreateHost_0 rt marshaler client req pathParams =
    request_HostService_CreateHost_0 rt marshaler' client req pathParams /\
  local_request_HostService_CreateHost_0 rt marshaler server req pathParams =
    local_request_HostService_CreateHost_0 rt marshaler' server req pathParams /\
  request_HostService_UpdateHost_0 rt marshaler client req pathParams =
    request_HostService_UpdateHost_0 rt marshaler' client req pathParams /\
  local_request_HostService_UpdateHost_0 rt marshaler server req pathParams =
    local_request_HostService_UpdateHost_0 rt marshaler' server req pathParams.
Proof.
  translate.
  destruct (utilities_IOReaderFactory rt (Body req)) as [buf [berr|]]; cbn [fst];
    [auto|].
  intros -> ->. auto.
Qed.

(** X25.  [UpdateHost] always takes the field mask from the body: when
    the mask cannot be derived the translators return that error, before
    any path parameter is looked at; otherwise the derived mask is in the
    request that meets the query parameters. *)
Theorem update_mask_from_body rt marshaler client server req pathParams buf item derr :
  utilities_IOReaderFactory rt (Body req) = (buf, None) ->
  Decode marshaler buf = (item, derr) ->
  derr = None \/ derr = Some io_EOF ->
  (forall fieldMask e,
     runtime_FieldMaskFromRequestBody rt buf = (fieldMask, Some e) ->
     request_HostService_UpdateHost_0 rt marshaler client req pathParams =
       failed (InvalidArgument e) /\
     local_request_HostService_UpdateHost_0 rt marshaler server req pathParams =
       failed (InvalidArgument e)) /\
  (forall fieldMask org project catalog_id id,
     runtime_FieldMaskFromRequestBody rt buf = (fieldMask, None) ->
     pathParam rt pathParams "org" = inr org ->
     pathParam rt pathParams "project" = inr project ->
     pathParam rt pathParams "catalog_id" = inr catalog_id ->
     pathParam rt pathParams "id" = inr id ->
     local_request_HostService_UpdateHost_0 rt marshaler server req pathParams =
       finish (fun protoReq => fromServer (server_UpdateHost server protoReq))
         (orInvalid (PopulateQueryParameters_UpdateHost rt
                       {| update_Org := org; update_Project := project;
                          update_CatalogId := catalog_id; update_Id := id;
                          update_Item := item; update_UpdateMask := fieldMask |}
                       (URL_Query req))) /\
     request_HostService_UpdateHost_0 rt marshaler client req pathParams =
       finish (fun protoReq => fromClient (client_UpdateHost client protoReq))
         (form ← orInvalid (http_ParseForm rt req);
          orInvalid (PopulateQueryParameters_UpdateHost rt
                       {| update_Org := org; update_Project := project;
                          update_CatalogId := catalog_id; update_Id := id;
                          update_Item := item; update_UpdateMask := fieldMask |}
                       form))).
Proof.
  intros Hf Hd Hderr. split.
  - intros fieldMask e Hm. translate. rewrite Hf, Hd.
    destruct Hderr as [->| ->]; cbn [length Nat.eqb]; rewrite Hm; auto.
  - intros fieldMask org project catalog_id id Hm Ho Hp Hc Hi.
    translate. rewrite Hf, Hd.
    destruct Hderr as [->| ->]; cbn [length Nat.eqb]; rewrite Hm, Ho, Hp, Hc, Hi; auto.
Qed.

(** X26.  The translators that call the server in process never return
    metadata: neither when they return early nor with the answer of the
    server. *)
Theorem local_replies_carry_no_metadata rt marshaler client server req pathParams :
  reply_metadata (local_request_HostService_GetHost_0 rt marshaler server req pathParams)
    = noMetadata /\
  reply_metadata (local_request_HostService_ListHosts_0 rt marshaler server req pathParams)
    = noMetadata /\
  reply_metadata (local_request_HostService_CreateHost_0 rt marshaler server req pathParams)
    = noMetadata /\
  reply_metadata (local_request_HostService_UpdateHost_0 rt marshaler server req pathParams)
    = noMetadata /\
  reply_metadata (local_request_HostService_DeleteHost_0 rt marshaler server req pathParams)
    = noMetadata.
Proof.
  repeat split; translate; unfold fromServer; answers; reflexivity.
Qed.

(** X30.  A translator either returns early, with one of its own
    errors, no message and no metadata, or hands back what the backend
    answered to one call, as it is: the message, the error and, from the
    client, the metadata. *)
Theorem replies_pass_through rt marshaler client server req pathParams :
  earlyOr (fun protoReq => fromClient (client_GetHost client protoReq))
    (request_HostService_GetHost_0 rt marshaler client req pathParams) /\
  earlyOr (fun protoReq => fromClient (client_ListHosts client protoReq))
    (request_HostService_ListHosts_0 rt marshaler client req pathParams) /\
  earlyOr (fun protoReq => fromClient (client_CreateHost client protoReq))
    (request_HostService_CreateHost_0 rt marshaler client req pathParams) /\
  earlyOr (fun protoReq => fromClient (client_UpdateHost client protoReq))
    (request_HostService_UpdateHost_0 rt marshaler client req pathParams) /\
  earlyOr (fun protoReq => fromClient (client_DeleteHost client protoReq))
    (request_HostService_DeleteHost_0 rt marshaler client req pathParams) /\
  earlyOr (fun protoReq => fromServer (server_GetHost server protoReq))
    (local_request_HostService_GetHost_0 rt marshaler server req pathParams) /\
  earlyOr (fun protoReq => fromServer (server_ListHosts server protoReq))
    (local_request_HostService_ListHosts_0 rt marshaler server req pathParams) /\
  earlyOr (fun protoReq => fromServer (server_CreateHost server protoReq))
    (local_request_HostService_CreateHost_0 rt marshaler server req pathParams) /\
  earlyOr (fun protoReq => fromServer (server_UpdateHost server protoReq))
    (local_request_HostService_UpdateHost_0 rt marshaler server req pathParams) /\
  earlyOr (fun protoReq => fromServer (server_DeleteHost server protoReq))
    (local_request_HostService_DeleteHost_0 rt marshaler server req pathParams).
Proof.
  unfold earlyOr. repeat split; translate.
  all: repeat match goal with
              | |- context [match ?x with _ => _ end] =>
                  lazymatch x with
                  | context [match _ with _ => _ end] => fail
                  | _ => destruct x
                  end
              end.
  all: first [ left; eexists; reflexivity | right; eexists; reflexivity ].
Qed.

End GatewayProperties.

(** * The properties at work on the sample runs *)

Import Sample.

(** ** Listener checks *)

(** C3 as stated fails: a listener declaring "api" three times passes the
    rules for a single listener and serves "api", no listener serves
    "cluster", and yet the validation passes and [Run] goes on to set up
    the listeners. *)
Lemma C3_counterexample :
  Forall passesOwnRules tripleOnly /\
  Exists (serves "api") tripleOnly /\
  ~ Exists (serves "cluster") tripleOnly /\
  validateListeners tripleOnly = (tripleOnly, None) /\
  calls "SetupListeners" (trace (stateOf (Run (prodEnv tripleOnly) [] [] fresh))) = 1%nat.
Proof.
  split; [|split; [|split; [|split]]].
  - constructor; [|constructor]. intros fc fa. do 3 eexists. reflexivity.
  - left. right. simpl. auto.
  - intros H. apply Exists_cons in H as [[H|H]|H].
    + discriminate H.
    + simpl in H. intuition discriminate.
    + apply Exists_nil in H. exact H.
  - reflexivity.
  - vm_compute. reflexivity.
Qed.

Lemma C3_witness :
  (reachesChecks (prodEnv (Listeners apiAndTriple)) [] fresh apiAndTriple /\
   Forall passesOwnRules (Listeners apiAndTriple) /\
   Exists (fun ln => (length (Purpose ln) <= 2)%nat /\ serves "api" ln)
     (Listeners apiAndTriple) /\
   ~ Exists (serves "cluster") (Listeners apiAndTriple) /\
   failsAtChecks (prodEnv (Listeners apiAndTriple)) [] [] fresh NoClusterListener) /\
  (reachesChecks (prodEnv (Listeners clusterOnly)) [] fresh clusterOnly /\
   Forall passesOwnRules (Listeners clusterOnly) /\
   ~ Exists (serves "api") (Listeners clusterOnly) /\
   validateListeners (Listeners clusterOnly) = (Listeners clusterOnly, None)).
Proof.
  assert (HrA : reachesChecks (prodEnv (Listeners apiAndTriple)) [] fresh apiAndTriple)
    by (eexists; split; vm_compute; reflexivity).
  assert (HrC : reachesChecks (prodEnv (Listeners clusterOnly)) [] fresh clusterOnly)
    by (eexists; split; vm_compute; reflexivity).
  assert (HpA : Forall passesOwnRules (Listeners apiAndTriple))
    by (repeat constructor; intros fc fa; do 3 eexists; reflexivity).
  assert (HpC : Forall passesOwnRules (Listeners clusterOnly))
    by (repeat constructor; intros fc fa; do 3 eexists; reflexivity).
  assert (HeA : Exists (fun ln => (length (Purpose ln) <= 2)%nat /\ serves "api" ln)
                  (Listeners apiAndTriple))
    by (left; split; [simpl; lia|right; simpl; auto]).
  assert (HnA : ~ Exists (serves "cluster") (Listeners apiAndTriple)).
  { intros H. repeat (apply Exists_cons in H as [[H|H]|H];
                      [discriminate H|simpl in H; intuition discriminate|]).
    apply Exists_nil in H. exact H. }
  assert (HnC : ~ Exists (serves "api") (Listeners clusterOnly)).
  { intros H. repeat (apply Exists_cons in H as [[H|H]|H];
                      [discriminate H|simpl in H; intuition discriminate|]).
    apply Exists_nil in H. exact H. }
  split.
  - repeat (split; [assumption|]).
    exact (proj1 (C3_topology_check (prodEnv (Listeners apiAndTriple)) [] [] fresh
                    apiAndTriple HrA HpA) HeA HnA).
  - repeat (split; [assumption|]).
    exact (proj1 (proj2 (C3_topology_check (prodEnv (Listeners clusterOnly)) [] [] fresh
                           clusterOnly HrC HpC) HnC)).
Defined.


Lemma C9_witness :
  Purpose defaultListener = [] /\ ["cluster"; "api"] ≡ₚ ["api"; "cluster"] /\
  snd (validateListeners withDefault) = snd (validateListeners withPair).
Proof.
  assert (Hnil : Purpose defaultListener = []) by reflexivity.
  assert (Hps : ["cluster"; "api"] ≡ₚ ["api"; "cluster"]) by apply perm_swap.
  split; [exact Hnil|]. split; [exact Hps|].
  exact (proj1 (proj2 (proj2 (@C9_empty_is_both World [clusterListener] [apiListener]
                                 defaultListener ["cluster"; "api"] Hnil Hps)))).
Defined.

Lemma C10_witness :
  (3 <= length (Purpose tripleApiListener))%nat /\
  checkListener tripleApiListener false true = Marked tripleApiListener false true /\
  Forall (fun ln => (3 <= length (Purpose ln))%nat) tripleOnly /\
  validateListeners tripleOnly = (tripleOnly, None).
Proof.
  assert (H3 : (3 <= length (Purpose tripleApiListener))%nat) by (simpl; lia).
  assert (Hall : Forall (fun ln => (3 <= length (Purpose ln))%nat) tripleOnly)
    by (repeat constructor; simpl; lia).
  split; [exact H3|]. split.
  - exact (proj1 (@C10_three_or_more_unexamined World) tripleApiListener false true H3).
  - split; [exact Hall|].
    exact (proj1 (proj2 (proj2 (@C10_three_or_more_unexamined World) _ Hall))).
Defined.

(** ** Reload *)

(** Two callbacks under one key, the first failing: both run, and the
    result is one aggregate with the one failure. *)
Example reload_two_callbacks :
  Reload ["metrics"; "listener|tcp"] true serving =
    Cont (Some [ErrWrap "error encountered reloading listener" (ErrExt "first")])
      (stateOf (Reload ["metrics"; "listener|tcp"] true serving)) /\
  world (stateOf (Reload ["metrics"; "listener|tcp"] true serving)) = ["first"; "second"] /\
  invokedOf (trace (stateOf (Reload ["metrics"; "listener|tcp"] true serving))) =
    [("listener|tcp", 0%nat); ("listener|tcp", 1%nat)].
Proof. split; [|split]; vm_compute; reflexivity. Qed.

(** C6 as stated fails when [c.Logger] is nil: with a path set, a re-read
    that fails, or that gives no configuration, makes the handler panic at
    the call that would log it.  The handler does not get to the reload
    callbacks, of which two are selected, and the loop ends there, before
    the shutdown trigger. *)
Lemma C6_counterexample :
  ld_err failedLoad <> None /\ ld_conf noLoad = None /\
  handleSighup (prodEnv []) failedLoad ["metrics"; "listener|tcp"] true mute =
    Stop Panicked
      (set_trace [UIOutput (Text "==> Watchtower controller reload triggered")] mute) /\
  handleSighup (prodEnv []) noLoad ["metrics"; "listener|tcp"] true mute =
    Stop Panicked
      (set_trace [UIOutput (Text "==> Watchtower controller reload triggered")] mute) /\
  map fst (selected (ReloadFuncs (Server mute)) ["metrics"; "listener|tcp"]) =
    [("listener|tcp", 0%nat); ("listener|tcp", 1%nat)] /\
  WaitForInterrupt (prodEnv [])
    [SighupCh_recv failedLoad ["metrics"; "listener|tcp"] true; ShutdownCh_recv false] mute =
    Stop Panicked
      (set_trace [UIOutput (Text "==> Watchtower controller reload triggered")] mute).
Proof.
  split; [discriminate|]. split; [reflexivity|].
  split; [|split; [|split]]; vm_compute; reflexivity.
Qed.

Lemma C6_witness :
  ld_err failedLoad <> None /\ Logger (Server servingFile) <> None /\
  exists c',
    WaitForInterrupt (prodEnv [])
      [SighupCh_recv failedLoad ["metrics"; "listener|tcp"] true; ShutdownCh_recv false]
      servingFile =
    WaitForInterrupt (prodEnv []) [ShutdownCh_recv false] c' /\
    invokedOf (trace c') = [("listener|tcp", 0%nat); ("listener|tcp", 1%nat)].
Proof.
  assert (He : ld_err failedLoad <> None) by discriminate.
  assert (Hl : Logger (Server servingFile) <> None) by discriminate.
  split; [exact He|]. split; [exact Hl|].
  destruct (proj1 (C6_reload_goes_on (prodEnv []) failedLoad ["metrics"; "listener|tcp"] true
                     [ShutdownCh_recv false] servingFile (or_intror (or_introl He)))
              (or_intror Hl))
    as (logs & c' & _ & _ & _ & Hinv & Hloop).
  exists c'. split; [exact Hloop|]. rewrite Hinv. vm_compute. reflexivity.
Defined.

(** C7 as stated fails across keys: of two callbacks registered under
    "listener|a" and then under "listener|b", a reload that visits the
    keys in the order b, a, which [range] over the map may take, calls
    the later one first. *)
Lemma C7_counterexample :
  ["listener|b"; "listener|a"] ≡ₚ map fst (map_to_list (registry twoKeys)) /\
  placesFrom ∅ twoKeys = [("listener|a", 0%nat); ("listener|b", 0%nat)] /\
  invokedOf (trace (stateOf (Reload ["listener|b"; "listener|a"] true servingTwo))) =
    [("listener|b", 0%nat); ("listener|a", 0%nat)] /\
  world (stateOf (Reload ["listener|b"; "listener|a"] true servingTwo)) = ["b"; "a"].
Proof.
  split; [|split; [|split]]; try (vm_compute; reflexivity).
  assert (E : map fst (map_to_list (registry twoKeys)) = ["listener|a"; "listener|b"])
    by (vm_compute; reflexivity).
  rewrite E. apply perm_swap.
Qed.

Lemma C7_witness :
  ["metrics"; "listener|tcp"] ≡ₚ map fst (map_to_list (ReloadFuncs (Server serving))) /\
  ReloadFuncs (Server serving) !! "listener|tcp" =
    Some [Some (failing "first"); Some (ok "second"); None] /\
  callsFor "listener|tcp"
    (map fst (selected (ReloadFuncs (Server serving)) ["metrics"; "listener|tcp"])) =
    [0%nat; 1%nat].
Proof.
  assert (Hperm : ["metrics"; "listener|tcp"]
                  ≡ₚ map fst (map_to_list (ReloadFuncs (Server serving)))).
  { assert (E : map fst (map_to_list (ReloadFuncs (Server serving)))
                = ["metrics"; "listener|tcp"]) by (vm_compute; reflexivity).
    rewrite E. reflexivity. }
  assert (Hm : ReloadFuncs (Server serving) !! "listener|tcp" =
               Some [Some (failing "first"); Some (ok "second"); None])
    by (vm_compute; reflexivity).
  split; [exact Hperm|]. split; [exact Hm|].
  exact (proj2 (proj2 (C7_reload_selects_by_prefix ["metrics"; "listener|tcp"] true serving))
           Hperm "listener|tcp" _ Hm).
Defined.

(** ** Shutdown *)

(** C1 as stated fails: the controller's [Shutdown] is not run under the
    guard.  After a shutdown trigger has been handled the guard is still
    unused, and a shutdown trigger handled by a further call stops the
    listeners a second time. *)
Lemma C1_counterexample :
  outcomeOf (WaitForInterrupt (prodEnv []) [ShutdownCh_recv false] serving) = None /\
  teardowns (trace afterShutdown) = 1%nat /\
  cleanupGuard afterShutdown = false /\
  teardowns (trace (stateOf (WaitForInterrupt (prodEnv []) [ShutdownCh_recv true]
                               afterShutdown))) = 2%nat.
Proof. repeat split; vm_compute; reflexivity. Qed.

Lemma C1_witness :
  controller serving <> None /\ Logger (Server serving) <> None /\
  (exists closed, In (ShutdownCh_recv closed)
                    [SigUSR2Ch_recv; ShutdownCh_recv false; ShutdownCh_recv true]) /\
  exists c',
    WaitForInterrupt (prodEnv []) [SigUSR2Ch_recv; ShutdownCh_recv false; ShutdownCh_recv true]
      serving = Cont 0 c' /\
    teardowns (trace c') = 1%nat.
Proof.
  assert (Hk : controller serving <> None) by discriminate.
  assert (Hl : Logger (Server serving) <> None) by discriminate.
  assert (Hin : exists closed, In (ShutdownCh_recv closed)
                  [SigUSR2Ch_recv; ShutdownCh_recv false; ShutdownCh_recv true])
    by (exists false; simpl; auto).
  destruct (C1_shutdown_once_per_call (prodEnv [])
              [SigUSR2Ch_recv; ShutdownCh_recv false; ShutdownCh_recv true] serving)
    as (_ & _ & Hret & _ & _ & Htot).
  destruct (Htot Hk Hl Hin) as [c' Hc'].
  split; [exact Hk|]. split; [exact Hl|]. split; [exact Hin|]. exists c'. split; [exact Hc'|].
  destruct (Hret 0 c' Hc') as [_ Hn]. exact Hn.
Defined.



(** ** The configuration *)

(** C8 as stated fails: in dev mode with an address given for "api", the
    run changes the address of the "api" listener and fills in the purposes
    of the listener that declared none. *)
Lemma C8_counterexample :
  ld_conf (config_DevController (devEnv None)) =
    Some (configOf [apiListener; clusterListener; defaultListener]) /\
  outcomeOf (Run (devEnv None) [ShutdownCh_recv false] [] fresh) = Some (Returned 0) /\
  Config (stateOf (Run (devEnv None) [ShutdownCh_recv false] [] fresh)) =
    Some (configOf [set_Address "0.0.0.0:9200" apiListener; clusterListener;
                    set_Purpose ["api"; "cluster"] defaultListener]) /\
  Address (set_Address "0.0.0.0:9200" apiListener) <> Address apiListener /\
  Purpose (set_Purpose ["api"; "cluster"] defaultListener) <> Purpose defaultListener.
Proof.
  split; [reflexivity|]. split; [vm_compute; reflexivity|].
  split; [vm_compute; reflexivity|]. split; discriminate.
Qed.

Lemma C8_witness :
  length (Purpose defaultListener) <> 1%nat /\
  devListenerAddress devFlags defaultListener = defaultListener.
Proof.
  assert (H : length (Purpose defaultListener) <> 1%nat) by discriminate.
  split; [exact H|].
  exact (proj2 (proj2 (proj1 (proj2 (C8_config_frame (devEnv None) [] [] fresh))
                         defaultListener)) H).
Defined.

(** ** The further properties *)

Lemma validateListeners_accepts_iff_witness :
  snd (validateListeners withDefault) = None /\
  fst (validateListeners withDefault) = map defaulted withDefault.
Proof.
  assert (H : snd (validateListeners withDefault) = None) by reflexivity.
  split; [exact H|].
  exact (proj1 (proj2 (validateListeners_accepts_iff withDefault)) H).
Defined.

Lemma validateListeners_stops_at_first_witness :
  Forall passesOwnRules [defaultListener] /\
  checkListener webListener false false =
    Rejected (defaulted webListener) (InvalidListenerPurposeSet ["api"; "web"]) /\
  validateListeners [defaultListener; webListener; plainDefaultListener] =
    ([set_Purpose ["api"; "cluster"] defaultListener; webListener; plainDefaultListener],
     Some (InvalidListenerPurposeSet ["api"; "web"])).
Proof.
  assert (Hpre : Forall passesOwnRules [defaultListener])
    by (repeat constructor; intros fc fa; do 3 eexists; reflexivity).
  assert (Hrej : checkListener webListener false false =
                 Rejected (defaulted webListener) (InvalidListenerPurposeSet ["api"; "web"]))
    by reflexivity.
  split; [exact Hpre|]. split; [exact Hrej|].
  exact (proj1 (@validateListeners_stops_at_first World [defaultListener] webListener
                  [plainDefaultListener] _ Hpre Hrej)).
Defined.

Lemma unknown_purpose_rejected_witness :
  Purpose shoutingListener = ["API"] /\
  checkListener shoutingListener true true =
    Rejected shoutingListener (UnknownListenerPurpose "API").
Proof.
  assert (HP : Purpose shoutingListener = ["API"]) by reflexivity.
  assert (Ha : "API" <> "api") by discriminate.
  assert (Hc : "API" <> "cluster") by discriminate.
  split; [exact HP|].
  exact (proj1 (@unknown_purpose_rejected World shoutingListener "API" HP Ha Hc) true true).
Defined.

Lemma startup_fails_with_error_witness :
  startup (devEnv (Some (ErrExt "docker"))) [] fresh = Stop (Returned 1) afterFailedStartup /\
  (exists t m, trace afterFailedStartup = (trace fresh ++ t ++ [UIError m])%list) /\
  Run (devEnv (Some (ErrExt "docker"))) [ShutdownCh_recv false] [] fresh =
    Stop (Returned 1) afterFailedStartup.
Proof.
  assert (H : startup (devEnv (Some (ErrExt "docker"))) [] fresh
              = Stop (Returned 1) afterFailedStartup) by (vm_compute; reflexivity).
  split; [exact H|].
  exact (proj2 (startup_fails_with_error (devEnv (Some (ErrExt "docker")))
                  [ShutdownCh_recv false] [] fresh 1 afterFailedStartup H)).
Defined.

Lemma startup_panics_iff_witness :
  exists c1,
    startup (withLoader noLoad (prodEnv [])) [] fresh = Stop Panicked c1.
Proof.
  apply (proj2 (proj1 (startup_panics_iff (withLoader noLoad (prodEnv [])) [] fresh))).
  split; [reflexivity|]. split; [discriminate|]. split; reflexivity.
Defined.

Lemma admin_password_outside_dev_witness :
  ParseFlagsAndConfig passwordEnv [] fresh = Cont 0 afterPasswordParse /\
  flagDevAdminPassword (flags afterPasswordParse) = EmptyString /\
  trace afterPasswordParse = [UIWarn AdminPasswordIgnored].
Proof.
  assert (H : ParseFlagsAndConfig passwordEnv [] fresh = Cont 0 afterPasswordParse)
    by (vm_compute; reflexivity).
  destruct (admin_password_outside_dev passwordEnv [] fresh afterPasswordParse H)
    as (_ & Hf & Ht).
  split; [exact H|]. split; [rewrite Hf; reflexivity|exact Ht].
Defined.

Lemma dev_listen_addresses_witness :
  ParseFlagsAndConfig (devEnv None) [] fresh = Cont 0 afterDevParse /\
  exists cfg1,
    Config afterDevParse = Some cfg1 /\
    Forall2 (devAddressed devFlags) [apiListener; clusterListener; defaultListener]
      (Listeners cfg1).
Proof.
  assert (H : ParseFlagsAndConfig (devEnv None) [] fresh = Cont 0 afterDevParse)
    by (vm_compute; reflexivity).
  split; [exact H|].
  exact (dev_listen_addresses (devEnv None) [] fresh afterDevParse
           (configOf [apiListener; clusterListener; defaultListener]) H eq_refl eq_refl).
Defined.

Lemma controller_New_result_witness :
  Config afterLockingStartup = Some lockingConfig /\
  exists k err c1,
    controller_New noLockEnv afterLockingStartup = Cont (k, err) c1 /\
    (k = None <-> err <> None) /\
    calls "mlock.LockMemory" (trace c1) =
      (calls "mlock.LockMemory" (trace afterLockingStartup) + 1)%nat.
Proof.
  assert (H : Config afterLockingStartup = Some lockingConfig) by reflexivity.
  split; [exact H|].
  destruct (controller_New_result noLockEnv afterLockingStartup lockingConfig H)
    as (k & err & c1 & Hnew & _ & Hk & _ & _ & Hcalls).
  exists k, err, c1. split; [exact Hnew|]. split; [exact Hk|exact Hcalls].
Defined.

Lemma Start_succeeds_iff_witness :
  Config afterStartup = Some (configOf [apiListener; clusterListener]) /\
  exists c1, Start (prodEnv [apiListener; clusterListener]) afterStartup = Cont None c1.
Proof.
  assert (H : Config afterStartup = Some (configOf [apiListener; clusterListener]))
    by (vm_compute; reflexivity).
  split; [exact H|].
  apply (proj2 (proj1 (Start_succeeds_iff (prodEnv [apiListener; clusterListener])
                         afterStartup _ H))).
  split; [left; reflexivity|reflexivity].
Defined.

Lemma Start_rolls_back_witness :
  Config afterStartup = Some (configOf [apiListener; clusterListener]) /\
  startListeners brokenListenersEnv = Some (ErrExt "bind") /\
  exists err c1,
    Start brokenListenersEnv afterStartup = Cont (Some err) c1 /\
    teardowns (trace c1) = (teardowns (trace afterStartup) + 1)%nat.
Proof.
  assert (H : Config afterStartup = Some (configOf [apiListener; clusterListener]))
    by (vm_compute; reflexivity).
  assert (Hs : startListeners brokenListenersEnv = Some (ErrExt "bind")) by reflexivity.
  split; [exact H|]. split; [exact Hs|].
  destruct (Start_rolls_back brokenListenersEnv afterStartup _ _ H (or_introl eq_refl) Hs)
    as (err & c1 & Hstart & _ & _ & Ht & _).
  exists err, c1. split; [exact Hstart|exact Ht].
Defined.

Lemma Start_lock_failure_witness :
  Config afterLockingStartup = Some lockingConfig /\
  mlock_LockMemory noLockEnv = Some (ErrExt "mlock") /\
  exists c1,
    Start noLockEnv afterLockingStartup =
      Cont (Some (ErrWrap "Error initializing controller"
                    (ErrWrap "Failed to lock memory" (ErrExt "mlock")))) c1 /\
    controller c1 = None.
Proof.
  assert (H : Config afterLockingStartup = Some lockingConfig) by reflexivity.
  assert (Hl : mlock_LockMemory noLockEnv = Some (ErrExt "mlock")) by reflexivity.
  split; [exact H|]. split; [exact Hl|].
  destruct (Start_lock_failure noLockEnv afterLockingStartup lockingConfig _ H eq_refl Hl)
    as (c1 & Hstart & Hk & _).
  exists c1. split; [exact Hstart|exact Hk].
Defined.

Lemma SetLogLevel_all_loggers_witness :
  controller serving <> None /\
  exists c1,
    controller_SetLogLevel Warn serving = Cont tt c1 /\
    Forall (fun l => l = Warn) (AllLoggers (Server c1)).
Proof.
  assert (Hk : controller serving <> None) by discriminate.
  split; [exact Hk|].
  destruct (SetLogLevel_all_loggers Debug Warn serving Hk) as (c1 & Hset & _ & Hall & _).
  exists c1. split; [exact Hset|exact Hall].
Defined.

Lemma reload_sets_log_level_witness :
  levelOf (toLower (trimSpace " DEBUG ")) = Some Debug /\
  exists c1,
    handleSighup (prodEnv []) debugLoad ["listener|tcp"] true servingFile = Cont tt c1 /\
    AllLoggers (Server c1) = [Debug].
Proof.
  assert (Hlv : levelOf (toLower (trimSpace " DEBUG ")) = Some Debug)
    by (vm_compute; reflexivity).
  split; [exact Hlv|].
  assert (Hk : controller servingFile <> None) by discriminate.
  assert (Hp : flagConfig (flags servingFile) <> EmptyString) by discriminate.
  assert (Hl : " DEBUG " <> EmptyString) by discriminate.
  destruct (reload_sets_log_level (prodEnv []) debugLoad ["listener|tcp"] true servingFile
              _ Debug Hk Hp eq_refl eq_refl Hl Hlv) as (c1 & Hrun & Hall & _).
  exists c1. split; [exact Hrun|exact Hall].
Defined.

Lemma reload_keeps_log_level_witness :
  levelOf (toLower (trimSpace "loud")) = None /\
  (exists c1,
     handleSighup (prodEnv []) loudLoad ["listener|tcp"] true servingFile = Cont tt c1 /\
     Server c1 = Server servingFile) /\
  handleSighup (prodEnv []) loudLoad ["listener|tcp"] true mute =
    Stop Panicked
      (set_trace (trace mute ++ [UIOutput (Text "==> Watchtower controller reload triggered")])
         mute).
Proof.
  assert (Hlv : levelOf (toLower (trimSpace "loud")) = None) by (vm_compute; reflexivity).
  split; [exact Hlv|].
  assert (Hp : flagConfig (flags servingFile) <> EmptyString) by discriminate.
  assert (Hl : Logger (Server servingFile) <> None) by discriminate.
  assert (Hp' : flagConfig (flags mute) <> EmptyString) by discriminate.
  assert (Hne : "loud" <> EmptyString) by discriminate.
  split.
  - destruct (proj1 (reload_keeps_log_level (prodEnv []) loudLoad ["listener|tcp"] true
                       servingFile _ Hp eq_refl eq_refl (or_intror Hlv))
                (or_intror Hl)) as (logs & c1 & Hrun & Hs & _).
    exists c1. split; [exact Hrun|exact Hs].
  - exact (proj2 (reload_keeps_log_level (prodEnv []) loudLoad ["listener|tcp"] true
                    mute _ Hp' eq_refl eq_refl (or_intror Hlv))
             Hne eq_refl).
Defined.

Lemma loop_reloads_per_trigger_witness :
  controller serving <> None /\ Logger (Server serving) <> None /\
  invokedOf (trace (stateOf (WaitForInterrupt (prodEnv []) busySchedule serving))) =
    [("listener|tcp", 0%nat); ("listener|tcp", 1%nat);
     ("listener|tcp", 0%nat); ("listener|tcp", 1%nat)].
Proof.
  assert (Hk : controller serving <> None) by discriminate.
  assert (Hl : Logger (Server serving) <> None) by discriminate.
  split; [exact Hk|]. split; [exact Hl|].
  exact (loop_reloads_per_trigger (prodEnv []) busySchedule serving Hk Hl).
Defined.

Lemma loop_left_only_by_shutdown_witness :
  (WaitForInterrupt (prodEnv []) busySchedule serving =
     Cont 0 (stateOf (WaitForInterrupt (prodEnv []) busySchedule serving)) /\
   exists closed, In (ShutdownCh_recv closed) busySchedule) /\
  (controller mute <> None /\
   exists c', WaitForInterrupt (prodEnv []) busySchedule mute = Stop Panicked c').
Proof.
  assert (H : WaitForInterrupt (prodEnv []) busySchedule serving =
              Cont 0 (stateOf (WaitForInterrupt (prodEnv []) busySchedule serving)))
    by (vm_compute; reflexivity).
  assert (Hk : controller mute <> None) by discriminate.
  split.
  - split; [exact H|].
    exact (proj2 (proj1 (loop_left_only_by_shutdown (prodEnv []) busySchedule serving) _ _ H)).
  - split; [exact Hk|].
    apply (proj2 (proj2 (proj2 (proj2 (proj2 (loop_left_only_by_shutdown (prodEnv [])
                                                busySchedule mute)))) Hk)).
    split; vm_compute; reflexivity.
Defined.

Lemma reload_trigger_order_witness :
  handleSighup (prodEnv []) noLoad ["metrics"; "listener|tcp"] true serving =
    Cont tt afterReload /\
  exists logs,
    trace afterReload =
      (UIOutput (Text "==> Watchtower controller reload triggered") :: logs
       ++ [Invoked "listener|tcp" 0; Invoked "listener|tcp" 1; ReloadedCh_send true;
           UIError (ReloadErrors
                      [ErrWrap "error encountered reloading listener" (ErrExt "first")])])%list.
Proof.
  assert (H : handleSighup (prodEnv []) noLoad ["metrics"; "listener|tcp"] true serving =
              Cont tt afterReload) by (vm_compute; reflexivity).
  split; [exact H|].
  destruct (reload_trigger_order (prodEnv []) noLoad ["metrics"; "listener|tcp"] true
              serving afterReload H) as (logs & _ & Ht).
  exists logs. exact Ht.
Defined.

Lemma Run_success_call_order_witness :
  Run (prodEnv [apiListener; clusterListener])
    [SigUSR2Ch_recv; SigUSR2Ch_recv; ShutdownCh_recv false; SigUSR2Ch_recv] []
    fresh = Stop (Returned 0) afterTwoDumps /\
  callNames (trace afterTwoDumps) =
    ["SetupLogging"; "StartMemProfiler"; "SetupMetrics"; "SetupKMSes"; "SetupListeners";
     "StorePidFile"; "PrintInfo"; "ReleaseLogGate"; "startListeners";
     "runtime.Stack"; "runtime.Stack"; "stopListeners"; "RunShutdownFuncs"].
Proof.
  assert (H : Run (prodEnv [apiListener; clusterListener])
                [SigUSR2Ch_recv; SigUSR2Ch_recv; ShutdownCh_recv false; SigUSR2Ch_recv] []
                fresh = Stop (Returned 0) afterTwoDumps)
    by (vm_compute; reflexivity).
  split; [exact H|].
  destruct (Run_success_call_order (prodEnv [apiListener; clusterListener])
              [SigUSR2Ch_recv; SigUSR2Ch_recv; ShutdownCh_recv false; SigUSR2Ch_recv] []
              fresh afterTwoDumps H)
    as (c1 & cfg & Hstart & Hcfg & Hnames).
  rewrite Hnames.
  assert (Hc1 : Cont tt afterStartup = Cont tt c1 :> Res World unit)
    by (rewrite <- Hstart; vm_compute; reflexivity).
  injection Hc1 as <-.
  assert (Hcfg' : Config afterStartup = Some (configOf [apiListener; clusterListener]))
    by (vm_compute; reflexivity).
  rewrite Hcfg' in Hcfg. injection Hcfg as <-. reflexivity.
Defined.


(** A run whose startup leaves no logger panics at the first dump signal:
    the listeners are up and are not stopped, the shutdown trigger behind
    the signal is not received, and the deferred shutdown actions still
    run.  A reload trigger with nothing to log goes through without a
    logger. *)
Example run_without_logger :
  Logger (Server afterMuteStartup) = None /\
  outcomeOf (Run muteEnv [SigUSR2Ch_recv; ShutdownCh_recv false] [] fresh) = Some Panicked /\
  callNames (trace (stateOf (Run muteEnv [SigUSR2Ch_recv; ShutdownCh_recv false] [] fresh))) =
    ["SetupLogging"; "StartMemProfiler"; "SetupMetrics"; "SetupKMSes"; "SetupListeners";
     "StorePidFile"; "PrintInfo"; "ReleaseLogGate"; "startListeners"; "runtime.Stack";
     "RunShutdownFuncs"] /\
  ranActions (trace (stateOf (Run muteEnv [SigUSR2Ch_recv; ShutdownCh_recv false] [] fresh))) =
    [0%nat] /\
  outcomeOf (Run muteEnv [SighupCh_recv debugLoad ["listener|tcp"] true; ShutdownCh_recv false]
               [] fresh) = Some (Returned 0).
Proof. split; [|split; [|split; [|split]]]; vm_compute; reflexivity. Qed.

(** ** The gateway *)

Lemma path_parameters_in_order_witness :
  GatewaySample.orgOnly !! "org" = Some "o1" /\
  GatewaySample.orgOnly !! "project" = None /\
  request_HostService_GetHost_0 GatewaySample.rt GatewaySample.jsonpb GatewaySample.client
    GatewaySample.emptyRequest GatewaySample.orgOnly = failed (MissingParameter "project") /\
  local_request_HostService_ListHosts_0 GatewaySample.rt GatewaySample.jsonpb
    GatewaySample.server GatewaySample.emptyRequest GatewaySample.orgOnly =
    failed (MissingParameter "project").
Proof.
  assert (Ho : GatewaySample.orgOnly !! "org" = Some "o1") by (vm_compute; reflexivity).
  assert (Hp : GatewaySample.orgOnly !! "project" = None) by (vm_compute; reflexivity).
  split; [exact Ho|]. split; [exact Hp|].
  destruct (path_parameters_in_order GatewaySample.rt GatewaySample.jsonpb
              GatewaySample.client GatewaySample.server GatewaySample.emptyRequest
              GatewaySample.orgOnly) as (H4 & H3 & Hfirst).
  assert (Hpre : Forall (fun k' => exists val x,
                           GatewaySample.orgOnly !! k' = Some val /\
                           runtime_String GatewaySample.rt val = (x, None)) ["org"])
    by (repeat constructor; exists "o1", "o1"; split; [exact Ho|reflexivity]).
  split.
  - exact (proj1 (H4 _ (Hfirst ["org"] "project" ["catalog_id"; "id"] Hpre Hp))).
  - exact (proj2 (H3 _ (Hfirst ["org"] "project" ["catalog_id"] Hpre Hp))).
Defined.

Lemma body_checked_first_witness :
  snd (Decode GatewaySample.jsonpb
         (fst (utilities_IOReaderFactory GatewaySample.rt (Body GatewaySample.cutRequest)))) =
    Some (DecodeFailure "unexpected EOF") /\
  request_HostService_CreateHost_0 GatewaySample.rt GatewaySample.jsonpb GatewaySample.client
    GatewaySample.cutRequest GatewaySample.orgOnly =
    failed (InvalidArgument "unexpected EOF") /\
  local_request_HostService_UpdateHost_0 GatewaySample.rt GatewaySample.jsonpb
    GatewaySample.server GatewaySample.cutRequest GatewaySample.orgOnly =
    failed (InvalidArgument "unexpected EOF").
Proof.
  assert (Hd : snd (Decode GatewaySample.jsonpb
                      (fst (utilities_IOReaderFactory GatewaySample.rt
                              (Body GatewaySample.cutRequest)))) =
               Some (DecodeFailure "unexpected EOF")) by reflexivity.
  split; [exact Hd|].
  destruct (body_checked_first GatewaySample.rt GatewaySample.jsonpb GatewaySample.client
              GatewaySample.server GatewaySample.cutRequest GatewaySample.orgOnly
              "unexpected EOF" (or_intror (conj eq_refl Hd))) as (Hc & _ & _ & Hu).
  split; [exact Hc|exact Hu].
Defined.

Lemma end_of_body_accepted_witness :
  Decode GatewaySample.jsonpb EmptyString = (None, Some io_EOF) /\
  request_HostService_CreateHost_0 GatewaySample.rt GatewaySample.jsonpb GatewaySample.client
    GatewaySample.emptyRequest GatewaySample.fullPath =
  request_HostService_CreateHost_0 GatewaySample.rt GatewaySample.lenient GatewaySample.client
    GatewaySample.emptyRequest GatewaySample.fullPath.
Proof.
  assert (Hd : Decode GatewaySample.jsonpb EmptyString = (None, Some io_EOF)) by reflexivity.
  split; [exact Hd|].
  exact (proj1 (end_of_body_accepted GatewaySample.rt GatewaySample.jsonpb
                  GatewaySample.lenient GatewaySample.client GatewaySample.server
                  GatewaySample.emptyRequest GatewaySample.fullPath None Hd eq_refl)).
Defined.

Lemma update_mask_from_body_witness :
  request_HostService_UpdateHost_0 GatewaySample.rtNoMask GatewaySample.jsonpb
    GatewaySample.client GatewaySample.hostRequest GatewaySample.orgOnly =
    failed (InvalidArgument "no field mask").
Proof.
  exact (proj1 (proj1 (update_mask_from_body GatewaySample.rtNoMask GatewaySample.jsonpb
                         GatewaySample.client GatewaySample.server GatewaySample.hostRequest
                         GatewaySample.orgOnly _ _ None eq_refl eq_refl (or_introl eq_refl))
                  None "no field mask" eq_refl)).
Defined.

(** The client's header comes back with the reply of the translator that
    calls the client, not with the reply of its twin. *)
Example metadata_of_the_two_twins :
  reply_metadata (request_HostService_DeleteHost_0 GatewaySample.rt GatewaySample.jsonpb
                    GatewaySample.client GatewaySample.emptyRequest GatewaySample.fullPath) =
    {| HeaderMD := [("via", ["grpc"])]; TrailerMD := [] |} /\
  reply_metadata (local_request_HostService_DeleteHost_0 GatewaySample.rt GatewaySample.jsonpb
                    GatewaySample.server GatewaySample.emptyRequest GatewaySample.fullPath) =
    noMetadata.
Proof. split; vm_compute; reflexivity. Qed.
